(** * DataProcessor: feed search engine and concurrent fetcher

    A shallow embedding of [src/search/news_feed_search.py]
    (class [NewsFeedSearch]) and [src/scrape/async_scraper.py]
    (class [AsyncScraper]), and of the search and text functions around
    them: [src/search/google_search.py] (class [GoogleSearch]),
    [src/scrape/article_cleaner.py] (class [ArticleCleaner]) and the
    extractive summary of [src/summarize/summarizer.py].

    Python values are modelled as follows.
    - [str] is [string]; [str.split], [in] and slicing are written out
      below. Strings are compared byte by byte, which on UTF-8 text is
      Python's order by code point.
    - [int] is [Z]; [len] results and the semaphore counter, which cannot
      be negative, are [nat]. A clock reading ([time.time()], a file's
      modification time) is a [Z] in a fixed unit.
    - [datetime.date] is a record of year, month and day, compared
      lexicographically as Python does.
    - A [dict] with fixed keys is a record, [TOPICS] is a [gmap], a [set] is
      a [gset].
    - A raised exception is the [Raise] result of the monad [M], and
      [try ... except Exception] is [try_except].
    - The cache directory is a finite map from file stem to file, the
      network and the clock are oracles of an environment record, and every
      network request and cache write is recorded in a log.
    - Functions of third-party libraries (hashlib, urllib, feedparser,
      BeautifulSoup, datetime parsing, newspaper) are fields of a record
      [Lib]; every theorem holds for any behaviour of them.
    - Coroutines are run to completion one after another, except in the
      task model of [AsyncScraper], where the event loop's interleaving is
      explicit.
    - Where the case or the class of a character matters ([PyText]), a
      character is a code point below U+0100.
    - The Custom Search service, the regular expressions and the clock of
      [GoogleSearch], [ArticleCleaner] and [Summarizer] are parameters of
      their methods; a search returns its results together with the
      requests it sent. *)

From Stdlib Require Import ZArith String Ascii List Lia Bool Sorted.
From Stdlib Require Import DecimalString.
From Stdlib Require QArith.
From stdpp Require Import gmap strings list.

Open Scope string_scope.
Open Scope Z_scope.

(** ** Python string primitives *)

Module PyStr.

(** [sub in s] *)
Fixpoint contains (sub s : string) : bool :=
  if String.prefix sub s then true
  else match s with
       | EmptyString => false
       | String _ s' => contains sub s'
       end.

(** [s[n:]] for [0 <= n] *)
Fixpoint drop (n : nat) (s : string) : string :=
  match n, s with
  | O, _ => s
  | S _, EmptyString => EmptyString
  | S n', String _ s' => drop n' s'
  end.

(** [s.partition(sep)] without the middle component: the text before and
    after the first occurrence of [sep], or [None] when [sep] does not
    occur. *)
Fixpoint partition (sep s : string) : option (string * string) :=
  if String.prefix sep s then Some (EmptyString, drop (String.length sep) s)
  else match s with
       | EmptyString => None
       | String c s' =>
           match partition sep s' with
           | Some (b, a) => Some (String c b, a)
           | None => None
           end
       end.

Fixpoint split_fuel (fuel : nat) (sep s : string) : list string :=
  match fuel with
  | O => [s]
  | S fuel' =>
      match partition sep s with
      | None => [s]
      | Some (b, a) => b :: split_fuel fuel' sep a
      end
  end.

(** [s.split(sep)] for a non-empty [sep] (every call site passes a literal).
    Each cut consumes at least one character, so [length s] cuts suffice. *)
Definition split (sep s : string) : list string :=
  split_fuel (String.length s) sep s.

(** [sep.join(parts)] *)
Fixpoint join (sep : string) (parts : list string) : string :=
  match parts with
  | [] => EmptyString
  | [p] => p
  | p :: rest => p ++ sep ++ join sep rest
  end.

(** [l[:n]] with Python's treatment of a negative bound. *)
Definition slice_to {A} (n : Z) (l : list A) : list A :=
  if 0 <=? n then take (Z.to_nat n) l
  else take (length l - Z.to_nat (- n)) l.

(** the text before the first [sep], or all of [s] *)
Definition before (sep s : string) : string :=
  match partition sep s with
  | Some (b, _) => b
  | None => s
  end.

(** the text after the first [sep], or nothing *)
Definition after (sep s : string) : string :=
  match partition sep s with
  | Some (_, a) => a
  | None => EmptyString
  end.

End PyStr.

(** ** Calendar dates *)

Record date := Date { year : Z; month : Z; day : Z }.

(** [a <= b] on [datetime.date]: by year, then month, then day. *)
Definition date_leb (a b : date) : bool :=
  if year a <? year b then true
  else if year b <? year a then false
  else if month a <? month b then true
  else if month b <? month a then false
  else day a <=? day b.

(** the decimal digit of the units of [n] *)
Definition digit (n : Z) : ascii := ascii_of_nat (Z.to_nat (48 + n mod 10)).

(** ["%02d" % n] for [0 <= n < 100] *)
Definition pad2 (n : Z) : string :=
  String (digit (n / 10)) (String (digit n) EmptyString).

(** ["%04d" % n] for [0 <= n < 10000] *)
Definition pad4 (n : Z) : string :=
  String (digit (n / 1000)) (String (digit (n / 100))
    (String (digit (n / 10)) (String (digit n) EmptyString))).

(** [d.isoformat()], i.e. YYYY-MM-DD; a [datetime.date] has
    [1 <= year <= 9999], [1 <= month <= 12] and [1 <= day <= 31]. *)
Definition isoformat (d : date) : string :=
  pad4 (year d) ++ "-" ++ pad2 (month d) ++ "-" ++ pad2 (day d).

(** ** Exceptions, the world and the effect monad *)

Inductive exn :=
| ClientError      (* aiohttp.ClientError *)
| TimeoutError     (* asyncio.TimeoutError *)
| ValueError
| IndexError
| OtherException.  (* any other subclass of Exception *)

Inductive result (A : Type) :=
| Ok (a : A)
| Raise (e : exn).
Arguments Ok {A} a.
Arguments Raise {A} e.

(** The six keys of the dictionaries built by [_search_google_news]. *)
Record article := Article {
  title : string;
  link : string;
  source : string;
  publish_date : string;
  authors : list string;
  snippet : string
}.

Definition set_link (a : article) (l : string) : article :=
  {| title := title a; link := l; source := source a;
     publish_date := publish_date a; authors := authors a;
     snippet := snippet a |}.

(** One file of [CACHE_DIR]: its modification time and what
    [json.load] makes of its contents. *)
Record cache_file := CacheFile {
  mtime : Z;
  data : result (list article)
}.

(** What the outside can observe of a call. *)
Inductive event :=
| FeedGet (url : string)             (* the GET of [_search_google_news] *)
| RedirectGet (url : string)         (* the GET of [_extract_real_url] *)
| CacheWrite (key : string)          (* a call of [_save_to_cache] *)
| PageGet (url : string) (attempt : Z) (* the GET of [scrape_url] *)
| Sleep (delay : Z).                 (* a retry delay of [scrape_url] *)

Record world := World {
  files : gmap string cache_file;    (* CACHE_DIR, by file stem *)
  log : list event                   (* oldest first *)
}.

Definition M (A : Type) : Type := world -> result A * world.

Definition ret {A} (a : A) : M A := fun w => (Ok a, w).

Definition raise {A} (e : exn) : M A := fun w => (Raise e, w).

Definition bind {A B} (c : M A) (k : A -> M B) : M B :=
  fun w => match c w with
           | (Ok a, w') => k a w'
           | (Raise e, w') => (Raise e, w')
           end.

Notation "'do' x <- c ;; k" := (bind c (fun x => k))
  (at level 10, x name, c at level 99, k at level 200).
Notation "'run' c ;; k" := (bind c (fun _ => k))
  (at level 10, c at level 99, k at level 200).

(** [try: c except Exception as e: h e] *)
Definition try_except {A} (c : M A) (h : exn -> M A) : M A :=
  fun w => match c w with
           | (Ok a, w') => (Ok a, w')
           | (Raise e, w') => h e w'
           end.

(** a value or exception computed without touching the world *)
Definition lift {A} (r : result A) : M A := fun w => (r, w).

Definition emit (e : event) : M unit :=
  fun w => (Ok tt, {| files := files w; log := log w ++ [e] |}).

Fixpoint mapM {A B} (f : A -> M B) (l : list A) : M (list B) :=
  match l with
  | [] => ret []
  | x :: l' => do y <- f x ;; do ys <- mapM f l' ;; ret (y :: ys)
  end.

(** ** External collaborators *)

Record response := Response {
  status : Z;
  text : result string;              (* [await response.text()] *)
  location : option string           (* [response.headers.get("Location")] *)
}.

Record feed_source := FeedSource { src_title : option string }.

(** An entry of [feedparser]'s result; a field is [None] when the entry has
    no such key. *)
Record feed_entry := FeedEntry {
  e_title : option string;
  e_link : option string;
  e_published : option string;
  e_source : option feed_source;
  e_description : option string;
  e_author : option string
}.

(** What [newspaper.Article] extracts from a page. *)
Record extracted := Extracted {
  x_title : option string;
  x_text : option string;
  x_publish_date : option date;
  x_authors : list string;
  x_keywords : list string;
  x_summary : option string;
  x_images : gset string
}.

(** Third-party library functions. [None] or [Raise] stands for the
    exception the function raises on that input. *)
Record Lib := {
  md5_hexdigest : string -> string;
    (* hashlib.md5(s.encode()).hexdigest() *)
  quote : string -> string;
    (* urllib.parse.quote *)
  urlparse_query : string -> result string;
    (* urllib.parse.urlparse(u).query *)
  urlparse_netloc : string -> result string;
    (* urllib.parse.urlparse(u).netloc *)
  strptime_date : string -> string -> option date;
    (* datetime.strptime(s, fmt).date(); None on ValueError *)
  fromisoformat_date : string -> option date;
    (* datetime.fromisoformat(s).date(); None on ValueError *)
  feedparser_parse : string -> result (list feed_entry);
    (* feedparser.parse(content).entries *)
  soup_get_text : string -> result string;
    (* BeautifulSoup(s, "html.parser").get_text().strip() *)
  newspaper_parse : string -> string -> result extracted
    (* Article(url); set_html(html); parse() *)
}.

(** The clock, the network and the file system as one call sees them. *)
Record Env := {
  time_time : Z;
    (* time.time() when the cache is read *)
  write_time : Z;
    (* the modification time given to a file written by this call *)
  today : date;
    (* datetime.now().date() *)
  week_ago : date;
    (* datetime.now().date() - timedelta(days=7) *)
  feed_get : string -> result response;
    (* session.get(url, timeout=30) *)
  redirect_get : string -> result response;
    (* session.get(url, allow_redirects=False) *)
  cache_writable : bool;
    (* whether open(cache_file, "w") and json.dump succeed *)
  cache_opens : bool;
    (* when they do not: whether open(cache_file, "w") succeeded, and so
       emptied the file, before the write failed *)
  page_get : string -> Z -> result response
    (* session.get(url, headers=..., allow_redirects=True) at an attempt *)
}.

(** ** [class NewsFeedSearch] *)

Module NewsFeedSearch.

Definition GOOGLE_NEWS_URL (query : string) : string :=
  "https://news.google.com/rss/search?q=" ++ query
    ++ "&hl=en-US&gl=US&ceid=US:en".

Definition GOOGLE_NEWS_SECTION_URL (topic : string) : string :=
  "https://news.google.com/rss/headlines/section/topic/" ++ topic
    ++ "?hl=en-US&gl=US&ceid=US:en".

Definition TOPICS : gmap string string :=
  list_to_map
  [ ("business", "CAAqJggKIiBDQkFTRWdvSUwyMHZNRGx6TVdZU0FtVnVHZ0pWVXlnQVAB");
    ("technology", "CAAqJggKIiBDQkFTRWdvSUwyMHZNRGRqTVhZU0FtVnVHZ0pWVXlnQVAB");
    ("health", "CAAqIQgKIhtDQkFTRGdvSUwyMHZNR3QwTlRFU0FtVnVLQUFQAQ");
    ("science", "CAAqJggKIiBDQkFTRWdvSUwyMHZNRFp0Y1RJU0FtVnVHZ0pWVXlnQVAB");
    ("entertainment", "CAAqJggKIiBDQkFTRWdvSUwyMHZNREpxYW5RU0FtVnVHZ0pWVXlnQVAB");
    ("sports", "CAAqJggKIiBDQkFTRWdvSUwyMHZNRFp1ZEdvU0FtVnVHZ0pWVXlnQVAB");
    ("world", "CAAqJggKIiBDQkFTRWdvSUwyMHZNRGx1YlY4U0FtVnVHZ0pWVXlnQVAB");
    ("nation", "CAAqIggKIhxDQkFTRHdvSUwyMHZNRGxqZHpNd0VnSmxiaWdBUAE") ].

(** The arguments [from_date] and [to_date]:
    [Union[date, datetime, str]] or [None]. *)
Inductive date_arg :=
| ArgNone
| ArgStr (s : string)
| ArgDate (d : date)
| ArgDatetime (d : date).  (* a datetime whose [.date()] is [d] *)

(** The instance: [cache_expiry] is the only field the results depend on. *)
Record t := { cache_expiry : Z }.

(** [NewsFeedSearch(cache_expiry=...)]; [None] stands for an argument
    left out, which takes the default of the signature. *)
Definition __init__ (cache_expiry : option Z) : t :=
  {| cache_expiry := default 3600 cache_expiry |}.

(** [str(x)] inside an f-string, for [topic: str = None] *)
Definition format_topic (topic : option string) : string :=
  match topic with
  | Some s => s
  | None => "None"
  end.

(** [sorted(l, key=..., reverse=True)]: descending, and stable. *)
Fixpoint insert_desc {A} (key : A -> string) (x : A) (l : list A) : list A :=
  match l with
  | [] => [x]
  | y :: l' =>
      if String.ltb (key x) (key y) then y :: insert_desc key x l'
      else x :: l
  end.

Definition sorted_reverse {A} (key : A -> string) (l : list A) : list A :=
  foldr (insert_desc key) [] l.

(** [s.replace(old, new)] *)
Definition replace (old new s : string) : string :=
  PyStr.join new (PyStr.split old s).

Definition nonempty (s : string) : bool :=
  match s with
  | EmptyString => false
  | _ => true
  end.

Section Methods.

Context (lib : Lib) (self : t).

(** Lines 111-140 of [search_news]: the value [from_date] holds afterwards. *)
Definition normalize_date (fallback : date) (a : date_arg) : date :=
  match a with
  | ArgNone => fallback
  | ArgStr s =>
      let parsed :=
        if PyStr.contains "T" s
        then strptime_date lib s "%Y-%m-%dT%H:%M:%S"
        else strptime_date lib s "%Y-%m-%d" in
      match parsed with
      | Some d => d
      | None => fallback
      end
  | ArgDatetime d => d
  | ArgDate d => d
  end.

Definition _generate_cache_key (query : string) (topic : option string)
    (from_date to_date : date) : string :=
  let key_str :=
    query ++ "_" ++ format_topic topic ++ "_" ++ isoformat from_date
      ++ "_" ++ isoformat to_date in
  md5_hexdigest lib key_str.

Definition _get_from_cache (env : Env) (cache_key : string)
    : M (option (list article)) :=
  fun w =>
    match files w !! cache_key with
    | None => (Ok None, w)
    | Some f =>
        if time_time env - mtime f >? cache_expiry self then (Ok None, w)
        else match data f with
             | Ok l => (Ok (Some l), w)
             | Raise _ => (Ok None, w)
             end
    end.

(** [open(cache_file, "w")] empties the file before [json.dump] writes to
    it. A write that fails after the file was opened leaves the beginning
    of a JSON document, or nothing, which [json.load] rejects. *)
Definition _save_to_cache (env : Env) (cache_key : string)
    (results : list article) : M bool :=
  run emit (CacheWrite cache_key) ;;
  fun w =>
    if cache_writable env
    then (Ok true,
          {| files := <[cache_key :=
                         {| mtime := write_time env; data := Ok results |}]>
                      (files w);
             log := log w |})
    else if cache_opens env
    then (Ok false,
          {| files := <[cache_key :=
                         {| mtime := write_time env;
                            data := Raise ValueError |}]>
                      (files w);
             log := log w |})
    else (Ok false, w).

(** [session.get] as a context manager: the request is issued, then it
    either raises or yields the response. *)
Definition session_get (ev : event) (r : result response) : M response :=
  run emit ev ;; lift r.

Definition entry_to_article (entry : feed_entry) : M article :=
  let title := default "" (e_title entry) in
  let link := default "" (e_link entry) in
  let pub_date := default "" (e_published entry) in
  let source :=
    match e_source entry with
    | Some s => default "" (src_title s)
    | None => ""
    end in
  let '(title, source) :=
    if nonempty source then (title, source)
    else
      let title_parts := PyStr.split " - " title in
      if (1 <? length title_parts)%nat
      then (PyStr.join " - " (removelast title_parts),
            List.last title_parts "")
      else (title, source) in
  let description := default "" (e_description entry) in
  do description <-
    (if nonempty description then lift (soup_get_text lib description)
     else ret description) ;;
  let author := default "" (e_author entry) in
  ret {| title := title; link := link; source := source;
         publish_date := pub_date;
         authors := if nonempty author then [author] else [];
         snippet := description |}.

Definition feed_url (query : string) (topic : option string) : string :=
  match topic with
  | Some tp =>
      match (if nonempty tp then TOPICS !! tp else None) with
      | Some id =>
          let url := GOOGLE_NEWS_SECTION_URL id in
          if nonempty query then url ++ "&q=" ++ quote lib query else url
      | None => GOOGLE_NEWS_URL (quote lib query)
      end
  | None => GOOGLE_NEWS_URL (quote lib query)
  end.

Definition _search_google_news (env : Env) (query : string)
    (topic : option string) : M (list article) :=
  try_except
    (let url := feed_url query topic in
     do response <- session_get (FeedGet url) (feed_get env url) ;;
     if negb (status response =? 200) then ret []
     else
       do content <- lift (text response) ;;
       do entries <- lift (feedparser_parse lib content) ;;
       mapM entry_to_article entries)
    (fun _ => ret []).

Definition _extract_real_url (env : Env) (google_url : string) : M string :=
  try_except
    (do query <- lift (urlparse_query lib google_url) ;;
     if PyStr.contains "url=" query then
       match PyStr.split "url=" query !! 1%nat with
       | Some v =>
           match PyStr.split "&" v !! 0%nat with
           | Some real_url => ret real_url
           | None => raise IndexError
           end
       | None => raise IndexError
       end
     else
       do response <-
         session_get (RedirectGet google_url) (redirect_get env google_url) ;;
       if (status response =? 301) || (status response =? 302) then
         match location response with
         | Some redirect_url =>
             if nonempty redirect_url then ret redirect_url
             else ret google_url
         | None => ret google_url
         end
       else ret google_url)
    (fun _ => ret google_url).

(** [asyncio.gather] over [_extract_real_url]: the tasks are started in list
    order and do not depend on one another. *)
Definition _batch_resolve_urls (env : Env) (urls : list string)
    : M (list string) :=
  mapM (_extract_real_url env) urls.

(** Lines 163-216: whether the filter loop appends the article. The
    [publish_date] of a dictionary built by [_search_google_news] is always
    a string, so the branches for [None] and for values that are not
    strings are never taken, and comparing two dates cannot raise. *)
Definition in_date_range (from_date to_date : date) (a : article) : bool :=
  let pub_date := publish_date a in
  match strptime_date lib pub_date "%a, %d %b %Y %H:%M:%S %Z" with
  | Some d => date_leb from_date d && date_leb d to_date
  | None =>
      match fromisoformat_date lib (replace "Z" "+00:00" pub_date) with
      | Some d => date_leb from_date d && date_leb d to_date
      | None => true
      end
  end.

(** Lines 228-244: resolve the links that mention news.google.com and write
    each non-empty answer back into its article. *)
Definition resolve_links (env : Env) (sorted_results : list article)
    : M (list article) :=
  let google_urls :=
    List.filter (fun a => PyStr.contains "news.google.com" (link a))
                sorted_results in
  do resolved_urls <- _batch_resolve_urls env (map link google_urls) ;;
  ret ((fix update (l : list article) (rs : list string) : list article :=
          match l with
          | [] => []
          | a :: l' =>
              if PyStr.contains "news.google.com" (link a) then
                match rs with
                | r :: rs' =>
                    (if nonempty r then set_link a r else a) :: update l' rs'
                | [] => a :: l'
                end
              else a :: update l' rs
          end) sorted_results resolved_urls).

Definition search_news (env : Env) (query : string)
    (from_date to_date : date_arg) (max_results : Z) (topic : option string)
    (resolve_urls use_cache : bool) : M (list article) :=
  let from_date := normalize_date (week_ago env) from_date in
  let to_date := normalize_date (today env) to_date in
  let cache_key := _generate_cache_key query topic from_date to_date in
  do cached_results <-
    (if use_cache then _get_from_cache env cache_key else ret None) ;;
  match cached_results with
  | Some ((_ :: _) as cached_results) =>
      ret (PyStr.slice_to max_results cached_results)
  | _ =>
      do google_results <- _search_google_news env query topic ;;
      let filtered_results :=
        List.filter (in_date_range from_date to_date) google_results in
      let sorted_results :=
        PyStr.slice_to max_results
          (sorted_reverse publish_date filtered_results) in
      do sorted_results <-
        (if resolve_urls then resolve_links env sorted_results
         else ret sorted_results) ;;
      run (if use_cache then _save_to_cache env cache_key sorted_results
           else ret false) ;;
      ret sorted_results
  end.

End Methods.

End NewsFeedSearch.

(** ** [class AsyncScraper] *)

Module AsyncScraper.

(** [models.data_schema.RawArticle] *)
Record RawArticle := {
  url : string;
  r_title : option string;
  content : option string;
  html : option string;
  r_publish_date : option date;   (* the day of an [Optional[datetime]] *)
  r_authors : list string;
  r_source : option string;
  keywords : list string;
  summary : option string;
  images : gset string
}.

Record t := {
  max_concurrent : nat;   (* the initial value of [self.semaphore] *)
  timeout : Z;
  retry_count : Z;
  retry_delay : Z
}.

(** [AsyncScraper(max_concurrent, timeout, retry_count, retry_delay)];
    [None] stands for an argument left out, which takes the default of the
    signature. *)
Definition __init__ (max_concurrent : option nat)
    (timeout retry_count retry_delay : option Z) : t :=
  {| max_concurrent := default 10%nat max_concurrent;
     timeout := default 30 timeout;
     retry_count := default 2 retry_count;
     retry_delay := default 2 retry_delay |}.

(** [range(n)] *)
Definition range (n : Z) : list Z :=
  map Z.of_nat (seq 0 (Z.to_nat n)).

(** How one pass through the body of the [for] loop ends. *)
Inductive flow :=
| Continue (delay : Z)               (* sleep [delay], then the next attempt *)
| Return (r : option RawArticle).

Definition result_bind {A B} (r : result A) (k : A -> result B) : result B :=
  match r with
  | Ok a => k a
  | Raise e => Raise e
  end.

Section Methods.

Context (lib : Lib) (self : t).

(** [url.split('/')[2] if len(url.split('/')) > 2 else None] *)
Definition source_of_url (u : string) : option string :=
  let parts := PyStr.split "/" u in
  if (2 <? length parts)%nat then parts !! 2%nat else None.

Definition _parse_with_newspaper (u h : string) : RawArticle :=
  match newspaper_parse lib u h with
  | Ok x =>
      let source :=
        match urlparse_netloc lib u with
        | Ok netloc => Some (NewsFeedSearch.replace "www." "" netloc)
        | Raise _ => source_of_url u
        end in
      {| url := u; r_title := x_title x; content := x_text x;
         html := Some h; r_publish_date := x_publish_date x;
         r_authors := x_authors x; r_source := source;
         keywords := x_keywords x; summary := x_summary x;
         images := x_images x |}
  | Raise _ =>
      {| url := u; r_title := None; content := None; html := Some h;
         r_publish_date := None; r_authors := [];
         r_source := source_of_url u; keywords := [];
         summary := None; images := ∅ |}
  end.

(** Lines 105-159: one attempt, given what [session.get] did. *)
Definition attempt_flow (u : string) (attempt : Z) (got : result response)
    : flow :=
  let tried :=
    result_bind got (fun response =>
      if negb (status response =? 200) then
        if attempt <? retry_count self
        then Ok (Continue (retry_delay self * (attempt + 1)))
        else Ok (Return None)
      else
        result_bind (text response) (fun h =>
          let article := _parse_with_newspaper u h in
          let content_length :=
            match content article with
            | Some c => if NewsFeedSearch.nonempty c
                        then Z.of_nat (String.length c) else 0
            | None => 0
            end in
          if (content_length <? 200) && (attempt <? retry_count self)
          then Ok (Continue (retry_delay self * (attempt + 1)))
          else Ok (Return (Some article)))) in
  match tried with
  | Ok f => f
  | Raise ClientError | Raise TimeoutError =>
      if attempt <? retry_count self
      then Continue (retry_delay self * (attempt + 1))
      else Return None
  | Raise _ => Return None
  end.

Fixpoint scrape_attempts (env : Env) (u : string) (attempts : list Z)
    : M (option RawArticle) :=
  match attempts with
  | [] => ret None
  | attempt :: rest =>
      run emit (PageGet u attempt) ;;
      match attempt_flow u attempt (page_get env u attempt) with
      | Continue delay =>
          run emit (Sleep delay) ;; scrape_attempts env u rest
      | Return r => ret r
      end
  end.

Definition scrape_url (env : Env) (u : string) : M (option RawArticle) :=
  scrape_attempts env u (range (retry_count self + 1)).

(** [asyncio.gather(..., return_exceptions=True)] followed by the loop that
    keeps the results that are neither an exception nor [None]. The tasks
    do not depend on one another, so they are run here in list order. *)
Definition scrape_urls (env : Env) (urls : list string)
    : M (list RawArticle) :=
  do results <-
    mapM (fun u => try_except (scrape_url env u) (fun _ => ret None)) urls ;;
  ret (omap id results).

(** *** The tasks of one batch

    [scrape_urls] creates one [scrape_url] task per URL and the event loop
    runs them interleaved: a task runs until its next [await] and is
    resumed later. The body of [scrape_url] is inside
    [async with self.semaphore], so a task is in one of four places. *)
Inductive task :=
| Waiting
    (* at [async with self.semaphore], the semaphore not yet acquired *)
| Sleeping (attempts : list Z)
    (* holds the semaphore; asleep before the first of [attempts], or
       about to leave the loop when none is left *)
| InFlight (attempt : Z) (rest : list Z)
    (* holds the semaphore; the GET of [attempt] awaits its response *)
| Done (r : option RawArticle).
    (* has left the [async with] block and released the semaphore *)

Record pool := Pool {
  value : nat;                      (* the counter of [self.semaphore] *)
  tasks : list (string * task)
}.

(** [self.semaphore] as [__init__] made it, and the tasks as
    [scrape_urls] creates them. *)
Definition start (urls : list string) : pool :=
  {| value := max_concurrent self;
     tasks := map (fun u => (u, Waiting)) urls |}.

(** The event loop resumes task [i], which runs to its next [await]. A
    waiting task stays where it is while the counter is zero. *)
Definition resume (env : Env) (i : nat) (p : pool) : pool :=
  match tasks p !! i with
  | None => p
  | Some (u, Waiting) =>
      match value p with
      | O => p
      | S v =>
          {| value := v;
             tasks := <[i := (u, Sleeping (range (retry_count self + 1)))]>
                        (tasks p) |}
      end
  | Some (u, Sleeping []) =>
      {| value := S (value p); tasks := <[i := (u, Done None)]> (tasks p) |}
  | Some (u, Sleeping (attempt :: rest)) =>
      {| value := value p;
         tasks := <[i := (u, InFlight attempt rest)]> (tasks p) |}
  | Some (u, InFlight attempt rest) =>
      match attempt_flow u attempt (page_get env u attempt) with
      | Continue _ =>
          {| value := value p;
             tasks := <[i := (u, Sleeping rest)]> (tasks p) |}
      | Return r =>
          {| value := S (value p);
             tasks := <[i := (u, Done r)]> (tasks p) |}
      end
  | Some (_, Done _) => p
  end.

(** The pool after the event loop resumed the tasks of [schedule] in
    turn. *)
Definition run_schedule (env : Env) (schedule : list nat) (p : pool) : pool :=
  foldl (fun p i => resume env i p) p schedule.

Definition is_in_flight (ut : string * task) : bool :=
  match snd ut with
  | InFlight _ _ => true
  | _ => false
  end.

Definition holds_semaphore (ut : string * task) : bool :=
  match snd ut with
  | Sleeping _ | InFlight _ _ => true
  | _ => false
  end.

(** the number of requests awaiting their response *)
Definition in_flight (p : pool) : nat :=
  length (List.filter is_in_flight (tasks p)).

Definition holders (p : pool) : nat :=
  length (List.filter holds_semaphore (tasks p)).

End Methods.

End AsyncScraper.

(** ** More Python string primitives

    A character stands for a code point below U+0100. *)

Module PyText.

(** [str(n)] *)
Definition str (n : Z) : string := NilZero.string_of_int (Z.to_int n).

(** [s[:n]] for [0 <= n] *)
Definition str_take (n : nat) (s : string) : string := String.substring 0 n s.

(** [c.lower()] *)
Definition lower_char (c : ascii) : ascii :=
  let n := nat_of_ascii c in
  if ((65 <=? n) && (n <=? 90) || (192 <=? n) && (n <=? 214)
      || (216 <=? n) && (n <=? 222))%nat
  then ascii_of_nat (n + 32) else c.

(** [s.lower()] *)
Fixpoint lower (s : string) : string :=
  match s with
  | EmptyString => EmptyString
  | String c s' => String (lower_char c) (lower s')
  end.

(** Whether a character is white space for [str.strip] and for [\s]: the
    characters 9 to 13, 28 to 32, 133 and 160. *)
Definition is_space (c : ascii) : bool :=
  let n := nat_of_ascii c in
  ((9 <=? n) && (n <=? 13) || (28 <=? n) && (n <=? 32)
   || (n =? 133) || (n =? 160))%nat.

Fixpoint lstrip (s : string) : string :=
  match s with
  | EmptyString => EmptyString
  | String c s' => if is_space c then lstrip s' else s
  end.

Fixpoint rstrip (s : string) : string :=
  match s with
  | EmptyString => EmptyString
  | String c s' =>
      match rstrip s' with
      | EmptyString => if is_space c then EmptyString else String c EmptyString
      | r => String c r
      end
  end.

(** [s.strip()] *)
Definition strip (s : string) : string := rstrip (lstrip s).

(** [s.endswith(".")] *)
Fixpoint ends_with_dot (s : string) : bool :=
  match s with
  | EmptyString => false
  | String c EmptyString => Ascii.eqb c "."
  | String _ s' => ends_with_dot s'
  end.

(** the string of one line feed *)
Definition newline : string := String (ascii_of_nat 10) EmptyString.

End PyText.

(** ** [class GoogleSearch] *)

Module GoogleSearch.

(** An item of a Custom Search response, as far as the code reads it. A
    field is [None] when the item has no such key; [pagemap] maps a section
    name to a list of dictionaries. *)
Record item := Item {
  i_title : option string;
  i_link : option string;
  i_snippet : option string;
  i_displayLink : option string;
  i_pagemap : option (gmap string (list (gmap string string)))
}.

(** The dictionaries the search methods return. *)
Record search_result := SearchResult {
  s_title : option string;
  s_link : option string;
  s_snippet : option string;
  s_source : option string;
  published_time : option string
}.

(** The parameters of [service.cse().list(...)]; [None] for a parameter
    that is not passed. *)
Record request := Request {
  q : string;
  cx : string;
  num : Z;
  start : Z;
  dateRestrict : option string;
  searchType : option string;
  sort : option string
}.

(** What [execute()] does: it returns a response, of which the code reads
    [response["items"]] ([None] when the response has no such key), or it
    raises. *)
Inductive reply :=
| Items (items : option (list item))
| HttpError
| OtherError.   (* any other exception *)

(** The collaborators of [GoogleSearch]. *)
Record Api := {
  build : string -> bool;
    (* whether build("customsearch", "v1", developerKey=key) returns *)
  execute : request -> reply;
    (* service.cse().list(...).execute() *)
  strptime_compact : string -> option date;
    (* datetime.strptime(s, "%Y%m%d").date(); None on ValueError *)
  days_since : date -> Z
    (* (datetime.now().date() - d).days *)
}.

Record t := { api_key : string; engine_id : string }.

Definition __init__ (api_key engine_id : string) : t :=
  {| api_key := api_key; engine_id := engine_id |}.

(** [range(0, stop, step)] for [step > 0] *)
Definition range_step (stop step : Z) : list Z :=
  map (fun k => step * Z.of_nat k)
      (seq 0 (Z.to_nat ((stop + step - 1) / step))).

(** [bool(x)] for an optional string *)
Definition truthy (x : option string) : bool :=
  match x with
  | Some s => NewsFeedSearch.nonempty s
  | None => false
  end.

(** [x or y] *)
Definition py_or (x y : option string) : option string :=
  if truthy x then x else y.

Definition CORPORATE_DOMAINS : list string :=
  ["nvidia.com"; "amd.com"; "intel.com"; "microsoft.com"; "apple.com";
   "github.com"; "stackoverflow.com"].

(** Line 283-285: the test that skips an item of a news search. *)
Definition corporate (it : item) : bool :=
  let domain := PyText.lower (default "" (i_displayLink it)) in
  existsb (fun x => PyStr.contains x domain) CORPORATE_DOMAINS.

(** [section in pagemap and pagemap[section]], then
    [pagemap[section][0]] *)
Definition first_of (pagemap : gmap string (list (gmap string string)))
    (section : string) : option (gmap string string) :=
  match pagemap !! section with
  | Some (d :: _) => Some d
  | _ => None
  end.

(** Lines 193-200 and 303-313: the date of the meta tags. *)
Definition metatags_time (it : item) : option string :=
  match i_pagemap it with
  | Some pagemap =>
      match first_of pagemap "metatags" with
      | Some tags =>
          py_or (tags !! "article:published_time")
            (py_or (tags !! "og:article:published_time")
                   (tags !! "datePublished"))
      | None => None
      end
  | None => None
  end.

(** Lines 303-326: the value of [published_time] after the searches
    through the page map. *)
Definition item_time (it : item) : option string :=
  let published_time := metatags_time it in
  match i_pagemap it with
  | Some pagemap =>
      if truthy published_time then published_time
      else
        let published_time :=
          match first_of pagemap "article" with
          | Some d => d !! "datepublished"
          | None => published_time
          end in
        let published_time :=
          if truthy published_time then published_time
          else match first_of pagemap "newsarticle" with
               | Some d => d !! "datepublished"
               | None => published_time
               end in
        if truthy published_time then published_time
        else match first_of pagemap "creativework" with
             | Some d => d !! "datepublished"
             | None => published_time
             end
  | None => published_time
  end.

Definition format_item (published_time : option string) (it : item)
    : search_result :=
  {| s_title := i_title it; s_link := i_link it; s_snippet := i_snippet it;
     s_source := i_displayLink it; published_time := published_time |}.

Section Methods.

Context (api : Api) (self : t).

(** Lines 174-187: the passes of the loop for the offsets [offsets], given
    the items collected so far. Returns what [all_results] holds when the
    loop ends, or [None] when a request raised, and the requests sent,
    oldest first. *)
Fixpoint fetch_pages (query date_restrict : string) (max_results : Z)
    (offsets : list Z) (all_results : list item)
    : option (list item) * list request :=
  match offsets with
  | [] => (Some all_results, [])
  | i :: rest =>
      let req :=
        {| q := query; cx := engine_id self;
           num := Z.min 10 (max_results - i); start := i + 1;
           dateRestrict := Some date_restrict;
           searchType := None; sort := None |} in
      match execute api req with
      | Items response =>
          let all_results :=
            match response with
            | Some items => (all_results ++ items)%list
            | None => all_results
            end in
          if (max_results <=? Z.of_nat (length all_results))
             || negb (bool_decide (is_Some response))
          then (Some all_results, [req])
          else
            let '(r, reqs) :=
              fetch_pages query date_restrict max_results rest all_results in
            (r, req :: reqs)
      | _ => (None, [req])
      end
  end.

(** The results, and the requests sent. *)
Definition _execute_search (query date_restrict : string) (max_results : Z)
    : list search_result * list request :=
  if build api (api_key self) then
    match fetch_pages query date_restrict max_results
            (range_step (Z.min max_results 100) 10) [] with
    | (Some all_results, reqs) =>
        (PyStr.slice_to max_results
           (map (fun it => format_item (metatags_time it) it) all_results),
         reqs)
    | (None, reqs) => ([], reqs)
    end
  else ([], []).

Definition search_ticker_news (ticker : string) (max_results days_back : Z)
    : list search_result * list request :=
  let date_restrict := "d" ++ PyText.str days_back in
  let query := ticker ++ " stock news" in
  if negb (NewsFeedSearch.nonempty (api_key self))
     || negb (NewsFeedSearch.nonempty (engine_id self))
  then ([], [])
  else _execute_search query date_restrict max_results.

(** Lines 239-297: as [fetch_pages], for a search with a date range. An
    [HttpError] of a request is caught inside the loop, which goes on with
    the next offset. *)
Fixpoint fetch_dated_pages (query date_range : string) (max_results : Z)
    (news_only : bool) (offsets : list Z) (all_results : list item)
    : option (list item) * list request :=
  match offsets with
  | [] => (Some all_results, [])
  | i :: rest =>
      match PyStr.split ":" date_range with
      | [from_date; to_date] =>
          match strptime_compact api from_date,
                strptime_compact api to_date with
          | Some from_date_obj, Some _ =>
              let days_back := days_since api from_date_obj in
              let req :=
                {| q := query; cx := engine_id self;
                   num := Z.min 10 (max_results - i); start := i + 1;
                   dateRestrict :=
                     if 0 <? days_back then Some ("d" ++ PyText.str days_back)
                     else None;
                   searchType := if news_only then Some "news" else None;
                   sort := if news_only then Some "date" else None |} in
              match execute api req with
              | Items response =>
                  let all_results :=
                    match response with
                    | Some items =>
                        (all_results
                         ++ List.filter
                              (fun it => negb (news_only && corporate it))
                              items)%list
                    | None => all_results
                    end in
                  if (max_results <=? Z.of_nat (length all_results))
                     || negb (bool_decide (is_Some response))
                  then (Some all_results, [req])
                  else
                    let '(r, reqs) :=
                      fetch_dated_pages query date_range max_results
                        news_only rest all_results in
                    (r, req :: reqs)
              | HttpError =>
                  let '(r, reqs) :=
                    fetch_dated_pages query date_range max_results
                      news_only rest all_results in
                  (r, req :: reqs)
              | OtherError => (None, [req])
              end
          | _, _ => (None, [])
          end
      | _ => (None, [])
      end
  end.

Definition _execute_search_with_date_range (query date_range : string)
    (max_results : Z) (news_only : bool)
    : list search_result * list request :=
  if build api (api_key self) then
    match fetch_dated_pages query date_range max_results news_only
            (range_step (Z.min max_results 100) 10) [] with
    | (Some all_results, reqs) =>
        let formatted_results :=
          omap (fun it =>
                  let published_time := item_time it in
                  let has_date := bool_decide (is_Some published_time) in
                  if negb news_only || has_date
                  then Some (format_item published_time it) else None)
               all_results in
        (PyStr.slice_to max_results formatted_results, reqs)
    | (None, reqs) => ([], reqs)
    end
  else ([], []).

End Methods.

End GoogleSearch.

(** ** [class ArticleCleaner] *)

Module ArticleCleaner.

(** [models.data_schema.CleanedArticle] *)
Record CleanedArticle := {
  c_url : string;
  c_title : option string;
  c_content : string;
  c_publish_date : option date;
  c_authors : list string;
  c_source : option string
}.

Definition from_raw_article (raw : AsyncScraper.RawArticle)
    (cleaned_content : string) : CleanedArticle :=
  {| c_url := AsyncScraper.url raw; c_title := AsyncScraper.r_title raw;
     c_content := cleaned_content;
     c_publish_date := AsyncScraper.r_publish_date raw;
     c_authors := AsyncScraper.r_authors raw;
     c_source := AsyncScraper.r_source raw |}.

(** [re.sub(r'\s+', ' ', s)], reading [s] from left to right; [in_space]
    tells whether the character before was white space. *)
Fixpoint collapse (in_space : bool) (s : string) : string :=
  match s with
  | EmptyString => EmptyString
  | String c s' =>
      if PyText.is_space c
      then if in_space then collapse true s'
           else String " " (collapse true s')
      else String c (collapse false s')
  end.

Section Methods.

(** [self.compiled_patterns], each as the function [pattern.sub('', s)]. *)
Context (compiled_patterns : list (string -> string)).

Definition clean (article : AsyncScraper.RawArticle) : CleanedArticle :=
  match AsyncScraper.content article with
  | None | Some EmptyString => from_raw_article article ""
  | Some content =>
      let content :=
        foldl (fun content sub => sub content) content compiled_patterns in
      let content := PyText.strip (collapse false content) in
      let paragraphs :=
        List.filter NewsFeedSearch.nonempty
          (map PyText.strip (PyStr.split PyText.newline content)) in
      let paragraphs :=
        List.filter
          (fun p => (40 <? String.length p)%nat || PyText.ends_with_dot p)
          paragraphs in
      let cleaned_content :=
        PyStr.join (PyText.newline ++ PyText.newline) paragraphs in
      from_raw_article article cleaned_content
  end.

End Methods.

End ArticleCleaner.

(** ** [class Summarizer] *)

Module Summarizer.

(** [models.data_schema.ArticleSummary] *)
Record ArticleSummary := {
  a_title : string;
  a_content : string;
  sentiment : option QArith_base.Q;   (* an [Optional[float]] *)
  a_keywords : list string
}.

Definition stop_words : list string :=
  ["the"; "a"; "an"; "and"; "or"; "but"; "in"; "on"; "at"; "to"; "for";
   "with"; "by"; "about"; "as"; "into"; "like"; "through"; "after"; "over";
   "between"; "out"; "of"; "during"; "without"; "before"; "under"; "around";
   "among"].

(** The keys of [Counter(words)], in the order in which they were first
    counted. *)
Fixpoint distinct (seen words : list string) : list string :=
  match words with
  | [] => []
  | w :: words' =>
      if bool_decide (w ∈ seen) then distinct seen words'
      else w :: distinct (w :: seen) words'
  end.

(** [Counter(words)[w]] *)
Definition count (words : list string) (w : string) : nat :=
  length (List.filter (String.eqb w) words).

(** [sorted(l, key=cnt, reverse=True)]: descending, and stable. *)
Fixpoint insert_by_count (cnt : string -> nat) (x : string)
    (l : list string) : list string :=
  match l with
  | [] => [x]
  | y :: l' =>
      if (cnt x <? cnt y)%nat then y :: insert_by_count cnt x l'
      else x :: l
  end.

(** [[w for w, _ in Counter(words).most_common(n)]] *)
Definition most_common (n : nat) (words : list string) : list string :=
  take n (foldr (insert_by_count (count words)) [] (distinct [] words)).

Section Methods.

(** [re.findall(r'\b[a-zA-Z]{3,15}\b', s)] *)
Context (findall_words : string -> list string).

(** The argument [llm_response] is only written to the log. *)
Definition _create_extractive_summary (content : string) : ArticleSummary :=
  let paragraphs :=
    List.filter NewsFeedSearch.nonempty
      (map PyText.strip (PyStr.split PyText.newline content)) in
  let sentences :=
    flat_map
      (fun paragraph =>
         map (fun s => PyText.strip s ++ ".")
             (List.filter
                (fun s => NewsFeedSearch.nonempty (PyText.strip s))
                (PyStr.split "." paragraph)))
      paragraphs in
  let title :=
    match sentences with
    | s :: _ => s
    | [] => "Article"
    end in
  let title :=
    PyText.str_take 50 title
      ++ (if (50 <? String.length title)%nat then "..." else "") in
  let summary_sentences :=
    take (Nat.min 3 (length sentences)) sentences in
  let summary := PyStr.join " " summary_sentences in
  let summary :=
    if (200 <? String.length summary)%nat
    then PyText.str_take 197 summary ++ "..." else summary in
  let words := findall_words (PyText.lower content) in
  let words :=
    List.filter (fun word => negb (bool_decide (word ∈ stop_words))) words in
  let keywords := most_common 5 words in
  {| a_title := title; a_content := summary;
     sentiment := Some (QArith_base.Qmake 0 1);
     a_keywords := keywords |}.

End Methods.

End Summarizer.

(** ** Stand-ins for the collaborators

    Concrete library functions, clocks and feeds on which the embedding can
    be run. *)

Module Stub.

Definition digit_value (c : ascii) : option nat :=
  let n := nat_of_ascii c in
  if ((48 <=? n) && (n <=? 57))%nat then Some (n - 48)%nat else None.

Fixpoint number (acc : nat) (s : string) : option nat :=
  match s with
  | EmptyString => Some acc
  | String c s' =>
      match digit_value c with
      | Some v => number (10 * acc + v) s'
      | None => None
      end
  end.

(** a date written YYYY-MM-DD, optionally followed by T and a time *)
Definition parse_ymd (s : string) : option date :=
  match PyStr.split "-" (PyStr.before "T" s) with
  | [y; m; d] =>
      match number 0 y, number 0 m, number 0 d with
      | Some y, Some m, Some d =>
          if ((1 <=? m) && (m <=? 12) && (1 <=? d) && (d <=? 31))%nat
          then Some (Date (Z.of_nat y) (Z.of_nat m) (Z.of_nat d)) else None
      | _, _, _ => None
      end
  | _ => None
  end.

(** A library whose digest is the identity, whose feed parser yields
    [entries] for every document but the empty one, and whose only date
    format is YYYY-MM-DD. *)
Definition lib (entries : list feed_entry) : Lib :=
  {| md5_hexdigest := fun s => s;
     quote := fun s => s;
     urlparse_query := fun u => Ok (PyStr.after "?" (PyStr.before "#" u));
     urlparse_netloc := fun u => Ok (PyStr.before "/" (PyStr.after "//" u));
     strptime_date := fun s fmt =>
       if String.eqb fmt "%a, %d %b %Y %H:%M:%S %Z" then None
       else parse_ymd s;
     fromisoformat_date := parse_ymd;
     feedparser_parse := fun c =>
       Ok (if NewsFeedSearch.nonempty c then entries else []);
     soup_get_text := fun s => Ok s;
     newspaper_parse := fun _ h =>
       Ok {| x_title := None; x_text := Some h; x_publish_date := None;
             x_authors := [];
             x_keywords := []; x_summary := None; x_images := ∅ |} |}.

Definition ok_response (body : string) : result response :=
  Ok {| status := 200; text := Ok body; location := None |}.

(** An environment at clock reading [now] in which the feed answers with
    status 200 and [body], and every other request with status 200 and an
    empty body. *)
Definition env (now : Z) (body : string) : Env :=
  {| time_time := now;
     write_time := now;
     today := Date 2025 1 31;
     week_ago := Date 2025 1 24;
     feed_get := fun _ => ok_response body;
     redirect_get := fun _ => ok_response "";
     cache_writable := true;
     cache_opens := true;
     page_get := fun _ _ => ok_response "" |}.

(** [e] with other answers to the GET of [_extract_real_url]. *)
Definition with_redirects (e : Env) (answer : string -> result response)
    : Env :=
  {| time_time := time_time e; write_time := write_time e;
     today := today e; week_ago := week_ago e; feed_get := feed_get e;
     redirect_get := answer; cache_writable := cache_writable e;
     cache_opens := cache_opens e; page_get := page_get e |}.

(** [e] with other answers to the GET of [scrape_url]. *)
Definition with_pages (e : Env) (answer : string -> Z -> result response)
    : Env :=
  {| time_time := time_time e; write_time := write_time e;
     today := today e; week_ago := week_ago e; feed_get := feed_get e;
     redirect_get := redirect_get e; cache_writable := cache_writable e;
     cache_opens := cache_opens e; page_get := answer |}.

(** [e] with a feed that answers every request with [answer]. *)
Definition with_feed (e : Env) (answer : result response) : Env :=
  {| time_time := time_time e; write_time := write_time e;
     today := today e; week_ago := week_ago e; feed_get := fun _ => answer;
     redirect_get := redirect_get e; cache_writable := cache_writable e;
     cache_opens := cache_opens e; page_get := page_get e |}.

(** [e] with a cache directory that cannot be written: no file can be
    opened. *)
Definition read_only (e : Env) : Env :=
  {| time_time := time_time e; write_time := write_time e;
     today := today e; week_ago := week_ago e; feed_get := feed_get e;
     redirect_get := redirect_get e; cache_writable := false;
     cache_opens := false; page_get := page_get e |}.

(** [e] with a disk that is full: a file can be opened, and nothing can be
    written to it. *)
Definition disk_full (e : Env) : Env :=
  {| time_time := time_time e; write_time := write_time e;
     today := today e; week_ago := week_ago e; feed_get := feed_get e;
     redirect_get := redirect_get e; cache_writable := false;
     cache_opens := true; page_get := page_get e |}.

(** [e] on another day. *)
Definition on_day (e : Env) (day week_before : date) : Env :=
  {| time_time := time_time e; write_time := write_time e;
     today := day; week_ago := week_before; feed_get := feed_get e;
     redirect_get := redirect_get e; cache_writable := cache_writable e;
     cache_opens := cache_opens e; page_get := page_get e |}.

Definition status_response (code : Z) (header : option string)
    : result response :=
  Ok {| status := code; text := Ok ""; location := header |}.

(** a text of [n] characters *)
Fixpoint filler (n : nat) : string :=
  match n with
  | O => EmptyString
  | S n' => String "x" (filler n')
  end.

Definition entry (t l published : string) : feed_entry :=
  {| e_title := Some t; e_link := Some l; e_published := Some published;
     e_source := None; e_description := None; e_author := None |}.

Definition empty_world : world := {| files := ∅; log := [] |}.

End Stub.

(** * Properties *)

(** ** The effect monad *)

(** The world [w] after the events [evs] were appended to its log. *)
Definition add_log (w : world) (evs : list event) : world :=
  {| files := files w; log := log w ++ evs |}.

Lemma add_log_nil w : add_log w [] = w.
Proof. destruct w; unfold add_log; simpl. by rewrite app_nil_r. Qed.

Lemma add_log_app w evs evs' :
  add_log (add_log w evs) evs' = add_log w (evs ++ evs').
Proof. unfold add_log; simpl. by rewrite app_assoc. Qed.

Ltac unfold_m :=
  unfold bind, ret, lift, emit, raise, try_except in *.

(** A computation that may raise but never touches the world. *)
Definition silent {A} (c : M A) : Prop :=
  forall w, snd (c w) = w.

Lemma silent_ret {A} (a : A) : silent (ret a).
Proof. by intros w. Qed.

Lemma silent_lift {A} (r : result A) : silent (lift r).
Proof. by intros w. Qed.

Lemma silent_bind {A B} (c : M A) (k : A -> M B) :
  silent c -> (forall a, silent (k a)) -> silent (bind c k).
Proof.
  intros Hc Hk w. unfold bind. specialize (Hc w).
  destruct (c w) as [[a|e] w']; simpl in *; subst; [apply Hk | done].
Qed.

Lemma silent_mapM {A B} (f : A -> M B) (l : list A) :
  (forall a, silent (f a)) -> silent (mapM f l).
Proof.
  intros Hf. induction l as [|x l IH]; simpl; [apply silent_ret|].
  apply silent_bind; [apply Hf|]. intros y.
  apply silent_bind; [apply IH|]. intros ys. apply silent_ret.
Qed.

(** Counting the requests sent to the feed. *)
Definition is_feed_get (e : event) : bool :=
  match e with
  | FeedGet _ => true
  | _ => false
  end.

Definition is_redirect_get (e : event) : bool :=
  match e with
  | RedirectGet _ => true
  | _ => false
  end.

Definition is_cache_write (e : event) : bool :=
  match e with
  | CacheWrite _ => true
  | _ => false
  end.

Definition feed_requests (l : list event) : nat :=
  length (List.filter is_feed_get l).

Definition cache_writes (l : list event) : nat :=
  length (List.filter is_cache_write l).

Lemma feed_requests_app l l' :
  feed_requests (l ++ l') = (feed_requests l + feed_requests l')%nat.
Proof. unfold feed_requests. by rewrite List.filter_app, length_app. Qed.

Lemma cache_writes_app l l' :
  cache_writes (l ++ l') = (cache_writes l + cache_writes l')%nat.
Proof. unfold cache_writes. by rewrite List.filter_app, length_app. Qed.

Lemma feed_requests_redirects evs :
  Forall (fun e => is_redirect_get e = true) evs -> feed_requests evs = 0%nat.
Proof.
  induction 1 as [|e evs He _ IH]; [done|].
  destruct e; try discriminate. exact IH.
Qed.

Lemma cache_writes_redirects evs :
  Forall (fun e => is_redirect_get e = true) evs -> cache_writes evs = 0%nat.
Proof.
  induction 1 as [|e evs He _ IH]; [done|].
  destruct e; try discriminate. exact IH.
Qed.

(** ** Dates *)

(** [date_leb] is the order of the calendar. *)
Lemma date_leb_spec a b :
  date_leb a b = true
  <-> year a < year b
      \/ (year a = year b
          /\ (month a < month b \/ (month a = month b /\ day a <= day b))).
Proof.
  unfold date_leb.
  destruct (Z.ltb_spec (year a) (year b)); [split; [auto | done]|].
  destruct (Z.ltb_spec (year b) (year a)); [split; [done | lia]|].
  destruct (Z.ltb_spec (month a) (month b)); [split; [intros _ | done]; lia|].
  destruct (Z.ltb_spec (month b) (month a)); [split; [done | lia]|].
  rewrite Z.leb_le. lia.
Qed.

(** ** Python string primitives *)

Section PyStrFacts.

Import PyStr.

Lemma prefix_nil s : String.prefix EmptyString s = true.
Proof. by destruct s. Qed.

Lemma prefix_char c c' s :
  String.prefix (String c EmptyString) (String c' s)
  = if ascii_dec c c' then true else false.
Proof. simpl. destruct (ascii_dec c c'); [apply prefix_nil | done]. Qed.

Lemma prefix_length p s :
  String.prefix p s = true -> (String.length p <= String.length s)%nat.
Proof.
  revert s. induction p as [|a p IH]; intros [|c s]; simpl; try lia;
    try discriminate.
  destruct (ascii_dec a c); [|discriminate]. intros H. apply IH in H. lia.
Qed.

Lemma drop_length n s :
  String.length (drop n s) = (String.length s - n)%nat.
Proof.
  revert s. induction n as [|n IH]; intros [|c s]; simpl; try lia. apply IH.
Qed.

Lemma contains_partition sep s :
  contains sep s = true <-> exists b a, partition sep s = Some (b, a).
Proof.
  induction s as [|c s IH]; cbn [contains partition].
  - destruct sep as [|a0 sep]; simpl; split; eauto; try discriminate.
    intros (b & a & H). discriminate.
  - destruct (String.prefix sep (String c s)); [split; eauto|].
    rewrite IH. split.
    + intros (b & a & ->). eauto.
    + intros (b & a & H).
      destruct (partition sep s) as [[b' a']|]; [eauto | discriminate].
Qed.

Lemma partition_shorter sep s b a :
  sep <> EmptyString -> partition sep s = Some (b, a) ->
  (String.length a < String.length s)%nat.
Proof.
  intros Hsep. revert b.
  induction s as [|c s IH]; intros b; cbn [partition].
  - destruct sep; [done | discriminate].
  - destruct (String.prefix sep (String c s)) eqn:Hp.
    + intros H. inversion H; subst. apply prefix_length in Hp.
      rewrite drop_length. destruct sep; [done|].
      cbn [String.length] in *. lia.
    + destruct (partition sep s) as [[b' a']|]; [|discriminate].
      intros H. inversion H; subst. specialize (IH b' eq_refl).
      cbn [String.length]. lia.
Qed.

Lemma split_fuel_head fuel sep s :
  (String.length s <= fuel)%nat ->
  split_fuel fuel sep s !! 0%nat = Some (before sep s).
Proof.
  unfold before. destruct fuel as [|fuel]; simpl.
  - destruct s; simpl; [|lia]. intros _. by destruct sep.
  - intros _. by destruct (partition sep s) as [[b a]|].
Qed.

Lemma split_head sep s : split sep s !! 0%nat = Some (before sep s).
Proof. by apply split_fuel_head. Qed.

Lemma split_second sep s :
  sep <> EmptyString -> contains sep s = true ->
  split sep s !! 1%nat = Some (before sep (after sep s)).
Proof.
  intros Hsep Hc. apply contains_partition in Hc as (b & a & Hp).
  pose proof (partition_shorter sep s b a Hsep Hp) as Hlen.
  unfold split, after. rewrite Hp.
  destruct (String.length s) as [|n] eqn:Hn; [lia|]. simpl. rewrite Hp.
  simpl. apply split_fuel_head. lia.
Qed.

Lemma before_here sep s :
  String.prefix sep s = true -> before sep s = EmptyString.
Proof. unfold before. destruct s; simpl; by intros ->. Qed.

Lemma before_later sep c s :
  String.prefix sep (String c s) = false ->
  before sep (String c s) = String c (before sep s).
Proof.
  unfold before. simpl. intros ->.
  by destruct (partition sep s) as [[b a]|].
Qed.

(** the character does not occur in the string *)
Fixpoint free_of (c : ascii) (p : string) : Prop :=
  match p with
  | EmptyString => True
  | String a p' => a <> c /\ free_of c p'
  end.

Lemma prefix_before p c s :
  free_of c p -> String.prefix p s = true ->
  String.prefix p (before (String c EmptyString) s) = true.
Proof.
  revert s. induction p as [|a p IH]; intros s Hfree Hp.
  - by destruct (before _ s).
  - destruct s as [|c' s]; [discriminate|]. simpl in Hp, Hfree.
    destruct Hfree as [Hac Hfree].
    destruct (ascii_dec a c') as [<-|]; [|discriminate].
    rewrite before_later.
    + simpl. destruct (ascii_dec a a); [|congruence]. by apply IH.
    + rewrite prefix_char. destruct (ascii_dec c a); [congruence | done].
Qed.

(** Cutting at a separator first does not matter for the text before a
    character the separator is free of, as long as that text does not
    contain the separator. *)
Lemma before_before sep c s :
  free_of c sep -> sep <> EmptyString ->
  contains sep (before (String c EmptyString) s) = false ->
  before (String c EmptyString) (before sep s)
  = before (String c EmptyString) s.
Proof.
  intros Hfree Hsep. induction s as [|c' s IH]; intros Hno.
  - unfold before. simpl. destruct sep; [done|]. reflexivity.
  - destruct (ascii_dec c c') as [<-|Hc].
    + assert (Hh : String.prefix (String c "") (String c s) = true).
      { rewrite prefix_char. destruct (ascii_dec c c); [done | congruence]. }
      rewrite (before_here _ _ Hh).
      assert (Hs : String.prefix sep (String c s) = false).
      { destruct sep as [|a sep]; [done|]. simpl.
        destruct (ascii_dec a c); [|done]. subst. destruct Hfree. congruence. }
      rewrite (before_later _ _ _ Hs). apply before_here.
      rewrite prefix_char. destruct (ascii_dec c c); [done | congruence].
    + assert (Hh : forall x,
                String.prefix (String c "") (String c' x) = false).
      { intros x. rewrite prefix_char.
        destruct (ascii_dec c c'); [congruence | done]. }
      rewrite (before_later _ _ _ (Hh s)) in *.
      cbn [contains] in Hno.
      destruct (String.prefix sep (String c' (before (String c "") s)))
        eqn:Hp; [discriminate|].
      assert (Hs : String.prefix sep (String c' s) = false).
      { destruct (String.prefix sep (String c' s)) eqn:Hs; [|done].
        pose proof (prefix_before sep c (String c' s) Hfree Hs) as Hb.
        rewrite (before_later _ _ _ (Hh s)) in Hb. congruence. }
      rewrite (before_later _ _ _ Hs), (before_later _ _ _ (Hh _)).
      f_equal. by apply IH.
Qed.

End PyStrFacts.

(** ** The feed search engine *)

Section FeedSearch.

Import NewsFeedSearch.

Context (lib : Lib) (self : NewsFeedSearch.t).

Lemma entry_to_article_silent entry : silent (entry_to_article lib entry).
Proof.
  unfold entry_to_article.
  destruct (if nonempty _ then _ else _) as [ti so].
  apply silent_bind.
  - destruct (nonempty _); [apply silent_lift | apply silent_ret].
  - intros d. apply silent_ret.
Qed.

(** Feed retrieval always returns a list, and issues exactly one request. *)
Lemma search_google_news_run env query topic w :
  exists l,
    _search_google_news lib env query topic w
    = (Ok l, add_log w [FeedGet (feed_url lib query topic)]).
Proof.
  unfold _search_google_news, session_get. unfold_m.
  set (url := feed_url lib query topic).
  fold (add_log w [FeedGet url]).
  destruct (feed_get env url) as [r|e]; [|by eexists].
  destruct (status r =? 200); simpl; [|by eexists].
  destruct (text r) as [c|e]; [|by eexists].
  destruct (feedparser_parse lib c) as [entries|e]; [|by eexists].
  pose proof (silent_mapM (entry_to_article lib) entries
                (entry_to_article_silent) (add_log w [FeedGet url])) as Hs.
  destruct (mapM _ entries _) as [[l|e] w']; simpl in Hs; subst; by eexists.
Qed.

Lemma get_from_cache_ok env key w :
  exists o, _get_from_cache self env key w = (Ok o, w).
Proof.
  unfold _get_from_cache.
  destruct (files w !! key) as [f|]; [|by eexists].
  destruct (_ >? _); [by eexists|]. destruct (data f); by eexists.
Qed.

(** Redirect resolution never raises and sends at most one request. *)
Lemma extract_real_url_run env u w :
  exists r evs,
    _extract_real_url lib env u w = (Ok r, add_log w evs)
    /\ (evs = [] \/ evs = [RedirectGet u]).
Proof.
  unfold _extract_real_url, session_get. unfold_m.
  destruct (urlparse_query lib u) as [q|e];
    [|exists u, []; by rewrite add_log_nil; auto].
  destruct (PyStr.contains "url=" q).
  - destruct (PyStr.split "url=" q !! 1%nat) as [v|];
      [|exists u, []; by rewrite add_log_nil; auto].
    destruct (PyStr.split "&" v !! 0%nat) as [r|];
      [exists r, [] | exists u, []]; by rewrite add_log_nil; auto.
  - fold (add_log w [RedirectGet u]).
    destruct (redirect_get env u) as [r|e]; [|by exists u, [RedirectGet u]; auto].
    destruct (_ || _).
    + destruct (location r) as [loc|]; [|by exists u, [RedirectGet u]; auto].
      destruct (nonempty loc);
        [by exists loc, [RedirectGet u]; auto | by exists u, [RedirectGet u]; auto].
    + by exists u, [RedirectGet u]; auto.
Qed.

Definition redirects_only (evs : list event) : Prop :=
  Forall (fun e => is_redirect_get e = true) evs.

Lemma batch_resolve_urls_run env urls w :
  exists rs evs,
    _batch_resolve_urls lib env urls w = (Ok rs, add_log w evs)
    /\ redirects_only evs /\ length rs = length urls.
Proof.
  unfold _batch_resolve_urls. revert w.
  induction urls as [|u urls IH]; intros w; simpl.
  - exists [], []. rewrite add_log_nil. repeat split; constructor.
  - unfold bind at 1.
    destruct (extract_real_url_run env u w) as (r & evs & -> & Hevs).
    unfold bind at 1.
    destruct (IH (add_log w evs)) as (rs & evs' & -> & Hevs' & Hlen).
    exists (r :: rs), (evs ++ evs')%list. rewrite add_log_app.
    repeat split; [|simpl; lia].
    apply Forall_app; split; [|done].
    destruct Hevs as [-> | ->]; repeat constructor.
Qed.

(** What [resolve_links] may change: the link, and nothing else. *)
Definition same_but_link (a b : article) : Prop :=
  set_link a (link b) = b.

Lemma same_but_link_refl a : same_but_link a a.
Proof. by destruct a. Qed.

Lemma same_but_link_set a l : same_but_link a (set_link a l).
Proof. by destruct a. Qed.

Lemma same_but_link_date a b :
  same_but_link a b -> publish_date b = publish_date a.
Proof. unfold same_but_link. by intros <-. Qed.

Lemma resolve_links_run env l w :
  exists l' evs,
    resolve_links lib env l w = (Ok l', add_log w evs)
    /\ redirects_only evs /\ Forall2 same_but_link l l'.
Proof.
  unfold resolve_links. unfold bind at 1.
  destruct (batch_resolve_urls_run env
              (map link (List.filter
                 (fun a => PyStr.contains "news.google.com" (link a)) l)) w)
    as (rs & evs & -> & Hevs & _).
  unfold ret. eexists _, evs. split; [reflexivity|]. split; [done|].
  clear. revert rs. induction l as [|a l IH]; intros rs; [constructor|].
  destruct (PyStr.contains "news.google.com" (link a)).
  - destruct rs as [|r rs].
    + constructor; [apply same_but_link_refl|].
      clear. induction l; constructor; auto using same_but_link_refl.
    + constructor; [|apply IH].
      destruct (nonempty r);
        [apply same_but_link_set | apply same_but_link_refl].
  - constructor; [apply same_but_link_refl | apply IH].
Qed.

(** The window and the cache key a call of [search_news] works with. *)
Definition from_of (env : Env) (from_date : date_arg) : date :=
  normalize_date lib (week_ago env) from_date.

Definition to_of (env : Env) (to_date : date_arg) : date :=
  normalize_date lib (today env) to_date.

Definition key_of (env : Env) (query : string) (topic : option string)
    (from_date to_date : date_arg) : string :=
  _generate_cache_key lib query topic (from_of env from_date)
    (to_of env to_date).

(** The cached list [search_news] returns from, if there is one: caching is
    on, the entry is readable and fresh, and the list is not empty. *)
Definition cache_hit (env : Env) (key : string) (use_cache : bool) (w : world)
    : option (list article) :=
  if use_cache then
    match fst (_get_from_cache self env key w) with
    | Ok (Some (x :: l)) => Some (x :: l)
    | _ => None
    end
  else None.

(** The list [search_news] builds from the feed's articles before it
    resolves links. *)
Definition select (from_date to_date : date) (max_results : Z)
    (google_results : list article) : list article :=
  PyStr.slice_to max_results
    (sorted_reverse publish_date
       (List.filter (in_date_range lib from_date to_date) google_results)).

(** The cache directory after [_save_to_cache env key res]. *)
Definition saved (env : Env) (key : string) (res : list article)
    (fs : gmap string cache_file) : gmap string cache_file :=
  if cache_writable env
  then <[key := {| mtime := write_time env; data := Ok res |}]> fs
  else if cache_opens env
  then <[key := {| mtime := write_time env; data := Raise ValueError |}]> fs
  else fs.

(** The world after a call that missed the cache. *)
Definition after_miss (env : Env) (key : string) (use_cache : bool)
    (url : string) (evs : list event) (res : list article) (w : world)
    : world :=
  {| files := if use_cache then saved env key res (files w) else files w;
     log := log w ++ [FeedGet url] ++ evs
              ++ (if use_cache then [CacheWrite key] else []) |}.

Lemma search_news_hit env query fa ta n topic resolve_urls use_cache w l :
  cache_hit env (key_of env query topic fa ta) use_cache w = Some l ->
  search_news lib self env query fa ta n topic resolve_urls use_cache w
  = (Ok (PyStr.slice_to n l), w).
Proof.
  unfold cache_hit, search_news, key_of, from_of, to_of. intros H.
  destruct use_cache; [|discriminate]. unfold bind at 1.
  destruct (get_from_cache_ok env
    (_generate_cache_key lib query topic
       (normalize_date lib (week_ago env) fa)
       (normalize_date lib (today env) ta)) w) as [o Ho].
  rewrite Ho in *. simpl in H.
  destruct o as [[|x l']|]; try discriminate. by inversion H.
Qed.

Lemma search_news_miss env query fa ta n topic resolve_urls use_cache w :
  cache_hit env (key_of env query topic fa ta) use_cache w = None ->
  exists google_results res evs,
    _search_google_news lib env query topic w
    = (Ok google_results, add_log w [FeedGet (feed_url lib query topic)])
    /\ redirects_only evs
    /\ Forall2 same_but_link
         (select (from_of env fa) (to_of env ta) n google_results) res
    /\ (resolve_urls = false ->
        evs = []
        /\ res = select (from_of env fa) (to_of env ta) n google_results)
    /\ search_news lib self env query fa ta n topic resolve_urls use_cache w
       = (Ok res,
          after_miss env (key_of env query topic fa ta) use_cache
            (feed_url lib query topic) evs res w).
Proof.
  unfold cache_hit, search_news, key_of, from_of, to_of, select, after_miss.
  set (from_date := normalize_date lib (week_ago env) fa).
  set (to_date := normalize_date lib (today env) ta).
  set (key := _generate_cache_key lib query topic from_date to_date).
  set (url := feed_url lib query topic).
  intros Hmiss.
  destruct (search_google_news_run env query topic w) as [g Hg].
  fold url in Hg.
  set (base := PyStr.slice_to n
                 (sorted_reverse publish_date
                    (List.filter (in_date_range lib from_date to_date) g))).
  assert (Hrest : exists res evs,
    redirects_only evs /\ Forall2 same_but_link base res
    /\ (resolve_urls = false -> evs = [] /\ res = base)
    /\ (do google_results <- _search_google_news lib env query topic ;;
        do sorted_results <-
          (if resolve_urls
           then resolve_links lib env
                  (PyStr.slice_to n
                     (sorted_reverse publish_date
                        (List.filter (in_date_range lib from_date to_date)
                           google_results)))
           else ret (PyStr.slice_to n
                       (sorted_reverse publish_date
                          (List.filter (in_date_range lib from_date to_date)
                             google_results)))) ;;
        run (if use_cache then _save_to_cache env key sorted_results
             else ret false) ;;
        ret sorted_results) w
       = (Ok res,
          {| files :=
               if use_cache then saved env key res (files w) else files w;
             log := log w ++ [FeedGet url] ++ evs
                      ++ (if use_cache then [CacheWrite key] else []) |})).
  { unfold bind at 1. rewrite Hg. fold base.
    assert (Hres : exists res evs,
      (if resolve_urls then resolve_links lib env base else ret base)
        (add_log w [FeedGet url]) = (Ok res, add_log w ([FeedGet url] ++ evs))
      /\ redirects_only evs /\ Forall2 same_but_link base res
      /\ (resolve_urls = false -> evs = [] /\ res = base)).
    { destruct resolve_urls.
      - destruct (resolve_links_run env base (add_log w [FeedGet url]))
          as (res & evs & Hr & Hevs & Hsame).
        exists res, evs. rewrite add_log_app in Hr. by repeat split.
      - exists base, []. unfold ret. rewrite app_nil_r.
        repeat split; try constructor.
        clear. induction base; constructor; auto using same_but_link_refl. }
    destruct Hres as (res & evs & Hr & Hevs & Hsame & Hno).
    exists res, evs. repeat split; try done; try (by apply Hno).
    unfold bind at 1. rewrite Hr.
    destruct use_cache; simpl.
    - unfold _save_to_cache, saved. unfold_m. simpl.
      destruct (cache_writable env), (cache_opens env); simpl;
        by rewrite <- !app_assoc.
    - unfold_m. simpl. by rewrite app_nil_r. }
  destruct Hrest as (res & evs & Hevs & Hsame & Hno & Hrun).
  exists g, res, evs. repeat split; try done; try (by apply Hno).
  destruct use_cache.
  - unfold bind at 1.
    destruct (get_from_cache_ok env key w) as [o Ho].
    rewrite Ho in *. simpl in Hmiss.
    destruct o as [[|x l']|]; try discriminate; exact Hrun.
  - exact Hrun.
Qed.

Lemma feed_requests_after_miss env key use_cache url evs res w :
  redirects_only evs ->
  feed_requests (log (after_miss env key use_cache url evs res w))
  = S (feed_requests (log w)).
Proof.
  intros Hevs. unfold after_miss; cbn [log].
  rewrite !feed_requests_app, (feed_requests_redirects evs Hevs).
  destruct use_cache; simpl; unfold feed_requests; simpl; lia.
Qed.

Lemma cache_writes_after_miss env key use_cache url evs res w :
  redirects_only evs ->
  cache_writes (log (after_miss env key use_cache url evs res w))
  = ((if use_cache then 1 else 0) + cache_writes (log w))%nat.
Proof.
  intros Hevs. unfold after_miss; cbn [log].
  rewrite !cache_writes_app, (cache_writes_redirects evs Hevs).
  destruct use_cache; simpl; unfold cache_writes; simpl; lia.
Qed.

(** C10: the cache key is not injective in (query, topic): the key string
    joins query, topic and the two dates with an unescaped underscore before
    hashing, so query "a_b" with topic "c" and query "a" with topic "b_c"
    over the same window are different parameters with the same key, and
    every cache read and write of the one addresses the file of the
    other. *)
Theorem cache_key_not_injective (from_date to_date : date) :
  ("a_b", Some "c") <> ("a", Some "b_c")
  /\ _generate_cache_key lib "a_b" (Some "c") from_date to_date
     = _generate_cache_key lib "a" (Some "b_c") from_date to_date
  /\ (forall env w,
        _get_from_cache self env
          (_generate_cache_key lib "a_b" (Some "c") from_date to_date) w
        = _get_from_cache self env
            (_generate_cache_key lib "a" (Some "b_c") from_date to_date) w)
  /\ (forall env res w,
        _save_to_cache env
          (_generate_cache_key lib "a_b" (Some "c") from_date to_date) res w
        = _save_to_cache env
            (_generate_cache_key lib "a" (Some "b_c") from_date to_date)
            res w).
Proof.
  assert (Hkey : _generate_cache_key lib "a_b" (Some "c") from_date to_date
                 = _generate_cache_key lib "a" (Some "b_c") from_date to_date)
    by reflexivity.
  split; [discriminate|]. split; [exact Hkey|].
  split; intros; by rewrite Hkey.
Qed.

Lemma get_from_cache_eq env key w :
  _get_from_cache self env key w
  = (Ok match files w !! key with
        | None => None
        | Some f =>
            if time_time env - mtime f >? cache_expiry self then None
            else match data f with
                 | Ok l => Some l
                 | Raise _ => None
                 end
        end, w).
Proof.
  unfold _get_from_cache. destruct (files w !! key) as [f|]; [|done].
  destruct (_ >? _); [done|]. by destruct (data f).
Qed.

(** C5: the cache read returns nothing exactly when the file is missing,
    when its modification time is more than the time-to-live (3600 seconds
    by default) in the past, or when its contents cannot be decoded; and a
    search whose key has an expired file sends a fresh request to the
    feed. *)
Theorem get_from_cache_absent env key w :
  cache_expiry (NewsFeedSearch.__init__ None) = 3600
  /\ (fst (_get_from_cache self env key w) = Ok None
      <-> files w !! key = None
          \/ exists f, files w !! key = Some f
               /\ (cache_expiry self < time_time env - mtime f
                   \/ exists e, data f = Raise e))
  /\ (forall f query fa ta n topic resolve_urls,
        key = key_of env query topic fa ta ->
        files w !! key = Some f ->
        cache_expiry self < time_time env - mtime f ->
        feed_requests
          (log (snd (search_news lib self env query fa ta n topic
                       resolve_urls true w)))
        = S (feed_requests (log w))).
Proof.
  split; [reflexivity|]. split.
  - rewrite get_from_cache_eq; simpl. split.
    + intros H. destruct (files w !! key) as [f|]; [right|by left].
      exists f. split; [done|].
      destruct (Z.gtb_spec (time_time env - mtime f) (cache_expiry self));
        [left; lia|].
      destruct (data f) as [l|e]; [discriminate | right; by exists e].
    + intros [-> | (f & -> & [Hold | [e He]])]; [done| |].
      * destruct (Z.gtb_spec (time_time env - mtime f) (cache_expiry self));
          [done | lia].
      * rewrite He. by destruct (_ >? _).
  - intros f query fa ta n topic resolve_urls -> Hf Hold.
    destruct (search_news_miss env query fa ta n topic resolve_urls true w)
      as (g & res & evs & _ & Hevs & _ & _ & ->).
    + unfold cache_hit. rewrite get_from_cache_eq; simpl. rewrite Hf.
      destruct (Z.gtb_spec (time_time env - mtime f) (cache_expiry self));
        [done | lia].
    + simpl snd. by apply feed_requests_after_miss.
Qed.

(** C9: when caching is on and the fresh cache entry of the key holds the
    empty list, the truth test on the cached list rejects it: the read
    returns the (empty) entry, and the search goes on to send a request to
    the feed. *)
Theorem empty_cache_entry_refetches env query fa ta n topic resolve_urls w f :
  files w !! key_of env query topic fa ta = Some f ->
  time_time env - mtime f <= cache_expiry self ->
  data f = Ok [] ->
  fst (_get_from_cache self env (key_of env query topic fa ta) w)
  = Ok (Some [])
  /\ feed_requests
       (log (snd (search_news lib self env query fa ta n topic
                    resolve_urls true w)))
     = S (feed_requests (log w))
  /\ In (FeedGet (feed_url lib query topic))
       (log (snd (search_news lib self env query fa ta n topic
                    resolve_urls true w))).
Proof.
  intros Hf Hfresh Hdata.
  assert (Hget : fst (_get_from_cache self env
                        (key_of env query topic fa ta) w) = Ok (Some [])).
  { rewrite get_from_cache_eq; simpl. rewrite Hf, Hdata.
    destruct (Z.gtb_spec (time_time env - mtime f) (cache_expiry self));
      [lia | done]. }
  split; [exact Hget|].
  destruct (search_news_miss env query fa ta n topic resolve_urls true w)
    as (g & res & evs & _ & Hevs & _ & _ & ->).
  { unfold cache_hit. by rewrite Hget. }
  simpl snd. split; [by apply feed_requests_after_miss|].
  unfold after_miss; simpl. apply in_app_iff. right. by left.
Qed.

Lemma take_zero_slice {A} (l : list A) : PyStr.slice_to 0 l = [].
Proof. reflexivity. Qed.

(** C4, as the code has it: with [max_results = 0] the search returns the
    empty sequence. It calls the cache write exactly when caching is on and
    the cache read did not deliver a non-empty fresh entry; the call then
    stores the empty sequence under the key (when the file can be written;
    a write that fails after the file was opened leaves that file
    unreadable, and one that cannot open it leaves the directory as it
    was). With caching off, or on a cache hit, no cache write is called
    and no file changes. *)
Theorem search_zero_max_results env query fa ta topic resolve_urls use_cache w :
  fst (search_news lib self env query fa ta 0 topic resolve_urls use_cache w)
  = Ok []
  /\ match cache_hit env (key_of env query topic fa ta) use_cache w with
     | Some _ =>
         snd (search_news lib self env query fa ta 0 topic resolve_urls
                use_cache w) = w
     | None =>
         cache_writes
           (log (snd (search_news lib self env query fa ta 0 topic
                        resolve_urls use_cache w)))
         = ((if use_cache then 1 else 0) + cache_writes (log w))%nat
         /\ files (snd (search_news lib self env query fa ta 0 topic
                          resolve_urls use_cache w))
            = if use_cache && cache_writable env
              then <[key_of env query topic fa ta :=
                       {| mtime := write_time env; data := Ok [] |}]>
                     (files w)
              else if use_cache && cache_opens env
              then <[key_of env query topic fa ta :=
                       {| mtime := write_time env;
                          data := Raise ValueError |}]>
                     (files w)
              else files w
     end.
Proof.
  destruct (cache_hit env (key_of env query topic fa ta) use_cache w)
    as [l|] eqn:Hhit.
  - rewrite (search_news_hit _ _ _ _ _ _ _ _ _ _ Hhit). by split.
  - destruct (search_news_miss env query fa ta 0 topic resolve_urls
                use_cache w Hhit)
      as (g & res & evs & _ & Hevs & Hsame & _ & ->).
    unfold select in Hsame. rewrite take_zero_slice in Hsame.
    inversion Hsame; subst. simpl fst; simpl snd.
    split; [done|]. split; [by apply cache_writes_after_miss|].
    unfold after_miss, saved; simpl.
    by destruct use_cache, (cache_writable env), (cache_opens env).
Qed.

(** The ways feed retrieval can fail: the request raises, the status is not
    200, the body cannot be read, the document cannot be parsed, or the
    description of an entry cannot be cleaned. *)
Definition bad_entry (entry : feed_entry) : Prop :=
  exists d e,
    e_description entry = Some d /\ nonempty d = true
    /\ soup_get_text lib d = Raise e.

Inductive feed_failure (env : Env) (url : string) : Prop :=
| network_error e :
    feed_get env url = Raise e -> feed_failure env url
| bad_status r :
    feed_get env url = Ok r -> status r <> 200 -> feed_failure env url
| body_error r e :
    feed_get env url = Ok r -> text r = Raise e -> feed_failure env url
| parse_error r c e :
    feed_get env url = Ok r -> text r = Ok c ->
    feedparser_parse lib c = Raise e -> feed_failure env url
| entry_error r c entries :
    feed_get env url = Ok r -> text r = Ok c ->
    feedparser_parse lib c = Ok entries -> Exists bad_entry entries ->
    feed_failure env url.

Lemma entry_to_article_raises entry w :
  bad_entry entry -> exists e, entry_to_article lib entry w = (Raise e, w).
Proof.
  intros (d & e & Hd & Hne & He). exists e.
  unfold entry_to_article.
  destruct (if nonempty _ then _ else _) as [ti so].
  rewrite Hd; simpl default. rewrite Hne. unfold_m. by rewrite He.
Qed.

Lemma mapM_entries_raise entries w :
  Exists bad_entry entries ->
  exists e, mapM (entry_to_article lib) entries w = (Raise e, w).
Proof.
  induction 1 as [entry entries Hbad | entry entries _ IH]; simpl.
  - destruct (entry_to_article_raises entry w Hbad) as [e He].
    exists e. unfold bind. by rewrite He.
  - pose proof (entry_to_article_silent entry w) as Hs.
    unfold bind at 1.
    destruct (entry_to_article lib entry w) as [[a|e] w']; simpl in Hs; subst;
      [|by exists e].
    destruct IH as [e He]. exists e. unfold bind. by rewrite He.
Qed.

Lemma search_google_news_failure env query topic w :
  feed_failure env (feed_url lib query topic) ->
  fst (_search_google_news lib env query topic w) = Ok [].
Proof.
  intros Hfail. unfold _search_google_news, session_get. unfold_m.
  destruct Hfail as [e He | r Hr Hst | r e Hr Ht | r c e Hr Ht Hp
                    | r c entries Hr Ht Hp Hbad].
  - by rewrite He.
  - rewrite Hr. apply Z.eqb_neq in Hst. by rewrite Hst.
  - rewrite Hr. destruct (status r =? 200); [|done]. simpl. by rewrite Ht.
  - rewrite Hr. destruct (status r =? 200); [|done]. simpl.
    by rewrite Ht, Hp.
  - rewrite Hr. destruct (status r =? 200); [|done]. simpl.
    rewrite Ht, Hp.
    destruct (mapM_entries_raise entries
                {| files := files w;
                   log := log w ++ [FeedGet (feed_url lib query topic)] |}
                Hbad) as [e He].
    by rewrite He.
Qed.

(** C7: whatever the network, the feed and the cache do, [search_news]
    returns a list and never raises. When feed retrieval fails (a network
    error, a status other than 200, or an exception while reading or
    parsing the feed), [_search_google_news] returns the empty list, and so
    does every search that reaches the feed client. *)
Theorem feed_errors_never_propagate
    env query fa ta n topic resolve_urls use_cache w :
  (exists res,
     fst (search_news lib self env query fa ta n topic resolve_urls
            use_cache w) = Ok res)
  /\ (exists l, fst (_search_google_news lib env query topic w) = Ok l)
  /\ (feed_failure env (feed_url lib query topic) ->
      fst (_search_google_news lib env query topic w) = Ok []
      /\ (cache_hit env (key_of env query topic fa ta) use_cache w = None ->
          fst (search_news lib self env query fa ta n topic resolve_urls
                 use_cache w) = Ok [])).
Proof.
  split; [|split].
  - destruct (cache_hit env (key_of env query topic fa ta) use_cache w)
      as [l|] eqn:Hhit.
    + rewrite (search_news_hit _ _ _ _ _ _ _ _ _ _ Hhit). by eexists.
    + destruct (search_news_miss env query fa ta n topic resolve_urls
                  use_cache w Hhit) as (g & res & evs & _ & _ & _ & _ & ->).
      by eexists.
  - destruct (search_google_news_run env query topic w) as [l ->].
    by eexists.
  - intros Hfail.
    pose proof (search_google_news_failure env query topic w Hfail) as Hnil.
    split; [exact Hnil|]. intros Hhit.
    destruct (search_news_miss env query fa ta n topic resolve_urls
                use_cache w Hhit) as (g & res & evs & Hg & _ & Hsame & _ & ->).
    rewrite Hg in Hnil. simpl in Hnil. inversion Hnil; subst.
    unfold select in Hsame. simpl in Hsame.
    assert (Hempty : PyStr.slice_to n (@nil article) = []).
    { unfold PyStr.slice_to. destruct (0 <=? n); by rewrite take_nil. }
    rewrite Hempty in Hsame. by inversion Hsame.
Qed.

Lemma slice_to_length {A} (n : Z) (l : list A) :
  0 <= n -> (length (PyStr.slice_to n l) <= Z.to_nat n)%nat.
Proof.
  intros Hn. unfold PyStr.slice_to.
  destruct (Z.leb_spec 0 n); [|lia]. rewrite length_take. lia.
Qed.

Lemma slice_to_short {A} (n : Z) (l : list A) :
  0 <= n -> (length l <= Z.to_nat n)%nat -> PyStr.slice_to n l = l.
Proof.
  intros Hn Hl. unfold PyStr.slice_to.
  destruct (Z.leb_spec 0 n); [|lia]. by apply take_ge.
Qed.

(** C1, as the code has it: take two searches with the same criteria, the
    same [max_results >= 0] and caching on, for which [from_date] and
    [to_date] stand for the same two dates (a date left out, or a string
    that is no date, stands at each search for that search's today, or
    today minus seven days). If the first one finds no usable cache entry,
    returns a non-empty sequence and succeeds in writing it to the cache,
    and the second one reads the clock no later than the time-to-live
    after that write, then the first search sends exactly one request to
    the feed, and the second returns the same sequence and leaves the
    world as it found it: no request, no cache write. *)
Theorem search_cache_idempotent
    env1 env2 query fa ta n topic resolve1 resolve2 w res :
  from_of env2 fa = from_of env1 fa ->
  to_of env2 ta = to_of env1 ta ->
  cache_hit env1 (key_of env1 query topic fa ta) true w = None ->
  cache_writable env1 = true ->
  fst (search_news lib self env1 query fa ta n topic resolve1 true w)
  = Ok res ->
  res <> [] ->
  0 <= n ->
  time_time env2 - write_time env1 <= cache_expiry self ->
  feed_requests
    (log (snd (search_news lib self env1 query fa ta n topic resolve1
                 true w)))
  = S (feed_requests (log w))
  /\ search_news lib self env2 query fa ta n topic resolve2 true
       (snd (search_news lib self env1 query fa ta n topic resolve1 true w))
     = (Ok res,
        snd (search_news lib self env1 query fa ta n topic resolve1 true w)).
Proof.
  intros Hfrom Hto Hmiss Hwr Hres Hne Hn Hfresh.
  destruct (search_news_miss env1 query fa ta n topic resolve1 true w Hmiss)
    as (g & res' & evs & _ & Hevs & Hsame & _ & Hrun).
  rewrite Hrun in *. simpl in Hres. inversion Hres; subst res'. simpl snd.
  split; [by apply feed_requests_after_miss|].
  assert (Hkey : key_of env2 query topic fa ta = key_of env1 query topic fa ta)
    by (unfold key_of; by rewrite Hfrom, Hto).
  assert (Hlen : (length res <= Z.to_nat n)%nat).
  { rewrite <- (Forall2_length _ _ _ Hsame). unfold select.
    by apply slice_to_length. }
  rewrite (search_news_hit env2 query fa ta n topic resolve2 true _ res).
  - by rewrite slice_to_short.
  - rewrite Hkey. unfold cache_hit. rewrite get_from_cache_eq.
    unfold after_miss, saved; simpl. rewrite Hwr. rewrite lookup_insert_eq.
    simpl.
    destruct (Z.gtb_spec (time_time env2 - write_time env1)
                (cache_expiry self)); [lia|].
    destruct res; [done | reflexivity].
Qed.

(** *** The date window *)

(** The date a [publish_date] string stands for: the first of the formats
    the filter tries that accepts it. *)
Definition parsed_date (s : string) : option date :=
  match strptime_date lib s "%a, %d %b %Y %H:%M:%S %Z" with
  | Some d => Some d
  | None => fromisoformat_date lib (replace "Z" "+00:00" s)
  end.

(** No format the filter tries accepts the string. *)
Definition unparseable (s : string) : Prop :=
  strptime_date lib s "%a, %d %b %Y %H:%M:%S %Z" = None
  /\ fromisoformat_date lib (replace "Z" "+00:00" s) = None.

(** The article's date is inside the window, or cannot be parsed. *)
Definition acceptable (from_date to_date : date) (a : article) : Prop :=
  (exists d, parsed_date (publish_date a) = Some d
             /\ date_leb from_date d = true /\ date_leb d to_date = true)
  \/ unparseable (publish_date a).

Lemma in_date_range_acceptable from_date to_date a :
  in_date_range lib from_date to_date a = true
  <-> acceptable from_date to_date a.
Proof.
  unfold in_date_range, acceptable, parsed_date, unparseable.
  destruct (strptime_date lib (publish_date a) _) as [d|].
  - rewrite andb_true_iff. split.
    + intros [H1 H2]. left. by exists d.
    + intros [(d' & Hd & H1 & H2) | [? _]]; [|done]. by inversion Hd; subst.
  - destruct (fromisoformat_date lib _) as [d|].
    + rewrite andb_true_iff. split.
      * intros [H1 H2]. left. by exists d.
      * intros [(d' & Hd & H1 & H2) | [_ ?]]; [|done].
        by inversion Hd; subst.
    + split; [by right | done].
Qed.

Lemma acceptable_no_outside from_date to_date a d :
  acceptable from_date to_date a ->
  parsed_date (publish_date a) = Some d ->
  date_leb from_date d = true /\ date_leb d to_date = true.
Proof.
  intros [(d' & Hd & H1 & H2) | [H1 H2]] Hp.
  - rewrite Hd in Hp. by inversion Hp; subst.
  - unfold parsed_date in Hp. rewrite H1, H2 in Hp. discriminate.
Qed.

Lemma insert_desc_Forall {A} (P : A -> Prop) key x l :
  P x -> Forall P l -> Forall P (insert_desc key x l).
Proof.
  intros Hx. induction 1 as [|y l Hy Hl IH]; simpl.
  - by constructor.
  - destruct (String.ltb _ _); repeat constructor; auto.
Qed.

Lemma sorted_reverse_Forall {A} (P : A -> Prop) key l :
  Forall P l -> Forall P (sorted_reverse key l).
Proof.
  unfold sorted_reverse. induction 1; simpl; [constructor|].
  by apply insert_desc_Forall.
Qed.

Lemma slice_to_Forall {A} (P : A -> Prop) n l :
  Forall P l -> Forall P (PyStr.slice_to n l).
Proof.
  intros H. unfold PyStr.slice_to. destruct (0 <=? n); by apply Forall_take.
Qed.

Lemma select_acceptable from_date to_date n g :
  Forall (acceptable from_date to_date) (select from_date to_date n g).
Proof.
  unfold select. apply slice_to_Forall, sorted_reverse_Forall.
  apply List.Forall_forall. intros a Ha.
  apply List.filter_In in Ha as [_ Ha].
  by apply in_date_range_acceptable.
Qed.

Lemma same_but_link_acceptable from_date to_date l l' :
  Forall2 same_but_link l l' ->
  Forall (acceptable from_date to_date) l ->
  Forall (acceptable from_date to_date) l'.
Proof.
  induction 1 as [|a b l l' Hab _ IH]; intros Hl; [constructor|].
  inversion Hl; subst. constructor; [|by apply IH].
  unfold acceptable in *. by rewrite (same_but_link_date _ _ Hab).
Qed.

(** One call of [search_news], with all its arguments. *)
Record call := Call {
  c_env : Env;
  c_query : string;
  c_from : date_arg;
  c_to : date_arg;
  c_max : Z;
  c_topic : option string;
  c_resolve : bool;
  c_cache : bool
}.

Definition run_call (c : call) : M (list article) :=
  search_news lib self (c_env c) (c_query c) (c_from c) (c_to c) (c_max c)
    (c_topic c) (c_resolve c) (c_cache c).

(** A sequence of calls on the same cache directory, one after another. *)
Definition run_calls (cs : list call) : M (list (list article)) :=
  mapM run_call cs.

Definition call_key (c : call) : string :=
  key_of (c_env c) (c_query c) (c_topic c) (c_from c) (c_to c).

Definition call_from (c : call) : date := from_of (c_env c) (c_from c).

Definition call_to (c : call) : date := to_of (c_env c) (c_to c).

(** The digest keeps the windows of the calls apart: two calls with the
    same cache key search the same window. *)
Definition keys_separate (cs : list call) : Prop :=
  forall c c', In c cs -> In c' cs -> call_key c = call_key c' ->
    call_from c = call_from c' /\ call_to c = call_to c'.

(** Every readable cache file holds only articles acceptable for the window
    of each call that uses its key. *)
Definition cache_sound (cs : list call) (w : world) : Prop :=
  forall c f l, In c cs -> files w !! call_key c = Some f -> data f = Ok l ->
    Forall (acceptable (call_from c) (call_to c)) l.

(** *** Cache keys and windows *)

Lemma append_nil (b : string) : EmptyString ++ b = b.
Proof. reflexivity. Qed.

Lemma append_cons c (a b : string) : String c a ++ b = String c (a ++ b).
Proof. reflexivity. Qed.

Lemma append_length (a b : string) :
  String.length (a ++ b) = (String.length a + String.length b)%nat.
Proof.
  induction a as [|c a IH]; [done|].
  rewrite append_cons. simpl. by rewrite IH.
Qed.

Lemma append_assoc (a b c : string) : (a ++ b) ++ c = a ++ (b ++ c).
Proof.
  induction a as [|x a IH]; [done|]. rewrite !append_cons. by rewrite IH.
Qed.

Lemma append_inj_suffix (a a' b b' : string) :
  String.length b = String.length b' -> a ++ b = a' ++ b' ->
  a = a' /\ b = b'.
Proof.
  intros Hlen. revert a'. induction a as [|c a IH]; intros [|c' a'] H;
    rewrite ?append_nil, ?append_cons in H.
  - done.
  - subst b. simpl in Hlen. rewrite append_length in Hlen. lia.
  - subst b'. simpl in Hlen. rewrite append_length in Hlen. lia.
  - inversion H; subst. destruct (IH a' H2) as [-> ->]. done.
Qed.

(** The range of [datetime.date]. *)
Definition valid_date (d : date) : Prop :=
  1 <= year d <= 9999 /\ 1 <= month d <= 12 /\ 1 <= day d <= 31.

Lemma digit_inj (a b : Z) : digit a = digit b -> a mod 10 = b mod 10.
Proof.
  unfold digit. intros H.
  apply (f_equal nat_of_ascii) in H.
  rewrite !nat_ascii_embedding in H by (Z.div_mod_to_equations; lia).
  Z.div_mod_to_equations. lia.
Qed.

Lemma isoformat_inj d d' :
  valid_date d -> valid_date d' -> isoformat d = isoformat d' -> d = d'.
Proof.
  destruct d as [y m dd], d' as [y' m' dd'].
  unfold valid_date, isoformat, pad4, pad2; simpl.
  intros (Hy & Hm & Hd) (Hy' & Hm' & Hd') H.
  inversion H as [[H1 H2 H3 H4 H5 H6 H7 H8]].
  apply digit_inj in H1, H2, H3, H4, H5, H6, H7, H8.
  assert (y = y') by (Z.div_mod_to_equations; lia).
  assert (m = m') by (Z.div_mod_to_equations; lia).
  assert (dd = dd') by (Z.div_mod_to_equations; lia).
  by subst.
Qed.

(** The key string determines the window: the two dates are its last 21
    characters. *)
Lemma cache_key_window query topic from_date to_date
    query' topic' from_date' to_date' :
  (forall s s', md5_hexdigest lib s = md5_hexdigest lib s' -> s = s') ->
  valid_date from_date -> valid_date to_date ->
  valid_date from_date' -> valid_date to_date' ->
  _generate_cache_key lib query topic from_date to_date
  = _generate_cache_key lib query' topic' from_date' to_date' ->
  from_date = from_date' /\ to_date = to_date'.
Proof.
  intros Hinj Hf Ht Hf' Ht' Hkey. apply Hinj in Hkey.
  rewrite <- !(append_assoc _ "_" (_ ++ "_" ++ isoformat _ ++ _)) in Hkey.
  rewrite <- !(append_assoc _ (format_topic _)
                 ("_" ++ isoformat _ ++ "_" ++ isoformat _)) in Hkey.
  apply append_inj_suffix in Hkey as [_ Hdates]; [|reflexivity].
  apply (append_inj_suffix "_" "_") in Hdates as [_ Hdates]; [|reflexivity].
  rewrite <- !(append_assoc (isoformat _) "_" (isoformat _)) in Hdates.
  apply append_inj_suffix in Hdates as [Hfrom Hto]; [|reflexivity].
  apply (append_inj_suffix _ _ "_" "_") in Hfrom as [Hfrom _];
    [|reflexivity].
  split; by apply isoformat_inj.
Qed.

(** So a digest without collisions keeps the windows of any calls apart. *)
Lemma keys_separate_of_digest cs :
  (forall s s', md5_hexdigest lib s = md5_hexdigest lib s' -> s = s') ->
  (forall c, In c cs -> valid_date (call_from c) /\ valid_date (call_to c)) ->
  keys_separate cs.
Proof.
  intros Hinj Hvalid c c' Hc Hc' Hkey.
  destruct (Hvalid c Hc) as [Hf Ht], (Hvalid c' Hc') as [Hf' Ht'].
  by apply (cache_key_window (c_query c) (c_topic c) _ _
              (c_query c') (c_topic c')).
Qed.

Lemma run_call_sound cs c w :
  keys_separate cs -> In c cs -> cache_sound cs w ->
  exists res w',
    run_call c w = (Ok res, w')
    /\ Forall (acceptable (call_from c) (call_to c)) res
    /\ cache_sound cs w'.
Proof.
  intros Hsep Hc Hw. unfold run_call.
  destruct (cache_hit (c_env c) (call_key c) (c_cache c) w) as [l|] eqn:Hhit.
  - unfold call_key in Hhit.
    rewrite (search_news_hit _ _ _ _ _ _ _ _ _ _ Hhit).
    eexists _, w. split; [reflexivity|]. split; [|done].
    apply slice_to_Forall.
    unfold cache_hit in Hhit. destruct (c_cache c); [|discriminate].
    rewrite get_from_cache_eq in Hhit. simpl in Hhit.
    fold (call_key c) in Hhit.
    destruct (files w !! call_key c) as [f|] eqn:Hf; [|discriminate].
    destruct (_ >? _); [discriminate|].
    destruct (data f) as [l'|] eqn:Hd; [|discriminate].
    assert (l' = l) as -> by (destruct l'; [discriminate | by inversion Hhit]).
    by apply (Hw c f l).
  - destruct (search_news_miss (c_env c) (c_query c) (c_from c) (c_to c)
                (c_max c) (c_topic c) (c_resolve c) (c_cache c) w Hhit)
      as (g & res & evs & _ & _ & Hsame & _ & ->).
    assert (Hres : Forall (acceptable (call_from c) (call_to c)) res).
    { eapply same_but_link_acceptable; [exact Hsame|].
      apply select_acceptable. }
    eexists _, _. split; [reflexivity|]. split; [exact Hres|].
    intros c' f l Hc' Hf Hd. unfold after_miss, saved in Hf; simpl in Hf.
    fold (call_key c) in Hf.
    destruct (c_cache c); [|by apply (Hw c' f l)].
    destruct (cache_writable (c_env c)).
    + destruct (decide (call_key c = call_key c')) as [Heq|Hne].
      * rewrite Heq, lookup_insert_eq in Hf. inversion Hf; subst f.
        simpl in Hd. inversion Hd; subst l.
        destruct (Hsep c c' Hc Hc' Heq) as [<- <-]. exact Hres.
      * rewrite lookup_insert_ne in Hf by done. by apply (Hw c' f l).
    + destruct (cache_opens (c_env c)); [|by apply (Hw c' f l)].
      destruct (decide (call_key c = call_key c')) as [Heq|Hne].
      * rewrite Heq, lookup_insert_eq in Hf. inversion Hf; subst f.
        discriminate Hd.
      * rewrite lookup_insert_ne in Hf by done. by apply (Hw c' f l).
Qed.

Lemma run_calls_sound all cs w :
  keys_separate all -> (forall c, In c cs -> In c all) -> cache_sound all w ->
  exists results w',
    run_calls cs w = (Ok results, w')
    /\ Forall2 (fun c res => Forall (acceptable (call_from c) (call_to c)) res)
         cs results.
Proof.
  intros Hsep. revert w. induction cs as [|c cs IH]; intros w Hin Hw.
  - exists [], w. split; [reflexivity | constructor].
  - destruct (run_call_sound all c w Hsep (Hin c (or_introl eq_refl)) Hw)
      as (res & w1 & Hrun & Hres & Hw1).
    destruct (IH w1 (fun c' H => Hin c' (or_intror H)) Hw1)
      as (results & w2 & Hruns & Hall).
    exists (res :: results), w2. split; [|by constructor].
    unfold run_calls in *. simpl. unfold bind at 1. rewrite Hrun.
    unfold bind at 1. by rewrite Hruns.
Qed.

(** C2: start from an empty cache directory and make any sequence of calls
    of [search_news], as long as the digest does not make two of them with
    different windows share a cache file. Every call returns, and every
    article it returns either has a [publish_date] that parses, under the
    first format that accepts it, to a date [d] with
    [from_date <= d <= to_date] (both ends included), or has a
    [publish_date] no format accepts; so no returned article parses to a
    date outside the window of its call. *)
Theorem search_results_within_window cs w :
  files w = ∅ ->
  keys_separate cs ->
  exists results w',
    run_calls cs w = (Ok results, w')
    /\ Forall2
         (fun c res =>
            Forall (fun a =>
              acceptable (call_from c) (call_to c) a
              /\ forall d, parsed_date (publish_date a) = Some d ->
                   date_leb (call_from c) d = true
                   /\ date_leb d (call_to c) = true) res)
         cs results.
Proof.
  intros Hempty Hsep.
  destruct (run_calls_sound cs cs w Hsep (fun _ H => H))
    as (results & w' & Hrun & Hall).
  { intros c f l _ Hf. rewrite Hempty in Hf. by rewrite lookup_empty in Hf. }
  exists results, w'. split; [exact Hrun|].
  eapply Forall2_impl; [exact Hall|]. simpl. intros c res Hres.
  eapply Forall_impl; [exact Hres|]. simpl. intros a Ha.
  split; [exact Ha|]. intros d Hd. by apply (acceptable_no_outside _ _ a).
Qed.

(** *** Redirect resolution *)

(** The value of the embedded parameter as the specification words it: the
    text after the first "url=" of the query, up to the next ampersand. *)
Definition embedded_url_value (query : string) : string :=
  PyStr.before "&" (PyStr.after "url=" query).

(** The answer to the non-following GET is a redirect (301 or 302) with a
    non-empty Location header [loc]. *)
Definition redirect_location (env : Env) (u loc : string) : Prop :=
  exists r,
    redirect_get env u = Ok r
    /\ (status r = 301 \/ status r = 302)
    /\ location r = Some loc /\ loc <> "".

(** With "url=" in the query string, resolution returns the text between
    the first "url=" and the next ampersand or the next "url=", whichever
    comes first, and leaves the world alone. *)
Lemma extract_real_url_embedded env u w query :
  urlparse_query lib u = Ok query ->
  PyStr.contains "url=" query = true ->
  _extract_real_url lib env u w
  = (Ok (PyStr.before "&" (PyStr.before "url=" (PyStr.after "url=" query))),
     w).
Proof.
  intros Hu Hq. unfold _extract_real_url. unfold_m. rewrite Hu, Hq.
  rewrite (split_second "url=" query) by done.
  by rewrite split_head.
Qed.

(** C6, as the code has it. When the query string of the URL contains
    "url=" and the embedded value (the text after the first "url=" up to
    the next ampersand) contains no further "url=", resolution returns that
    value and makes no network call. When the query string has no "url=",
    resolution makes exactly one non-following GET and returns the Location
    header if the status is 301 or 302 and the header is present and not
    empty, and the original URL in every other case. When the URL cannot
    be parsed, it returns the original URL without a network call. *)
Theorem extract_real_url_spec env u w :
  match urlparse_query lib u with
  | Ok query =>
      (PyStr.contains "url=" query = true ->
       PyStr.contains "url=" (embedded_url_value query) = false ->
       _extract_real_url lib env u w = (Ok (embedded_url_value query), w))
      /\ (PyStr.contains "url=" query = false ->
          exists res,
            _extract_real_url lib env u w
            = (Ok res, add_log w [RedirectGet u])
            /\ (forall loc, redirect_location env u loc -> res = loc)
            /\ ((forall loc, ~ redirect_location env u loc) -> res = u))
  | Raise _ => _extract_real_url lib env u w = (Ok u, w)
  end.
Proof.
  destruct (urlparse_query lib u) as [q|e] eqn:Hu;
    [|unfold _extract_real_url; unfold_m; by rewrite Hu].
  split.
  - intros Hq Hno. rewrite (extract_real_url_embedded env u w q Hu Hq).
    unfold embedded_url_value in *.
    rewrite (before_before "url=" "&"%char); [done | | done | done].
    simpl. repeat split; discriminate.
  - unfold _extract_real_url, session_get. unfold_m. rewrite Hu.
    intros Hq. rewrite Hq. fold (add_log w [RedirectGet u]).
    unfold redirect_location.
    destruct (redirect_get env u) as [r|e].
    + assert (Hredirect :
        (status r =? 301) || (status r =? 302) = true ->
        status r = 301 \/ status r = 302).
      { rewrite orb_true_iff, !Z.eqb_eq. tauto. }
      destruct ((status r =? 301) || (status r =? 302)) eqn:Hst.
      * specialize (Hredirect eq_refl).
        destruct (location r) as [[|c loc]|] eqn:Hloc; simpl;
          eexists; (split; [reflexivity|]); split;
          try (intros loc' (r' & Hr & _ & Hl & Hne);
               inversion Hr; subst r';
               rewrite Hloc in Hl; inversion Hl; congruence);
          try reflexivity.
        intros Hnone. exfalso. apply (Hnone (String c loc)).
        exists r. repeat split; auto.
      * eexists; split; [reflexivity|]. split; [|done].
        intros loc' (r' & Hr & Hst' & Hl & Hne). inversion Hr; subst r'.
        apply orb_false_iff in Hst as [H1 H2].
        apply Z.eqb_neq in H1, H2. lia.
    + eexists; split; [reflexivity|]. split; [|done].
      intros loc' (r' & Hr & _). discriminate.
Qed.

End FeedSearch.

(** ** The concurrent fetcher *)

Section Fetcher.

Import AsyncScraper.

Context (lib : Lib) (self : AsyncScraper.t).

(** What one attempt on a URL brought, in the words of the retry rules. *)
Inductive outcome :=
| BadStatus                 (* a response with a status other than 200 *)
| NetworkError              (* a ClientError or a TimeoutError *)
| Unexpected                (* any other exception *)
| Page (a : RawArticle).    (* status 200, and the page extracted from it *)

Definition failure (e : exn) : outcome :=
  match e with
  | ClientError | TimeoutError => NetworkError
  | _ => Unexpected
  end.

Definition classify (u : string) (got : result response) : outcome :=
  match got with
  | Raise e => failure e
  | Ok r =>
      if status r =? 200 then
        match text r with
        | Ok h => Page (_parse_with_newspaper lib u h)
        | Raise e => failure e
        end
      else BadStatus
  end.

(** [len(article.content)], and 0 when there is no content *)
Definition content_length (a : RawArticle) : Z :=
  match content a with
  | Some c => Z.of_nat (String.length c)
  | None => 0
  end.

(** The attempt asks for another one, when one is left. *)
Definition retryable (o : outcome) : Prop :=
  o = BadStatus \/ o = NetworkError
  \/ exists a, o = Page a /\ content_length a < 200.

(** Attempt [i] delivers the article [a]: a page of at least 200
    characters, or any page on the last attempt. *)
Definition delivers (i : Z) (o : outcome) (a : RawArticle) : Prop :=
  o = Page a /\ (200 <= content_length a \/ i = retry_count self).

Lemma attempt_flow_classify u i got :
  attempt_flow lib self u i got
  = match classify u got with
    | BadStatus | NetworkError =>
        if i <? retry_count self
        then Continue (retry_delay self * (i + 1))
        else Return None
    | Unexpected => Return None
    | Page a =>
        if (content_length a <? 200) && (i <? retry_count self)
        then Continue (retry_delay self * (i + 1))
        else Return (Some a)
    end.
Proof.
  unfold attempt_flow, classify, result_bind, content_length.
  destruct got as [r|e]; [|by destruct e].
  destruct (status r =? 200); simpl; [|by destruct (i <? retry_count self)].
  destruct (text r) as [h|e]; [|by destruct e].
  destruct (content (_parse_with_newspaper lib u h)) as [c|].
  - assert ((if NewsFeedSearch.nonempty c
             then Z.of_nat (String.length c) else 0)
            = Z.of_nat (String.length c)) as -> by (by destruct c).
    by destruct (_ && _).
  - by destruct (_ && _).
Qed.

(** The result of [scrape_url] does not depend on the world it starts in,
    and it is never an exception. *)
Lemma scrape_attempts_ok env u attempts w :
  exists r w', scrape_attempts lib self env u attempts w = (Ok r, w').
Proof.
  revert w. induction attempts as [|i attempts IH]; intros w; simpl.
  - by eexists _, _.
  - unfold_m.
    destruct (attempt_flow lib self u i (page_get env u i)); simpl.
    + apply IH.
    + by eexists _, _.
Qed.

Lemma scrape_attempts_world env u attempts w w0 :
  fst (scrape_attempts lib self env u attempts w)
  = fst (scrape_attempts lib self env u attempts w0).
Proof.
  revert w w0. induction attempts as [|i attempts IH]; intros w w0; simpl.
  - done.
  - unfold_m.
    destruct (attempt_flow lib self u i (page_get env u i)); simpl.
    + apply IH.
    + done.
Qed.

(** The first index of an interval either has the property, or is passed
    over on the way to a later one. *)
Lemma first_or_later (P R : Z -> Prop) (k n : Z) :
  (exists i, k <= i < n /\ P i /\ forall j, k <= j < i -> R j)
  <-> (k < n /\ P k)
      \/ (R k /\ exists i, k + 1 <= i < n /\ P i
                    /\ forall j, k + 1 <= j < i -> R j).
Proof.
  split.
  - intros (i & Hi & HP & HR).
    destruct (Z.eq_dec i k) as [->|Hne]; [left; split; [lia | done]|].
    right. split; [apply HR; lia|].
    exists i. split; [lia|]. split; [done|]. intros j Hj. apply HR. lia.
  - intros [[Hk HP] | (HRk & i & Hi & HP & HR)].
    + exists k. split; [lia|]. split; [done|]. intros j Hj. lia.
    + exists i. split; [lia|]. split; [done|]. intros j Hj.
      destruct (Z.eq_dec j k) as [->|Hne]; [done|]. apply HR. lia.
Qed.

Lemma scrape_attempts_some env u m :
  forall k w a,
    (m = 0%nat \/ Z.of_nat (k + m) = retry_count self + 1) ->
    fst (scrape_attempts lib self env u (map Z.of_nat (seq k m)) w)
    = Ok (Some a)
    <-> exists i,
          Z.of_nat k <= i < Z.of_nat (k + m)
          /\ delivers i (classify u (page_get env u i)) a
          /\ forall j, Z.of_nat k <= j < i ->
               retryable (classify u (page_get env u j)).
Proof.
  induction m as [|m IH]; intros k w a Hm.
  - simpl. split; [discriminate|]. intros (i & Hi & _). lia.
  - destruct Hm as [Hm|Hm]; [discriminate|].
    rewrite first_or_later.
    replace (Z.of_nat k + 1) with (Z.of_nat (S k)) by lia.
    replace (Z.of_nat (k + S m)) with (Z.of_nat (S k + m)) in * by lia.
    cbn [seq map scrape_attempts]. unfold_m. cbn [fst snd].
    rewrite attempt_flow_classify.
    assert (Hlast : (Z.of_nat k <? retry_count self) = false -> m = 0%nat)
      by (rewrite Z.ltb_ge; lia).
    assert (Hmore : (Z.of_nat k <? retry_count self) = true ->
                    Z.of_nat (S k + m) = retry_count self + 1)
      by (intros _; lia).
    unfold delivers at 1, retryable at 1.
    destruct (classify u (page_get env u (Z.of_nat k))) as [| | |a'] eqn:Hc.
    + destruct (Z.of_nat k <? retry_count self) eqn:Hlt.
      * rewrite (IH (S k) _ a (or_intror (Hmore eq_refl))).
        split; [intros H; right; auto|].
        intros [[_ [? _]]|[_ H]]; [discriminate | exact H].
      * rewrite (Hlast eq_refl) in *. simpl. split; [discriminate|].
        intros [[_ [? _]]|[_ (i & Hi & _)]]; [discriminate | lia].
    + destruct (Z.of_nat k <? retry_count self) eqn:Hlt.
      * rewrite (IH (S k) _ a (or_intror (Hmore eq_refl))).
        split; [intros H; right; auto|].
        intros [[_ [? _]]|[_ H]]; [discriminate | exact H].
      * rewrite (Hlast eq_refl) in *. simpl. split; [discriminate|].
        intros [[_ [? _]]|[_ (i & Hi & _)]]; [discriminate | lia].
    + simpl. split; [discriminate|].
      intros [[_ [? _]]|[[?|[?|(? & ? & _)]] _]]; discriminate.
    + destruct (Z.ltb_spec (content_length a') 200) as [Hshort|Hlong];
        destruct (Z.of_nat k <? retry_count self) eqn:Hlt; simpl.
      * rewrite (IH (S k) _ a (or_intror (Hmore eq_refl))).
        apply Z.ltb_lt in Hlt.
        split; [intros H; right; split; [|exact H]; eauto|].
        intros [[_ [Ha [?|?]]]|[_ H]]; [| |exact H];
          inversion Ha; subst; lia.
      * rewrite (Hlast eq_refl) in *. apply Z.ltb_ge in Hlt.
        split.
        -- intros H. inversion H; subst. left.
           split; [lia|]. split; [done|]. right. lia.
        -- intros [[_ [Ha _]]|[_ (i & Hi & _)]]; [|lia].
           by inversion Ha.
      * split.
        -- intros H. inversion H; subst. left.
           split; [lia|]. split; [done|]. by left.
        -- intros [[_ [Ha _]]|[[?|[?|(a0 & Ha & ?)]] _]];
             try discriminate; inversion Ha; subst; [done | lia].
      * split.
        -- intros H. inversion H; subst. left.
           split; [lia|]. split; [done|]. by left.
        -- intros [[_ [Ha _]]|[[?|[?|(a0 & Ha & ?)]] _]];
             try discriminate; inversion Ha; subst; [done | lia].
Qed.

(** Some attempt among the [retry_count + 1] attempts on [u] delivers [a],
    every attempt before it having asked for a retry. *)
Definition some_attempt_delivers (env : Env) (u : string) (a : RawArticle)
    : Prop :=
  exists i,
    0 <= i <= retry_count self
    /\ delivers i (classify u (page_get env u i)) a
    /\ forall j, 0 <= j < i -> retryable (classify u (page_get env u j)).

Lemma scrape_url_some env u w a :
  fst (scrape_url lib self env u w) = Ok (Some a)
  <-> some_attempt_delivers env u a.
Proof.
  unfold scrape_url, range, some_attempt_delivers.
  rewrite (scrape_attempts_some env u (Z.to_nat (retry_count self + 1)) 0).
  - split; intros (i & Hi & H); exists i; (split; [lia | exact H]).
  - destruct (Z.le_gt_cases 0 (retry_count self + 1)); [right | left]; lia.
Qed.

Lemma scrape_tasks_run env urls w :
  exists outs w',
    mapM (fun u => try_except (scrape_url lib self env u)
                     (fun _ => ret None)) urls w
    = (Ok outs, w')
    /\ Forall2 (fun u o => forall w0,
                  fst (scrape_url lib self env u w0) = Ok o) urls outs.
Proof.
  revert w. induction urls as [|u urls IH]; intros w; simpl.
  - exists [], w. split; [done | constructor].
  - unfold bind at 1. unfold try_except at 1.
    destruct (scrape_attempts_ok env u (range (retry_count self + 1)) w)
      as (o & w1 & Ho).
    unfold scrape_url at 1. rewrite Ho.
    destruct (IH w1) as (outs & w2 & Hrun & Hall).
    unfold bind at 1. rewrite Hrun.
    exists (o :: outs), w2. split; [done|]. constructor; [|done].
    intros w0. unfold scrape_url.
    rewrite (scrape_attempts_world env u _ w0 w). by rewrite Ho.
Qed.

(** C3: [scrape_url] returns the article of its URL exactly when some
    attempt among the [retry_count + 1] attempts succeeds under the retry
    rules: every earlier attempt ended in a status other than 200, a
    network or timeout error, or a page shorter than 200 characters (each
    of which asks for a retry while an attempt is left), and the attempt
    itself brought a page that has at least 200 characters or is the last
    attempt's, which is returned as it is. [scrape_urls] returns, in the
    order of the URLs, the articles of the URLs whose task returned one;
    a URL whose attempts all failed contributes nothing, not even a
    placeholder. *)
Theorem scrape_url_retry env u urls w a :
  (fst (scrape_url lib self env u w) = Ok (Some a)
   <-> some_attempt_delivers env u a)
  /\ exists outs w',
       scrape_urls lib self env urls w = (Ok (omap id outs), w')
       /\ Forall2 (fun u o => forall a,
                     o = Some a <-> some_attempt_delivers env u a)
            urls outs
       /\ (forall a, In a (omap id outs)
             <-> exists u, In u urls /\ some_attempt_delivers env u a).
Proof.
  split; [apply scrape_url_some|].
  destruct (scrape_tasks_run env urls w) as (outs & w' & Hrun & Hall).
  exists outs, w'. unfold scrape_urls. unfold bind. rewrite Hrun.
  split; [done|].
  assert (Hall' : Forall2 (fun u o => forall a,
                     o = Some a <-> some_attempt_delivers env u a)
                    urls outs).
  { eapply Forall2_impl; [exact Hall|]. simpl. intros u' o Ho a'.
    rewrite <- (scrape_url_some env u' w a'), (Ho w).
    split; [by intros -> | by intros [= ->]]. }
  split; [exact Hall'|].
  clear -Hall'. induction Hall' as [|u' o urls outs Ho _ IH]; simpl.
  - intros a. split; [intros [] | intros (u0 & [] & _)].
  - intros a. split.
    + intros Ha. destruct o as [a'|]; simpl in Ha.
      * destruct Ha as [->|Ha].
        -- exists u'. split; [by left | by apply Ho].
        -- apply IH in Ha as (u0 & Hu & Hd). exists u0. split; [by right|done].
      * apply IH in Ha as (u0 & Hu & Hd). exists u0. split; [by right|done].
    + intros (u0 & [<-|Hu] & Hd).
      * apply Ho in Hd as ->. by left.
      * assert (In a (omap id outs)) by (apply IH; eauto).
        destruct o; simpl; [by right | done].
Qed.

(** *** The concurrency bound *)

Lemma filter_insert_length {A} (f : A -> bool) (l : list A) i old new :
  l !! i = Some old ->
  (length (List.filter f (<[i := new]> l)) + (if f old then 1 else 0)
   = length (List.filter f l) + (if f new then 1 else 0))%nat.
Proof.
  revert i. induction l as [|x l IH]; intros [|i] H; simpl in *;
    try discriminate.
  - inversion H; subst. destruct (f old), (f new); simpl; lia.
  - specialize (IH i H). destruct (f x); simpl; lia.
Qed.

Lemma holders_insert (p : pool) i u t u' t' :
  tasks p !! i = Some (u, t) ->
  (length (List.filter holds_semaphore (<[i := (u', t')]> (tasks p)))
   + (if holds_semaphore (u, t) then 1 else 0)
   = holders p + (if holds_semaphore (u', t') then 1 else 0))%nat.
Proof. apply filter_insert_length. Qed.

(** Every task inside the [async with] block took one unit of the
    semaphore, and gives it back when it leaves. *)
Lemma resume_holders env i p :
  (holders (resume lib self env i p) + value (resume lib self env i p)
   = holders p + value p)%nat.
Proof.
  unfold resume.
  destruct (tasks p !! i) as [[u t]|] eqn:Hi; [|done].
  destruct t as [|[|attempt rest]|attempt rest|r].
  - destruct (value p) as [|v] eqn:Hv; [lia|].
    unfold holders at 1; simpl.
    pose proof (holders_insert p i u Waiting u
                  (Sleeping (range (retry_count self + 1))) Hi) as H.
    simpl in H. lia.
  - unfold holders at 1; simpl.
    pose proof (holders_insert p i u (Sleeping []) u (Done None) Hi) as H.
    simpl in H. lia.
  - unfold holders at 1; simpl.
    pose proof (holders_insert p i u (Sleeping (attempt :: rest)) u
                  (InFlight attempt rest) Hi) as H.
    simpl in H. lia.
  - destruct (attempt_flow lib self u attempt (page_get env u attempt))
      as [d|r]; unfold holders at 1; simpl.
    + pose proof (holders_insert p i u (InFlight attempt rest) u
                    (Sleeping rest) Hi) as H.
      simpl in H. lia.
    + pose proof (holders_insert p i u (InFlight attempt rest) u
                    (Done r) Hi) as H.
      simpl in H. lia.
  - done.
Qed.

Lemma run_schedule_holders env schedule p :
  (holders (run_schedule lib self env schedule p)
   + value (run_schedule lib self env schedule p)
   = holders p + value p)%nat.
Proof.
  revert p. induction schedule as [|i schedule IH]; intros p; simpl; [done|].
  unfold run_schedule in *. simpl. rewrite IH. apply resume_holders.
Qed.

Lemma holders_start urls : holders (start self urls) = 0%nat.
Proof. unfold holders, start; simpl. by induction urls. Qed.

Lemma in_flight_holders p : (in_flight p <= holders p)%nat.
Proof.
  unfold in_flight, holders. induction (tasks p) as [|[u t] l IH]; simpl;
    [done|].
  destruct t; simpl; lia.
Qed.

(** C8: whatever the number of URLs in the batch and however the event
    loop interleaves their tasks, at every moment at most [max_concurrent]
    requests are in flight: the tasks that hold the semaphore and the
    units left in it always add up to [max_concurrent]. *)
Theorem in_flight_bounded env urls schedule :
  (in_flight (run_schedule lib self env schedule (start self urls))
   <= max_concurrent self)%nat
  /\ (holders (run_schedule lib self env schedule (start self urls))
      + value (run_schedule lib self env schedule (start self urls))
      = max_concurrent self)%nat.
Proof.
  pose proof (run_schedule_holders env schedule (start self urls)) as H.
  rewrite holders_start in H. simpl in H.
  pose proof (in_flight_holders
                (run_schedule lib self env schedule (start self urls))).
  split; lia.
Qed.

(** The task model and [scrape_url] agree: what a finished task holds is
    what [scrape_url] returns for its URL. *)
Definition task_agrees (env : Env) (ut : string * task) : Prop :=
  match snd ut with
  | Waiting => True
  | Sleeping rest =>
      forall w w', fst (scrape_url lib self env (fst ut) w)
                   = fst (scrape_attempts lib self env (fst ut) rest w')
  | InFlight attempt rest =>
      forall w w', fst (scrape_url lib self env (fst ut) w)
                   = fst (scrape_attempts lib self env (fst ut)
                            (attempt :: rest) w')
  | Done r => forall w, fst (scrape_url lib self env (fst ut) w) = Ok r
  end.

Lemma Forall_insert_task (P : string * task -> Prop) l i x :
  Forall P l -> P x -> Forall P (<[i := x]> l).
Proof.
  intros Hl Hx. revert i. induction Hl as [|y l Hy Hl IH]; intros [|i];
    simpl; try constructor; auto.
Qed.

Lemma resume_agrees env i p :
  Forall (task_agrees env) (tasks p) ->
  Forall (task_agrees env) (tasks (resume lib self env i p)).
Proof.
  intros Hp. unfold resume.
  destruct (tasks p !! i) as [[u t]|] eqn:Hi; [|done].
  pose proof (Forall_lookup_1 _ _ _ _ Hp Hi) as Hut.
  unfold task_agrees in Hut; simpl in Hut.
  destruct t as [|[|attempt rest]|attempt rest|r].
  - destruct (value p); [done|]. simpl.
    apply Forall_insert_task; [done|]. unfold task_agrees; simpl.
    intros w w'. unfold scrape_url. apply scrape_attempts_world.
  - simpl. apply Forall_insert_task; [done|]. unfold task_agrees; simpl.
    intros w. by rewrite (Hut w w).
  - simpl. by apply Forall_insert_task.
  - destruct (attempt_flow lib self u attempt (page_get env u attempt))
      as [d|r] eqn:Hflow; simpl; (apply Forall_insert_task; [done|]);
      unfold task_agrees; simpl.
    + intros w w'. rewrite (Hut w w'). apply scrape_attempts_world.
    + intros w. by rewrite (Hut w w).
  - done.
Qed.

Lemma finished_task_agrees env urls schedule i u r :
  tasks (run_schedule lib self env schedule (start self urls)) !! i
  = Some (u, Done r) ->
  forall w, fst (scrape_url lib self env u w) = Ok r.
Proof.
  assert (Hall : forall p, Forall (task_agrees env) (tasks p) ->
            Forall (task_agrees env)
              (tasks (run_schedule lib self env schedule p))).
  { induction schedule as [|j schedule IH]; intros p Hp; [done|].
    unfold run_schedule in *. simpl. apply IH. by apply resume_agrees. }
  intros Hi.
  assert (Hstart : Forall (task_agrees env) (tasks (start self urls))).
  { unfold start; simpl. clear.
    induction urls as [|x urls IH]; simpl; constructor; [exact I | exact IH]. }
  specialize (Hall _ Hstart).
  exact (Forall_lookup_1 _ _ _ _ Hall Hi).
Qed.

End Fetcher.

(** * Further properties *)

(** ** Order of strings and sorting *)

Section Order.

Import NewsFeedSearch.

(** [a >= b] on strings: [a < b] is false. *)
Definition string_ge (a b : string) : Prop := String.ltb a b = false.

Lemma ascii_compare_trans (a b c : ascii) :
  Ascii.compare a b <> Lt -> Ascii.compare b c <> Lt ->
  Ascii.compare a c <> Lt
  /\ (Ascii.compare a c = Eq ->
      Ascii.compare a b = Eq /\ Ascii.compare b c = Eq).
Proof.
  unfold Ascii.compare.
  destruct (N.compare_spec (N_of_ascii a) (N_of_ascii b));
    destruct (N.compare_spec (N_of_ascii b) (N_of_ascii c));
    destruct (N.compare_spec (N_of_ascii a) (N_of_ascii c));
    intros; split; intros; try split; try congruence; lia.
Qed.

Lemma compare_not_lt_trans (a b c : string) :
  String.compare a b <> Lt -> String.compare b c <> Lt ->
  String.compare a c <> Lt.
Proof.
  revert b c. induction a as [|x a IH]; intros [|y b] [|z c]; simpl;
    try congruence.
  intros Hab Hbc.
  destruct (ascii_compare_trans x y z) as [Hxz Heq].
  - destruct (Ascii.compare x y); congruence.
  - destruct (Ascii.compare y z); congruence.
  - destruct (Ascii.compare x z) eqn:Hc; try congruence.
    destruct (Heq eq_refl) as [Hxy Hyz]. rewrite Hxy in Hab.
    rewrite Hyz in Hbc. by apply (IH b c).
Qed.

Lemma string_ge_trans (a b c : string) :
  string_ge a b -> string_ge b c -> string_ge a c.
Proof.
  unfold string_ge, String.ltb. intros Hab Hbc.
  pose proof (compare_not_lt_trans a b c) as H.
  destruct (String.compare a b), (String.compare b c),
    (String.compare a c); try done; exfalso; apply H; congruence.
Qed.

Lemma string_lt_ge (a b : string) : String.ltb a b = true -> string_ge b a.
Proof.
  unfold string_ge, String.ltb. rewrite (String.compare_antisym a b).
  by destruct (String.compare b a).
Qed.

(** Every element of the list is followed only by elements whose key is
    not greater. *)
Definition descending {A} (key : A -> string) (l : list A) : Prop :=
  StronglySorted (fun a b => string_ge (key a) (key b)) l.

Lemma insert_desc_In {A} (key : A -> string) x y (l : list A) :
  In y (insert_desc key x l) <-> y = x \/ In y l.
Proof.
  induction l as [|z l IH]; simpl; [intuition|].
  destruct (String.ltb (key x) (key z)); simpl; rewrite ?IH; intuition.
Qed.

Lemma insert_desc_descending {A} (key : A -> string) x (l : list A) :
  descending key l -> descending key (insert_desc key x l).
Proof.
  induction 1 as [|z l Hl IH Hz]; simpl.
  - repeat constructor.
  - destruct (String.ltb (key x) (key z)) eqn:Hlt.
    + constructor; [exact IH|].
      apply List.Forall_forall. intros y Hy.
      apply insert_desc_In in Hy as [->|Hy].
      * by apply string_lt_ge.
      * by apply (proj1 (List.Forall_forall _ _) Hz).
    + constructor; [by constructor|].
      constructor; [exact Hlt|].
      apply List.Forall_forall. intros y Hy.
      apply (string_ge_trans _ (key z)); [exact Hlt|].
      by apply (proj1 (List.Forall_forall _ _) Hz).
Qed.

Lemma sorted_reverse_descending {A} (key : A -> string) (l : list A) :
  descending key (sorted_reverse key l).
Proof.
  unfold sorted_reverse. induction l as [|x l IH]; simpl; [constructor|].
  by apply insert_desc_descending.
Qed.

Lemma insert_desc_Permutation {A} (key : A -> string) x (l : list A) :
  Permutation (x :: l) (insert_desc key x l).
Proof.
  induction l as [|z l IH]; simpl; [done|].
  destruct (String.ltb (key x) (key z)); [|done].
  rewrite <- IH. apply perm_swap.
Qed.

Lemma sorted_reverse_Permutation {A} (key : A -> string) (l : list A) :
  Permutation l (sorted_reverse key l).
Proof.
  unfold sorted_reverse. induction l as [|x l IH]; simpl; [done|].
  rewrite <- insert_desc_Permutation. by constructor.
Qed.

Lemma descending_take {A} (key : A -> string) n (l : list A) :
  descending key l -> descending key (take n l).
Proof.
  intros H. revert n. induction H as [|x l Hl IH Hx]; intros [|n]; simpl;
    try constructor.
  - apply IH.
  - by apply Forall_take.
Qed.

Lemma descending_take_drop {A} (key : A -> string) n (l : list A) a b :
  descending key l -> In a (take n l) -> In b (drop n l) ->
  string_ge (key a) (key b).
Proof.
  intros H. revert n. induction H as [|x l Hl IH Hx]; intros [|n]; simpl;
    try done.
  intros [<-|Ha] Hb.
  - apply (proj1 (List.Forall_forall _ _) Hx).
    apply list_elem_of_In. apply list_elem_of_In in Hb.
    apply list_elem_of_lookup in Hb as [i Hi]. rewrite lookup_drop in Hi.
    by eapply list_elem_of_lookup_2.
  - by apply (IH n).
Qed.

End Order.

(** ** The effect monad, continued *)

(** The value a computation returns does not depend on the world it starts
    in. *)
Definition oblivious {A} (c : M A) : Prop :=
  forall w w', fst (c w) = fst (c w').

Lemma oblivious_ret {A} (a : A) : oblivious (ret a).
Proof. by intros w w'. Qed.

Lemma oblivious_lift {A} (r : result A) : oblivious (lift r).
Proof. by intros w w'. Qed.

Lemma oblivious_emit e : oblivious (emit e).
Proof. by intros w w'. Qed.

Lemma oblivious_bind {A B} (c : M A) (k : A -> M B) :
  oblivious c -> (forall a, oblivious (k a)) -> oblivious (bind c k).
Proof.
  intros Hc Hk w w'. unfold bind. specialize (Hc w w').
  destruct (c w) as [[a|e] w1], (c w') as [[a'|e'] w1']; simpl in *;
    try congruence.
  inversion Hc; subst. apply Hk.
Qed.

Lemma oblivious_try {A} (c : M A) (h : exn -> M A) :
  oblivious c -> (forall e, oblivious (h e)) -> oblivious (try_except c h).
Proof.
  intros Hc Hh w w'. unfold try_except. specialize (Hc w w').
  destruct (c w) as [[a|e] w1], (c w') as [[a'|e'] w1']; simpl in *;
    try congruence.
  inversion Hc; subst. apply Hh.
Qed.

Lemma oblivious_mapM {A B} (f : A -> M B) (l : list A) :
  (forall a, oblivious (f a)) -> oblivious (mapM f l).
Proof.
  intros Hf. induction l as [|x l IH]; simpl; [apply oblivious_ret|].
  apply oblivious_bind; [apply Hf|]. intros y.
  apply oblivious_bind; [apply IH|]. intros ys. apply oblivious_ret.
Qed.

(** Counting the requests that resolve links. *)
Definition redirect_requests (l : list event) : nat :=
  length (List.filter is_redirect_get l).

Lemma redirect_requests_app l l' :
  redirect_requests (l ++ l')
  = (redirect_requests l + redirect_requests l')%nat.
Proof. unfold redirect_requests. by rewrite List.filter_app, length_app. Qed.

Lemma redirect_requests_only evs :
  Forall (fun e => is_redirect_get e = true) evs ->
  redirect_requests evs = length evs.
Proof.
  unfold redirect_requests. induction 1 as [|e evs He _ IH]; [done|].
  simpl. rewrite He. simpl. by rewrite IH.
Qed.

(** ** The feed search engine, continued *)

Section FeedSearchMore.

Import NewsFeedSearch.

Context (lib : Lib) (self : NewsFeedSearch.t).

Definition mentions_google (a : article) : bool :=
  PyStr.contains "news.google.com" (link a).

Lemma entry_to_article_oblivious entry :
  oblivious (entry_to_article lib entry).
Proof.
  unfold entry_to_article.
  destruct (if nonempty _ then _ else _) as [ti so].
  apply oblivious_bind.
  - destruct (nonempty _); [apply oblivious_lift | apply oblivious_ret].
  - intros d. apply oblivious_ret.
Qed.

Lemma search_google_news_oblivious env query topic :
  oblivious (_search_google_news lib env query topic).
Proof.
  unfold _search_google_news, session_get.
  apply oblivious_try; [|intros; apply oblivious_ret].
  apply oblivious_bind.
  - apply oblivious_bind; [apply oblivious_emit|].
    intros _. apply oblivious_lift.
  - intros r. destruct (negb _); [apply oblivious_ret|].
    apply oblivious_bind; [apply oblivious_lift|]. intros c.
    apply oblivious_bind; [apply oblivious_lift|]. intros entries.
    apply oblivious_mapM, entry_to_article_oblivious.
Qed.

Lemma extract_real_url_oblivious env u :
  oblivious (_extract_real_url lib env u).
Proof.
  unfold _extract_real_url, session_get.
  apply oblivious_try; [|intros; apply oblivious_ret].
  apply oblivious_bind; [apply oblivious_lift|]. intros q.
  destruct (PyStr.contains "url=" q).
  - destruct (_ !! 1%nat) as [v|]; [|by intros w w'].
    destruct (_ !! 0%nat); by intros w w'.
  - apply oblivious_bind.
    + apply oblivious_bind; [apply oblivious_emit|].
      intros _. apply oblivious_lift.
    + intros r. destruct (_ || _); [|apply oblivious_ret].
      destruct (location r) as [loc|]; [|apply oblivious_ret].
      destruct (nonempty loc); apply oblivious_ret.
Qed.

Lemma resolve_links_oblivious env l : oblivious (resolve_links lib env l).
Proof.
  unfold resolve_links, _batch_resolve_urls.
  apply oblivious_bind.
  - apply oblivious_mapM. intros u. apply extract_real_url_oblivious.
  - intros rs. apply oblivious_ret.
Qed.

Lemma batch_resolve_urls_count env urls w :
  exists rs evs,
    _batch_resolve_urls lib env urls w = (Ok rs, add_log w evs)
    /\ redirects_only evs /\ (length evs <= length urls)%nat.
Proof.
  unfold _batch_resolve_urls. revert w.
  induction urls as [|u urls IH]; intros w; simpl.
  - exists [], []. rewrite add_log_nil.
    split; [done|]. split; [constructor | simpl; lia].
  - unfold bind at 1.
    destruct (extract_real_url_run lib env u w) as (r & evs & -> & Hevs).
    unfold bind at 1.
    destruct (IH (add_log w evs)) as (rs & evs' & -> & Hevs' & Hlen).
    exists (r :: rs), (evs ++ evs')%list. rewrite add_log_app.
    split; [done|]. split.
    + apply Forall_app; split; [|done].
      destruct Hevs as [-> | ->]; repeat constructor.
    + rewrite length_app. destruct Hevs as [-> | ->]; simpl; lia.
Qed.

(** What [resolve_links] does to one article: nothing but a new link, and
    nothing at all unless the link mentions news.google.com. *)
Definition resolved (a b : article) : Prop :=
  same_but_link a b /\ (mentions_google a = false -> b = a).

Lemma resolve_links_steps env l w :
  exists l' evs,
    resolve_links lib env l w = (Ok l', add_log w evs)
    /\ redirects_only evs
    /\ (length evs <= length (List.filter mentions_google l))%nat
    /\ Forall2 resolved l l'.
Proof.
  unfold resolve_links. unfold bind at 1.
  destruct (batch_resolve_urls_count env
              (map link (List.filter
                 (fun a => PyStr.contains "news.google.com" (link a)) l)) w)
    as (rs & evs & -> & Hevs & Hlen).
  unfold ret. eexists _, evs. split; [reflexivity|]. split; [done|].
  split; [by rewrite length_map in Hlen|].
  clear. revert rs. induction l as [|a l IH]; intros rs; [constructor|].
  unfold resolved, mentions_google in *.
  destruct (PyStr.contains "news.google.com" (link a)) eqn:Hg.
  - destruct rs as [|r rs].
    + constructor; [split; [apply same_but_link_refl | done]|].
      clear. induction l; constructor; auto.
      split; [apply same_but_link_refl | done].
    + constructor; [|apply IH]. rewrite Hg. split; [|done].
      destruct (nonempty r);
        [apply same_but_link_set | apply same_but_link_refl].
  - constructor; [|apply IH]. split; [apply same_but_link_refl | done].
Qed.

(** A search that misses the cache, step by step. *)
Lemma search_news_miss_steps
    env query fa ta n topic resolve_urls use_cache w :
  cache_hit self env (key_of lib env query topic fa ta) use_cache w
  = None ->
  exists g res evs,
    _search_google_news lib env query topic w
    = (Ok g, add_log w [FeedGet (feed_url lib query topic)])
    /\ redirects_only evs
    /\ (length evs
        <= length (List.filter mentions_google
                     (select lib (from_of lib env fa) (to_of lib env ta) n g)))
       %nat
    /\ (resolve_urls = false -> evs = [])
    /\ Forall2 (fun a b => resolved a b /\ (resolve_urls = false -> b = a))
         (select lib (from_of lib env fa) (to_of lib env ta) n g) res
    /\ search_news lib self env query fa ta n topic resolve_urls use_cache w
       = (Ok res,
          after_miss env (key_of lib env query topic fa ta) use_cache
            (feed_url lib query topic) evs res w).
Proof.
  intros Hmiss.
  destruct (search_google_news_run lib env query topic w) as [g Hg].
  set (url := feed_url lib query topic) in *.
  set (base := select lib (from_of lib env fa) (to_of lib env ta) n g).
  assert (Hres : exists res evs,
    (if resolve_urls then resolve_links lib env base else ret base)
      (add_log w [FeedGet url]) = (Ok res, add_log w ([FeedGet url] ++ evs))
    /\ redirects_only evs
    /\ (length evs <= length (List.filter mentions_google base))%nat
    /\ (resolve_urls = false -> evs = [])
    /\ Forall2 (fun a b => resolved a b /\ (resolve_urls = false -> b = a))
         base res).
  { destruct resolve_urls.
    - destruct (resolve_links_steps env base (add_log w [FeedGet url]))
        as (res & evs & Hr & Hevs & Hlen & Hall).
      exists res, evs. rewrite add_log_app in Hr.
      repeat split; try done.
      eapply Forall2_impl; [exact Hall|]. by intros a b Hab.
    - exists base, []. unfold ret. rewrite app_nil_r.
      repeat split; try constructor; try (simpl; lia).
      clear. induction base; constructor; auto.
      repeat split; [apply same_but_link_refl |..]; done. }
  destruct Hres as (res & evs & Hr & Hevs & Hlen & Hno & Hall).
  exists g, res, evs. repeat split; try done; try (by apply Hno).
  unfold search_news, cache_hit, key_of, from_of, to_of, after_miss in *.
  unfold select in base. fold base.
  assert (Hrest :
    (do google_results <- _search_google_news lib env query topic ;;
     do sorted_results <-
       (if resolve_urls
        then resolve_links lib env
               (PyStr.slice_to n
                  (sorted_reverse publish_date
                     (List.filter
                        (in_date_range lib
                           (normalize_date lib (week_ago env) fa)
                           (normalize_date lib (today env) ta))
                        google_results)))
        else ret (PyStr.slice_to n
                    (sorted_reverse publish_date
                       (List.filter
                          (in_date_range lib
                             (normalize_date lib (week_ago env) fa)
                             (normalize_date lib (today env) ta))
                          google_results)))) ;;
     run (if use_cache
          then _save_to_cache env
                 (_generate_cache_key lib query topic
                    (normalize_date lib (week_ago env) fa)
                    (normalize_date lib (today env) ta)) sorted_results
          else ret false) ;;
     ret sorted_results) w
    = (Ok res,
       {| files :=
            if use_cache
            then saved env
                   (_generate_cache_key lib query topic
                      (normalize_date lib (week_ago env) fa)
                      (normalize_date lib (today env) ta))
                   res (files w)
            else files w;
          log := log w ++ [FeedGet url] ++ evs
                   ++ (if use_cache
                       then [CacheWrite
                               (_generate_cache_key lib query topic
                                  (normalize_date lib (week_ago env) fa)
                                  (normalize_date lib (today env) ta))]
                       else []) |})).
  { unfold bind at 1. rewrite Hg. fold base.
    unfold bind at 1. rewrite Hr.
    destruct use_cache; simpl.
    - unfold _save_to_cache, saved. unfold_m. simpl.
      destruct (cache_writable env), (cache_opens env); simpl;
        by rewrite <- !app_assoc.
    - unfold_m. simpl. by rewrite app_nil_r. }
  destruct use_cache.
  - unfold bind at 1.
    destruct (get_from_cache_ok self env
                (_generate_cache_key lib query topic
                   (normalize_date lib (week_ago env) fa)
                   (normalize_date lib (today env) ta)) w) as [o Ho].
    rewrite Ho in *. simpl in Hmiss.
    destruct o as [[|x l']|]; try discriminate; exact Hrest.
  - exact Hrest.
Qed.

Lemma search_news_oblivious env query fa ta n topic resolve_urls :
  oblivious
    (search_news lib self env query fa ta n topic resolve_urls false).
Proof.
  unfold search_news.
  apply oblivious_bind; [apply oblivious_ret|]. intros o.
  assert (Hmiss : oblivious
    (do google_results <- _search_google_news lib env query topic ;;
     do sorted_results <-
       (if resolve_urls
        then resolve_links lib env
               (PyStr.slice_to n
                  (sorted_reverse publish_date
                     (List.filter
                        (in_date_range lib
                           (normalize_date lib (week_ago env) fa)
                           (normalize_date lib (today env) ta))
                        google_results)))
        else ret (PyStr.slice_to n
                    (sorted_reverse publish_date
                       (List.filter
                          (in_date_range lib
                             (normalize_date lib (week_ago env) fa)
                             (normalize_date lib (today env) ta))
                          google_results)))) ;;
     run ret false ;; ret sorted_results)).
  { apply oblivious_bind; [apply search_google_news_oblivious|]. intros g.
    apply oblivious_bind.
    - destruct resolve_urls; [apply resolve_links_oblivious|].
      apply oblivious_ret.
    - intros l. apply oblivious_bind; [apply oblivious_ret|].
      intros _. apply oblivious_ret. }
  destruct o as [[|x l]|]; [exact Hmiss | apply oblivious_ret | exact Hmiss].
Qed.

Lemma slice_to_shorter {A} (n : Z) (l : list A) :
  (length (PyStr.slice_to n l) <= length l)%nat.
Proof.
  unfold PyStr.slice_to. destruct (0 <=? n); rewrite length_take; lia.
Qed.

Lemma slice_to_take {A} (n : Z) (l : list A) :
  exists k, PyStr.slice_to n l = take k l /\ (0 <= n -> k = Z.to_nat n).
Proof.
  unfold PyStr.slice_to. destruct (0 <=? n) eqn:Hn.
  - by eexists.
  - eexists. split; [done|]. lia.
Qed.

Lemma descending_resolved (l l' : list article) :
  Forall2 resolved l l' ->
  descending publish_date l -> descending publish_date l'.
Proof.
  unfold descending.
  induction 1 as [|a b l l' [Hab _] Hall IH]; intros Hs; [constructor|].
  apply StronglySorted_inv in Hs as [Hs Hhd].
  constructor; [by apply IH|].
  rewrite (same_but_link_date _ _ Hab).
  clear -Hall Hhd. induction Hall as [|x y l l' [Hxy _] _ IH]; [constructor|].
  inversion Hhd; subst. constructor; [|by apply IH].
  by rewrite (same_but_link_date _ _ Hxy).
Qed.

Lemma select_descending from_date to_date n g :
  descending publish_date (select lib from_date to_date n g).
Proof.
  unfold select. destruct (slice_to_take n
    (sorted_reverse publish_date
       (List.filter (in_date_range lib from_date to_date) g)))
    as (k & -> & _).
  apply descending_take, sorted_reverse_descending.
Qed.



(** X3: with [use_cache=False] the cache directory plays no part: the result
    is the same whatever the directory holds, no file changes and
    [_save_to_cache] is not called. *)
Theorem search_news_without_cache
    env query fa ta n topic resolve_urls w w' :
  fst (search_news lib self env query fa ta n topic resolve_urls false w)
  = fst (search_news lib self env query fa ta n topic resolve_urls false w')
  /\ files (snd (search_news lib self env query fa ta n topic resolve_urls
                   false w))
     = files w
  /\ cache_writes (log (snd (search_news lib self env query fa ta n topic
                               resolve_urls false w)))
     = cache_writes (log w).
Proof.
  split; [apply search_news_oblivious|].
  destruct (search_news_miss_steps env query fa ta n topic resolve_urls
              false w eq_refl)
    as (g & res & evs & _ & Hevs & _ & _ & _ & ->).
  split; [done|]. cbn [snd].
  by rewrite (cache_writes_after_miss _ _ _ _ _ _ _ Hevs).
Qed.

Lemma cache_hit_after_failed_write env1 env2 key res w :
  cache_hit self env1 key true w = None ->
  cache_writable env1 = false ->
  time_time env1 <= time_time env2 ->
  cache_hit self env2 key true
    {| files := saved env1 key res (files w); log := log w |} = None.
Proof.
  unfold cache_hit, saved. rewrite !get_from_cache_eq. simpl.
  intros Hmiss -> Htime. destruct (cache_opens env1).
  - rewrite lookup_insert_eq. simpl. by destruct (_ >? _).
  - destruct (files w !! key) as [f|]; [|done].
    destruct (Z.gtb_spec (time_time env1 - mtime f) (cache_expiry self)).
    + destruct (Z.gtb_spec (time_time env2 - mtime f) (cache_expiry self));
        [done | lia].
    + destruct (_ >? _); [done|].
      by destruct (data f) as [[|x l]|].
Qed.

(** X4: a search whose cache write fails leaves nothing a later search
    could use. When the write fails, whether the file could not be opened
    or the write broke off after it was opened, a later search for the same
    key finds no usable entry and asks the feed again: the two searches
    send two requests to the feed. *)
Theorem failed_cache_write_means_refetch
    env1 env2 query fa ta n1 n2 topic resolve1 resolve2 w :
  from_of lib env2 fa = from_of lib env1 fa ->
  to_of lib env2 ta = to_of lib env1 ta ->
  cache_hit self env1 (key_of lib env1 query topic fa ta) true w = None ->
  cache_writable env1 = false ->
  time_time env1 <= time_time env2 ->
  cache_hit self env2 (key_of lib env2 query topic fa ta) true
    (snd (search_news lib self env1 query fa ta n1 topic resolve1 true w))
  = None
  /\ feed_requests
       (log (snd (search_news lib self env2 query fa ta n2 topic resolve2
                    true
                    (snd (search_news lib self env1 query fa ta n1 topic
                            resolve1 true w)))))
     = S (S (feed_requests (log w))).
Proof.
  intros Hfrom Hto Hmiss Hwr Htime.
  destruct (search_news_miss_steps env1 query fa ta n1 topic resolve1 true w
              Hmiss)
    as (g & res & evs & _ & Hevs & _ & _ & _ & Hrun).
  rewrite Hrun. cbn [snd].
  assert (Hkey : key_of lib env2 query topic fa ta
                 = key_of lib env1 query topic fa ta)
    by (unfold key_of; by rewrite Hfrom, Hto).
  assert (Hmiss2 :
    cache_hit self env2 (key_of lib env2 query topic fa ta) true
      (after_miss env1 (key_of lib env1 query topic fa ta) true
         (feed_url lib query topic) evs res w) = None).
  { rewrite Hkey.
    pose proof (cache_hit_after_failed_write env1 env2
                  (key_of lib env1 query topic fa ta) res w Hmiss Hwr Htime)
      as Hhit.
    unfold cache_hit in *. rewrite get_from_cache_eq in *. exact Hhit. }
  split; [exact Hmiss2|].
  destruct (search_news_miss_steps env2 query fa ta n2 topic resolve2 true _
              Hmiss2)
    as (g2 & res2 & evs2 & _ & Hevs2 & _ & _ & _ & ->).
  cbn [snd].
  by rewrite !feed_requests_after_miss.
Qed.

(** X5: a list built from the feed is in descending order of the
    [publish_date] strings, compared as strings, also after the links were
    resolved. *)
Theorem search_news_descending
    env query fa ta n topic resolve_urls use_cache w :
  cache_hit self env (key_of lib env query topic fa ta) use_cache w = None ->
  exists res,
    fst (search_news lib self env query fa ta n topic resolve_urls use_cache w)
    = Ok res
    /\ descending publish_date res.
Proof.
  intros Hc.
  destruct (search_news_miss_steps env query fa ta n topic resolve_urls
              use_cache w Hc)
    as (g & res & evs & _ & _ & _ & _ & Hall & ->).
  exists res. split; [done|].
  apply (descending_resolved
           (select lib (from_of lib env fa) (to_of lib env ta) n g)).
  - eapply Forall2_impl; [exact Hall|]. by intros a b [Hab _].
  - apply select_descending.
Qed.

(** X6: of the feed's articles that pass the date filter, a search with
    [max_results >= 0] keeps [min(max_results, their number)], and none of
    those it drops has a [publish_date] string greater than one it keeps. *)
Theorem search_news_keeps_newest
    env query fa ta n topic resolve_urls use_cache w :
  cache_hit self env (key_of lib env query topic fa ta) use_cache w = None ->
  exists g kept dropped res,
    fst (_search_google_news lib env query topic w) = Ok g
    /\ fst (search_news lib self env query fa ta n topic resolve_urls
              use_cache w) = Ok res
    /\ Permutation
         (List.filter
            (in_date_range lib (from_of lib env fa) (to_of lib env ta)) g)
         (kept ++ dropped)
    /\ Forall2 resolved kept res
    /\ (forall a b, In a kept -> In b dropped ->
          string_ge (publish_date a) (publish_date b))
    /\ (0 <= n ->
        length res
        = Nat.min (Z.to_nat n)
            (length (List.filter
               (in_date_range lib (from_of lib env fa) (to_of lib env ta))
               g))).
Proof.
  intros Hc.
  destruct (search_news_miss_steps env query fa ta n topic resolve_urls
              use_cache w Hc)
    as (g & res & evs & Hg & _ & _ & _ & Hall & ->).
  set (filtered := List.filter
         (in_date_range lib (from_of lib env fa) (to_of lib env ta)) g) in *.
  unfold select in Hall. fold filtered in Hall.
  destruct (slice_to_take n (sorted_reverse publish_date filtered))
    as (k & Hk & Hkn).
  rewrite Hk in Hall.
  exists g, (take k (sorted_reverse publish_date filtered)),
    (drop k (sorted_reverse publish_date filtered)), res.
  rewrite Hg. split; [done|]. split; [done|]. split.
  { rewrite take_drop. apply sorted_reverse_Permutation. }
  split.
  { eapply Forall2_impl; [exact Hall|]. by intros a b [Hab _]. }
  split.
  { intros a b. apply descending_take_drop, sorted_reverse_descending. }
  intros Hn. apply Forall2_length in Hall. rewrite <- Hall, length_take.
  rewrite (Hkn Hn).
  by rewrite <- (Permutation_length
                   (sorted_reverse_Permutation publish_date filtered)).
Qed.

(** X7: a search sends at most one redirect request per article it
    returns, and none at all with [resolve_urls=False]. *)
Theorem search_news_redirect_requests
    env query fa ta n topic resolve_urls use_cache w :
  exists res,
    fst (search_news lib self env query fa ta n topic resolve_urls use_cache w)
    = Ok res
    /\ (redirect_requests
          (log (snd (search_news lib self env query fa ta n topic
                       resolve_urls use_cache w)))
        <= redirect_requests (log w) + length res)%nat
    /\ (resolve_urls = false ->
        redirect_requests
          (log (snd (search_news lib self env query fa ta n topic
                       resolve_urls use_cache w)))
        = redirect_requests (log w)).
Proof.
  destruct (cache_hit self env (key_of lib env query topic fa ta) use_cache w)
    as [l|] eqn:Hc.
  - rewrite (search_news_hit lib self env query fa ta n topic resolve_urls
               use_cache w l Hc).
    eexists; split; [done|]. simpl. split; [lia | done].
  - destruct (search_news_miss_steps env query fa ta n topic resolve_urls
                use_cache w Hc)
      as (g & res & evs & _ & Hevs & Hlen & Hno & Hall & ->).
    exists res. split; [done|]. unfold after_miss. cbn [snd log].
    rewrite !redirect_requests_app, (redirect_requests_only evs Hevs).
    assert (Hw : redirect_requests
                   (if use_cache
                    then [CacheWrite (key_of lib env query topic fa ta)]
                    else []) = 0%nat) by by destruct use_cache.
    rewrite Hw. cbn [redirect_requests List.filter is_redirect_get length].
    apply Forall2_length in Hall. split.
    + pose proof (List.filter_length_le mentions_google
        (select lib (from_of lib env fa) (to_of lib env ta) n g)). lia.
    + intros Hr. rewrite (Hno Hr). simpl. lia.
Qed.

(** X8: resolving links returns the articles in the same order, changes
    nothing of an article but its link, and leaves alone every article whose
    link does not contain news.google.com. *)
Theorem resolve_links_changes_google_links_only env l w :
  exists l',
    fst (resolve_links lib env l w) = Ok l'
    /\ length l' = length l
    /\ Forall2
         (fun a b =>
            set_link a (link b) = b
            /\ (PyStr.contains "news.google.com" (link a) = false -> b = a))
         l l'.
Proof.
  destruct (resolve_links_steps env l w) as (l' & evs & -> & _ & _ & Hall).
  exists l'. split; [done|]. split; [by apply Forall2_length in Hall|].
  exact Hall.
Qed.

(** X9: a [from_date] or a [to_date] string that [strptime] rejects is
    treated as if that argument had been left out, whatever the other
    argument is: the window starts a week before today, or ends today, and
    the search is the one without the argument. *)
Theorem unparseable_date_means_default
    env query s fa ta n topic resolve_urls use_cache w :
  strptime_date lib s
    (if PyStr.contains "T" s then "%Y-%m-%dT%H:%M:%S" else "%Y-%m-%d")
  = None ->
  (from_of lib env (ArgStr s) = week_ago env
   /\ search_news lib self env query (ArgStr s) ta n topic resolve_urls
        use_cache w
      = search_news lib self env query ArgNone ta n topic resolve_urls
          use_cache w)
  /\ (to_of lib env (ArgStr s) = today env
      /\ search_news lib self env query fa (ArgStr s) n topic resolve_urls
           use_cache w
         = search_news lib self env query fa ArgNone n topic resolve_urls
             use_cache w).
Proof.
  intros Hs.
  assert (Hdate : forall fallback,
            normalize_date lib fallback (ArgStr s) = fallback).
  { intros fallback. unfold normalize_date.
    destruct (PyStr.contains "T" s); by rewrite Hs. }
  unfold from_of, to_of, search_news. rewrite !Hdate. by repeat split.
Qed.

(** X10: the cache key holds neither [max_results] nor [resolve_urls]:
    the list one search stored answers every later search for the same
    query, topic and window while it is fresh, cut to the later
    [max_results]. A search that asks for more than the first gets no more
    than the first, and one that asks for resolved links gets the stored
    ones, without a request. *)
Theorem cached_list_answers_later_searches
    env1 env2 query fa ta n1 n2 topic resolve1 resolve2 w res :
  from_of lib env2 fa = from_of lib env1 fa ->
  to_of lib env2 ta = to_of lib env1 ta ->
  cache_hit self env1 (key_of lib env1 query topic fa ta) true w = None ->
  cache_writable env1 = true ->
  fst (search_news lib self env1 query fa ta n1 topic resolve1 true w)
  = Ok res ->
  res <> [] ->
  time_time env2 - write_time env1 <= cache_expiry self ->
  search_news lib self env2 query fa ta n2 topic resolve2 true
    (snd (search_news lib self env1 query fa ta n1 topic resolve1 true w))
  = (Ok (PyStr.slice_to n2 res),
     snd (search_news lib self env1 query fa ta n1 topic resolve1 true w))
  /\ (0 <= n1 -> Z.of_nat (length (PyStr.slice_to n2 res)) <= n1).
Proof.
  intros Hfrom Hto Hmiss Hwr Hres Hne Hfresh.
  destruct (search_news_miss_steps env1 query fa ta n1 topic resolve1 true w
              Hmiss)
    as (g & res' & evs & _ & _ & _ & _ & Hall & Hrun).
  rewrite Hrun in *. simpl in Hres. injection Hres as ->. cbn [snd].
  assert (Hkey : key_of lib env2 query topic fa ta
                 = key_of lib env1 query topic fa ta)
    by (unfold key_of; by rewrite Hfrom, Hto).
  split.
  - apply search_news_hit.
    rewrite Hkey. unfold cache_hit. rewrite get_from_cache_eq.
    unfold after_miss, saved; simpl. rewrite Hwr. rewrite lookup_insert_eq.
    simpl.
    destruct (Z.gtb_spec (time_time env2 - write_time env1)
                (cache_expiry self)); [lia|].
    destruct res; [done | reflexivity].
  - intros Hn. apply Forall2_length in Hall.
    pose proof (slice_to_shorter n2 res).
    pose proof (slice_to_length n1
      (sorted_reverse publish_date
         (List.filter
            (in_date_range lib (from_of lib env1 fa) (to_of lib env1 ta)) g))
      Hn) as Hlen.
    unfold select in Hall. lia.
Qed.

(** X11: a search sends one request to the feed, or none when it is
    answered from the cache, and calls [_save_to_cache] at most once. *)
Theorem one_feed_request_per_search
    env query fa ta n topic resolve_urls use_cache w :
  feed_requests
    (log (snd (search_news lib self env query fa ta n topic resolve_urls
                 use_cache w)))
  = (feed_requests (log w)
     + match cache_hit self env (key_of lib env query topic fa ta)
               use_cache w with
       | Some _ => 0
       | None => 1
       end)%nat
  /\ (cache_writes
        (log (snd (search_news lib self env query fa ta n topic resolve_urls
                     use_cache w)))
      <= cache_writes (log w) + 1)%nat.
Proof.
  destruct (cache_hit self env (key_of lib env query topic fa ta) use_cache w)
    as [l|] eqn:Hc.
  - rewrite (search_news_hit lib self env query fa ta n topic resolve_urls
               use_cache w l Hc).
    simpl. lia.
  - destruct (search_news_miss_steps env query fa ta n topic resolve_urls
                use_cache w Hc)
      as (g & res & evs & _ & Hevs & _ & _ & _ & ->).
    cbn [snd].
    rewrite (feed_requests_after_miss _ _ _ _ _ _ _ Hevs),
      (cache_writes_after_miss _ _ _ _ _ _ _ Hevs).
    destruct use_cache; lia.
Qed.

End FeedSearchMore.

(** ** Splitting and joining *)

Section SplitJoin.

Lemma prefix_drop (p s : string) :
  String.prefix p s = true -> s = p ++ PyStr.drop (String.length p) s.
Proof.
  revert s. induction p as [|c p IH]; intros s Hp; [done|].
  destruct s as [|c' s]; [done|]. simpl in Hp.
  destruct (ascii_dec c c') as [->|]; [|done].
  rewrite append_cons. cbn [String.length PyStr.drop]. f_equal. by apply IH.
Qed.

Lemma partition_spec (sep s b a : string) :
  PyStr.partition sep s = Some (b, a) -> s = b ++ sep ++ a.
Proof.
  revert b. induction s as [|c s IH]; intros b; cbn [PyStr.partition].
  - destruct (String.prefix sep "") eqn:Hp; [|done].
    intros [= <- <-]. rewrite append_nil. by apply prefix_drop.
  - destruct (String.prefix sep (String c s)) eqn:Hp.
    + intros [= <- <-]. rewrite append_nil. by apply prefix_drop.
    + destruct (PyStr.partition sep s) as [[b' a']|]; [|done].
      intros [= <- <-]. rewrite append_cons. f_equal. by apply IH.
Qed.

Lemma split_fuel_cons (fuel : nat) (sep s : string) :
  exists p l, PyStr.split_fuel fuel sep s = p :: l.
Proof.
  destruct fuel; simpl; [by eexists _, _|].
  destruct (PyStr.partition sep s) as [[b a]|]; by eexists _, _.
Qed.

Lemma join_split_fuel (fuel : nat) (sep s : string) :
  PyStr.join sep (PyStr.split_fuel fuel sep s) = s.
Proof.
  revert s. induction fuel as [|fuel IH]; intros s; [done|].
  cbn [PyStr.split_fuel].
  destruct (PyStr.partition sep s) as [[b a]|] eqn:Hp; [|done].
  specialize (IH a).
  destruct (split_fuel_cons fuel sep a) as (p & l & Hl). rewrite Hl in *.
  cbn [PyStr.join] in *. rewrite IH. symmetry. by apply partition_spec.
Qed.

(** [sep.join(s.split(sep)) == s] *)
Lemma join_split (sep s : string) : PyStr.join sep (PyStr.split sep s) = s.
Proof. apply join_split_fuel. Qed.

(** [sep.join(l[:-1]) + sep + l[-1] == sep.join(l)] for [len(l) > 1] *)
Lemma join_removelast (sep : string) (l : list string) :
  (1 < length l)%nat ->
  PyStr.join sep (removelast l) ++ sep ++ List.last l "" = PyStr.join sep l.
Proof.
  induction l as [|p l IH]; [simpl; lia|]. intros Hl.
  destruct l as [|q l]; [simpl in Hl; lia|].
  destruct l as [|r l]; [done|].
  assert (Hlen : (1 < length (q :: r :: l))%nat) by (simpl; lia).
  specialize (IH Hlen).
  change (List.last (p :: q :: r :: l) "") with (List.last (q :: r :: l) "").
  change (removelast (p :: q :: r :: l))
    with (p :: removelast (q :: r :: l)).
  change (PyStr.join sep (p :: q :: r :: l))
    with (p ++ sep ++ PyStr.join sep (q :: r :: l)).
  rewrite <- IH.
  destruct (removelast (q :: r :: l)) as [|x xs] eqn:Hx; [done|].
  change (PyStr.join sep (p :: x :: xs))
    with (p ++ sep ++ PyStr.join sep (x :: xs)).
  by rewrite !append_assoc.
Qed.

Lemma contains_empty (sep : string) :
  sep <> "" -> PyStr.contains sep "" = false.
Proof. by destruct sep. Qed.

Lemma partition_none (sep s : string) :
  PyStr.partition sep s = None -> PyStr.contains sep s = false.
Proof.
  intros Hp. destruct (PyStr.contains sep s) eqn:Hc; [|done].
  apply contains_partition in Hc as (b & a & Hba). congruence.
Qed.

Lemma split_fuel_last (fuel : nat) (sep s : string) :
  sep <> "" -> (String.length s <= fuel)%nat ->
  PyStr.contains sep (List.last (PyStr.split_fuel fuel sep s) "") = false.
Proof.
  intros Hsep. revert s. induction fuel as [|fuel IH]; intros s Hlen.
  - destruct s; [|simpl in Hlen; lia]. by apply contains_empty.
  - cbn [PyStr.split_fuel].
    destruct (PyStr.partition sep s) as [[b a]|] eqn:Hp;
      [|by apply partition_none].
    pose proof (partition_shorter sep s b a Hsep Hp) as Hlt.
    specialize (IH a ltac:(lia)).
    destruct (split_fuel_cons fuel sep a) as (p & l & Hl). by rewrite Hl in *.
Qed.

Lemma split_length (sep s : string) :
  sep <> "" ->
  (1 <? length (PyStr.split sep s))%nat = PyStr.contains sep s.
Proof.
  intros Hsep. unfold PyStr.split. destruct s as [|c s].
  - by rewrite contains_empty.
  - cbn [String.length PyStr.split_fuel].
    destruct (PyStr.partition sep (String c s)) as [[b a]|] eqn:Hp.
    + destruct (split_fuel_cons (String.length s) sep a) as (p & l & ->).
      symmetry. apply contains_partition. by eexists _, _.
    + by rewrite partition_none.
Qed.

End SplitJoin.

(** ** The entries of a feed *)

Section FeedEntries.

Import NewsFeedSearch.

Context (lib : Lib).

(** [entry.get("source", {}).get("title", "")] *)
Definition feed_source_title (entry : feed_entry) : string :=
  match e_source entry with
  | Some s => default "" (src_title s)
  | None => ""
  end.

(** Cleaning the description of [entry], if it has one, does not raise. *)
Definition cleans (entry : feed_entry) : Prop :=
  nonempty (default "" (e_description entry)) = true ->
  exists t, soup_get_text lib (default "" (e_description entry)) = Ok t.

Lemma entry_to_article_fields entry w a :
  fst (entry_to_article lib entry w) = Ok a ->
  link a = default "" (e_link entry)
  /\ publish_date a = default "" (e_published entry)
  /\ authors a
     = (if nonempty (default "" (e_author entry))
        then [default "" (e_author entry)] else [])
  /\ (title a, source a)
     = (if nonempty (feed_source_title entry)
        then (default "" (e_title entry), feed_source_title entry)
        else
          let title_parts := PyStr.split " - " (default "" (e_title entry)) in
          if (1 <? length title_parts)%nat
          then (PyStr.join " - " (removelast title_parts),
                List.last title_parts "")
          else (default "" (e_title entry), feed_source_title entry)).
Proof.
  unfold entry_to_article, feed_source_title. cbv zeta.
  destruct (if nonempty _ then _ else _) as [ti so].
  unfold_m.
  destruct (nonempty (default "" (e_description entry)));
    [destruct (soup_get_text lib _); [|done]|];
    simpl; by intros [= <-].
Qed.

Lemma entry_to_article_cleans entry w :
  cleans entry -> exists a, entry_to_article lib entry w = (Ok a, w).
Proof.
  unfold cleans, entry_to_article. intros Hc.
  destruct (if nonempty _ then _ else _) as [ti so].
  unfold_m.
  destruct (nonempty (default "" (e_description entry))).
  - destruct (Hc eq_refl) as [t ->]. by eexists.
  - by eexists.
Qed.

Lemma mapM_entries_clean entries w :
  Forall cleans entries ->
  exists l,
    mapM (entry_to_article lib) entries w = (Ok l, w)
    /\ Forall2
         (fun e a =>
            link a = default "" (e_link e)
            /\ publish_date a = default "" (e_published e)
            /\ authors a
               = (if nonempty (default "" (e_author e))
                  then [default "" (e_author e)] else []))
         entries l.
Proof.
  induction 1 as [|e entries He _ IH].
  - exists []. split; [done | constructor].
  - cbn [mapM]. unfold_m.
    destruct (entry_to_article_cleans e w He) as [a Ha].
    pose proof (entry_to_article_fields e w a) as Hf.
    rewrite Ha in *. destruct IH as (l & -> & Hfs).
    exists (a :: l). split; [done|].
    constructor; [|done]. destruct (Hf eq_refl) as (? & ? & ? & _). done.
Qed.

(** X12: when the feed answers with status 200, a readable body that
    [feedparser] accepts, and descriptions that can be cleaned,
    [_search_google_news] returns one article per entry, in the order of the
    feed, with the entry's link, publication date and author. *)
Theorem search_google_news_entries env query topic w r c entries :
  feed_get env (feed_url lib query topic) = Ok r ->
  status r = 200 ->
  text r = Ok c ->
  feedparser_parse lib c = Ok entries ->
  Forall cleans entries ->
  exists l,
    fst (_search_google_news lib env query topic w) = Ok l
    /\ Forall2
         (fun e a =>
            link a = default "" (e_link e)
            /\ publish_date a = default "" (e_published e)
            /\ authors a
               = (if nonempty (default "" (e_author e))
                  then [default "" (e_author e)] else []))
         entries l.
Proof.
  intros Hget Hst Hc Hparse Hall.
  unfold _search_google_news, session_get. unfold_m.
  rewrite Hget, Hst. simpl. rewrite Hc, Hparse.
  destruct (mapM_entries_clean entries
              {| files := files w;
                 log := log w ++ [FeedGet (feed_url lib query topic)] |} Hall)
    as (l & -> & Hl).
  by exists l.
Qed.

(** X13: the title and source of an article. A source named by the feed is
    taken as it is. Otherwise a title of the form "... - Source" is cut in
    two at a " - ": the two parts put together again give the entry's
    title, and the source holds no further " - "; a title without " - "
    stays whole and the source is empty. *)
Theorem entry_title_and_source entry w a :
  fst (entry_to_article lib entry w) = Ok a ->
  if nonempty (feed_source_title entry)
  then title a = default "" (e_title entry)
       /\ source a = feed_source_title entry
  else if PyStr.contains " - " (default "" (e_title entry))
  then title a ++ " - " ++ source a = default "" (e_title entry)
       /\ PyStr.contains " - " (source a) = false
  else title a = default "" (e_title entry) /\ source a = "".
Proof.
  intros Ha. apply entry_to_article_fields in Ha as (_ & _ & _ & Hts).
  destruct (nonempty (feed_source_title entry)) eqn:Hs.
  - by inversion Hts.
  - cbv zeta in Hts.
    rewrite split_length in Hts by done.
    destruct (PyStr.contains " - " (default "" (e_title entry))) eqn:Hc.
    + injection Hts as -> ->. split.
      * rewrite join_removelast; [apply join_split|].
        apply Nat.ltb_lt. by rewrite split_length, Hc.
      * apply split_fuel_last; [done | lia].
    + injection Hts as -> ->. split; [done|].
      by destruct (feed_source_title entry).
Qed.

End FeedEntries.

(** ** The concurrent fetcher, continued *)

Section FetcherMore.

Import AsyncScraper.

Context (lib : Lib) (self : AsyncScraper.t).

(** The requests and sleeps of the attempts [k], ..., [k + j - 1] when each
    of them ends in a retry. *)
Definition retries (u : string) (k j : nat) : list event :=
  flat_map
    (fun i => [PageGet u i; Sleep (retry_delay self * (i + 1))])
    (map Z.of_nat (seq k j)).

Lemma attempt_flow_continue u i got d :
  attempt_flow lib self u i got = Continue d ->
  d = retry_delay self * (i + 1) /\ i < retry_count self.
Proof.
  rewrite attempt_flow_classify.
  destruct (classify lib u got) as [| | |a]; try done;
    try (destruct (i <? retry_count self) eqn:Hi; [|done];
         intros [= <-]; split; [done | lia]).
  destruct (content_length a <? 200); simpl; [|done].
  destruct (i <? retry_count self) eqn:Hi; [|done].
  intros [= <-]; split; [done | lia].
Qed.

Lemma scrape_attempts_trace env u m k w :
  (0 < m)%nat ->
  Z.of_nat (k + m) = retry_count self + 1 ->
  exists j,
    (j < m)%nat
    /\ snd (scrape_attempts lib self env u (map Z.of_nat (seq k m)) w)
       = add_log w (retries u k j ++ [PageGet u (Z.of_nat (k + j))]).
Proof.
  revert k w. induction m as [|m IH]; intros k w Hm Hk; [lia|].
  cbn [seq map scrape_attempts]. unfold bind at 1. unfold emit at 1.
  fold (add_log w [PageGet u (Z.of_nat k)]).
  destruct (attempt_flow lib self u (Z.of_nat k)
              (page_get env u (Z.of_nat k))) as [d|r] eqn:Hflow.
  - apply attempt_flow_continue in Hflow as [-> Hlt].
    unfold bind at 1. unfold emit at 1.
    fold (add_log (add_log w [PageGet u (Z.of_nat k)])
            [Sleep (retry_delay self * (Z.of_nat k + 1))]).
    rewrite add_log_app.
    destruct (IH (S k)
                (add_log w ([PageGet u (Z.of_nat k)]
                            ++ [Sleep (retry_delay self * (Z.of_nat k + 1))]))
                ltac:(lia) ltac:(lia)) as (j & Hj & ->).
    exists (S j). split; [lia|]. rewrite add_log_app. unfold retries.
    cbn [seq map flat_map].
    replace (k + S j)%nat with (S k + j)%nat by lia.
    by rewrite <- !app_assoc.
  - exists 0%nat. split; [lia|]. unfold ret. cbn [snd].
    by rewrite Nat.add_0_r.
Qed.

(** X14: the requests of one [scrape_url] call. With [retry_count >= 0]
    the call sends the attempts 0, 1, ..., k for some [k <= retry_count],
    one after the other, with a retry delay of [retry_delay * (i + 1)]
    seconds after attempt [i < k], and nothing else: at most
    [retry_count + 1] requests, with delays that grow linearly. *)
Theorem scrape_url_trace env u w :
  0 <= retry_count self ->
  exists k,
    Z.of_nat k <= retry_count self
    /\ snd (scrape_url lib self env u w)
       = add_log w (retries u 0 k ++ [PageGet u (Z.of_nat k)]).
Proof.
  intros Hrc. unfold scrape_url, range.
  destruct (scrape_attempts_trace env u (Z.to_nat (retry_count self + 1))
              0 w ltac:(lia) ltac:(lia)) as (j & Hj & ->).
  exists j. split; [lia | done].
Qed.

(** X15: with a negative [retry_count] the loop of [scrape_url] has no
    pass: the call returns [None] and sends no request. *)
Theorem scrape_url_without_attempts env u w :
  retry_count self < 0 ->
  scrape_url lib self env u w = (Ok None, w).
Proof.
  intros Hrc. unfold scrape_url, range.
  by replace (Z.to_nat (retry_count self + 1)) with 0%nat by lia.
Qed.

Lemma scrape_url_article env u w a :
  fst (scrape_url lib self env u w) = Ok (Some a) ->
  url a = u
  /\ exists i r h,
       0 <= i <= retry_count self
       /\ page_get env u i = Ok r /\ status r = 200 /\ text r = Ok h
       /\ a = _parse_with_newspaper lib u h
       /\ html a = Some h.
Proof.
  intros Ha. apply scrape_url_some in Ha as (i & Hi & [Hpage _] & _).
  unfold classify in Hpage.
  destruct (page_get env u i) as [r|e] eqn:Hget; [|by destruct e].
  destruct (status r =? 200) eqn:Hst; [|done].
  destruct (text r) as [h|e] eqn:Htext; [|by destruct e].
  injection Hpage as <-.
  assert (Hfields : url (_parse_with_newspaper lib u h) = u
                    /\ html (_parse_with_newspaper lib u h) = Some h).
  { unfold _parse_with_newspaper. by destruct (newspaper_parse lib u h). }
  destruct Hfields as [Hurl Hhtml]. split; [done|].
  exists i, r, h. repeat split; try done; lia.
Qed.

(** X16: [scrape_urls] returns articles of the URLs it was given, in the
    order of the URLs, at most one per occurrence of a URL. Each of them is
    what [_parse_with_newspaper] makes of the page that one of the attempts
    for its URL brought with status 200, and holds that page as its
    [html]. *)
Theorem scrape_urls_sublist env urls w :
  exists res,
    fst (scrape_urls lib self env urls w) = Ok res
    /\ sublist (map url res) urls
    /\ Forall
         (fun a =>
            exists i r h,
              0 <= i <= retry_count self
              /\ page_get env (url a) i = Ok r
              /\ status r = 200 /\ text r = Ok h
              /\ a = _parse_with_newspaper lib (url a) h
              /\ html a = Some h)
         res.
Proof.
  unfold scrape_urls. unfold bind at 1.
  destruct (scrape_tasks_run lib self env urls w) as (outs & w' & -> & Hall).
  unfold ret. exists (omap id outs). split; [done|].
  clear w'. induction Hall as [|u o urls outs Ho _ [IH1 IH2]].
  - split; constructor.
  - destruct o as [a|]; simpl.
    + destruct (scrape_url_article env u w a (Ho w)) as [Hurl Hpage].
      rewrite Hurl. split; [by apply sublist_skip|].
      constructor; [|done]. by rewrite Hurl.
    + split; [by apply sublist_cons | done].
Qed.

(** *** Schedules *)

(** The number of times a task has to be resumed before it is done. *)
Definition steps (t : task) : nat :=
  match t with
  | Waiting => 2 * length (range (retry_count self + 1)) + 2
  | Sleeping rest => 2 * length rest + 1
  | InFlight _ rest => 2 * length rest + 2
  | Done _ => 0
  end.

Lemma run_schedule_cons env i schedule p :
  run_schedule lib self env (i :: schedule) p
  = run_schedule lib self env schedule (resume lib self env i p).
Proof. done. Qed.

Lemma run_schedule_app env s s' p :
  run_schedule lib self env (s ++ s') p
  = run_schedule lib self env s' (run_schedule lib self env s p).
Proof. unfold run_schedule. by rewrite foldl_app. Qed.

(** Resuming one task often enough completes it, gives its permit back and
    leaves the other tasks where they are. *)
Lemma finish_task env i n p u t :
  tasks p !! i = Some (u, t) ->
  (steps t <= n)%nat ->
  (t = Waiting -> (0 < value p)%nat) ->
  exists r,
    tasks (run_schedule lib self env (replicate n i) p)
    = <[i := (u, Done r)]> (tasks p)
    /\ value (run_schedule lib self env (replicate n i) p)
       = (value p + if holds_semaphore (u, t) then 1 else 0)%nat.
Proof.
  revert p t. induction n as [|n IH]; intros p t Hi Hn Hv.
  - destruct t; simpl in Hn; try lia. exists r. simpl.
    split; [by rewrite list_insert_id | unfold holds_semaphore; simpl; lia].
  - cbn [replicate]. rewrite run_schedule_cons.
    assert (Hlt : (i < length (tasks p))%nat)
      by (eapply lookup_lt_Some; eauto).
    unfold resume at 1 2. rewrite Hi.
    destruct t as [|[|a rest]|a rest|r0].
    + destruct (value p) as [|v] eqn:Hval; [specialize (Hv eq_refl); lia|].
      destruct (IH {| value := v;
                      tasks := <[i := (u, Sleeping
                                             (range (retry_count self + 1)))]>
                                 (tasks p) |}
                  (Sleeping (range (retry_count self + 1))))
        as (r & Ht & Hvl); simpl in *;
        [by rewrite list_lookup_insert_eq | lia | done |].
      exists r. rewrite Ht, Hvl, list_insert_insert_eq.
      unfold holds_semaphore; simpl. split; [done | lia].
    + destruct (IH {| value := S (value p);
                      tasks := <[i := (u, Done None)]> (tasks p) |}
                  (Done None))
        as (r & Ht & Hvl); simpl in *;
        [by rewrite list_lookup_insert_eq | lia | done |].
      exists r. rewrite Ht, Hvl, list_insert_insert_eq.
      unfold holds_semaphore; simpl. split; [done | lia].
    + destruct (IH {| value := value p;
                      tasks := <[i := (u, InFlight a rest)]> (tasks p) |}
                  (InFlight a rest))
        as (r & Ht & Hvl); simpl in *;
        [by rewrite list_lookup_insert_eq | lia | done |].
      exists r. rewrite Ht, Hvl, list_insert_insert_eq.
      unfold holds_semaphore; simpl. split; [done | lia].
    + destruct (attempt_flow lib self u a (page_get env u a)) as [d|r0].
      * destruct (IH {| value := value p;
                        tasks := <[i := (u, Sleeping rest)]> (tasks p) |}
                    (Sleeping rest))
          as (r & Ht & Hvl); simpl in *;
          [by rewrite list_lookup_insert_eq | lia | done |].
        exists r. rewrite Ht, Hvl, list_insert_insert_eq.
        unfold holds_semaphore; simpl. split; [done | lia].
      * destruct (IH {| value := S (value p);
                        tasks := <[i := (u, Done r0)]> (tasks p) |}
                    (Done r0))
          as (r & Ht & Hvl); simpl in *;
          [by rewrite list_lookup_insert_eq | lia | done |].
        exists r. rewrite Ht, Hvl, list_insert_insert_eq.
        unfold holds_semaphore; simpl. split; [done | lia].
    + destruct (IH p (Done r0)) as (r & Ht & Hvl); [done | simpl; lia | done |].
      exists r. by rewrite Ht, Hvl.
Qed.

(** The schedule that runs the tasks [0], ..., [k - 1] one after the
    other, each to its end. *)
Definition one_by_one (k : nat) : list nat :=
  flat_map (replicate (steps Waiting)) (seq 0 k).

Definition is_done (ut : string * task) : Prop :=
  exists r, snd ut = Done r.

Lemma one_by_one_run env urls k :
  (0 < max_concurrent self)%nat ->
  (k <= length urls)%nat ->
  exists finished,
    tasks (run_schedule lib self env (one_by_one k) (start self urls))
    = (finished ++ map (fun u => (u, Waiting)) (drop k urls))%list
    /\ length finished = k
    /\ Forall is_done finished
    /\ value (run_schedule lib self env (one_by_one k) (start self urls))
       = max_concurrent self.
Proof.
  intros Hmax. induction k as [|k IH]; intros Hk.
  - exists []. simpl. repeat split. constructor.
  - destruct IH as (finished & Ht & Hlen & Hdone & Hv); [lia|].
    unfold one_by_one in *. rewrite seq_S, flat_map_app, run_schedule_app.
    cbn [flat_map Nat.add]. rewrite app_nil_r.
    set (p := run_schedule lib self env
                (flat_map (replicate (steps Waiting)) (seq 0 k))
                (start self urls)) in *.
    destruct (lookup_lt_is_Some_2 urls k ltac:(lia)) as [u Hu].
    assert (Hdrop : drop k urls = u :: drop (S k) urls).
    { by apply drop_S. }
    rewrite Hdrop in Ht. cbn [map] in Ht.
    assert (Hi : tasks p !! k = Some (u, Waiting)).
    { rewrite Ht, lookup_app_r by lia.
      by replace (k - length finished)%nat with 0%nat by lia. }
    destruct (finish_task env k (steps Waiting) p u Waiting Hi)
      as (r & Ht' & Hv'); [lia | lia |].
    exists (finished ++ [(u, Done r)])%list. rewrite Ht', Hv', Ht.
    unfold holds_semaphore; simpl. repeat split.
    + replace k with (length finished + 0)%nat at 1 by lia.
      rewrite insert_app_r. simpl. by rewrite <- app_assoc.
    + rewrite length_app. simpl. lia.
    + apply Forall_app. split; [done|]. repeat constructor. by exists r.
    + lia.
Qed.

(** No step of the event loop changes the URL of a task. *)
Lemma resume_urls env i p :
  map fst (tasks (resume lib self env i p)) = map fst (tasks p).
Proof.
  assert (Hins : forall u t t',
            tasks p !! i = Some (u, t) ->
            map fst (<[i := (u, t')]> (tasks p)) = map fst (tasks p)).
  { intros u t t' Hi. rewrite list_fmap_insert. simpl.
    apply list_insert_id. by rewrite list_lookup_fmap, Hi. }
  unfold resume.
  destruct (tasks p !! i) as [[u [|[|a rest]|a rest|r]]|] eqn:Hi;
    try done; try (simpl; by eapply Hins).
  - destruct (value p); [done|]. simpl. by eapply Hins.
  - destruct (attempt_flow lib self u a (page_get env u a));
      simpl; by eapply Hins.
Qed.

Lemma run_schedule_urls env schedule urls :
  map fst (tasks (run_schedule lib self env schedule (start self urls)))
  = urls.
Proof.
  assert (Hstart : map fst (tasks (start self urls)) = urls).
  { unfold start. simpl. rewrite map_map. simpl. apply map_id. }
  revert Hstart. generalize (start self urls) as p.
  induction schedule as [|i schedule IH]; intros p Hp; [done|].
  rewrite run_schedule_cons. apply IH. by rewrite resume_urls.
Qed.

(** X17: with at least one permit the batch can be completed: resuming the
    tasks one after the other, each until it is done, ends with every task
    done, holding for its URL what [scrape_url] returns, and with all the
    permits back in the semaphore. *)
Theorem batch_completes env urls :
  (0 < max_concurrent self)%nat ->
  exists schedule,
    Forall2
      (fun u ut =>
         fst ut = u
         /\ exists r,
              snd ut = Done r
              /\ forall w, fst (scrape_url lib self env u w) = Ok r)
      urls
      (tasks (run_schedule lib self env schedule (start self urls)))
    /\ value (run_schedule lib self env schedule (start self urls))
       = max_concurrent self.
Proof.
  intros Hmax.
  destruct (one_by_one_run env urls (length urls) Hmax ltac:(lia))
    as (finished & Ht & Hlen & Hdone & Hv).
  exists (one_by_one (length urls)). split; [|done].
  rewrite drop_all, app_nil_r in Ht.
  apply Forall2_same_length_lookup_2.
  { by rewrite Ht. }
  intros i u [u' t] Hu Hi.
  assert (Hfst : u' = u).
  { pose proof (run_schedule_urls env (one_by_one (length urls)) urls)
      as Hmap.
    apply (f_equal (fun l => l !! i)) in Hmap.
    rewrite list_lookup_fmap, Hi, Hu in Hmap. by injection Hmap. }
  subst u'. split; [done|].
  assert (Hd : is_done (u, t)).
  { rewrite Ht in Hi. eapply Forall_lookup_1 in Hdone; eauto. }
  destruct Hd as [r Hr]. simpl in Hr. subst t. exists r. split; [done|].
  by apply (finished_task_agrees lib self env urls
              (one_by_one (length urls)) i u r).
Qed.

(** X18: a semaphore made with [max_concurrent = 0] never gives a permit:
    whatever the event loop does, every task stays in front of
    [async with self.semaphore] and no request is sent. *)
Theorem no_permit_no_progress env urls schedule :
  max_concurrent self = 0%nat ->
  run_schedule lib self env schedule (start self urls) = start self urls.
Proof.
  intros Hmax. induction schedule as [|i schedule IH]; [done|].
  rewrite run_schedule_cons.
  assert (Hr : resume lib self env i (start self urls) = start self urls).
  { unfold resume, start. cbn [tasks value]. rewrite list_lookup_fmap.
    destruct (urls !! i); simpl; [|done]. by rewrite Hmax. }
  by rewrite Hr.
Qed.

End FetcherMore.

(** ** The Custom Search client *)

Section SearchApi.

Import PyText GoogleSearch.

Context (api : Api) (self : GoogleSearch.t).

(** The offsets of the pages: the multiples of ten below [stop]. *)
Lemma range_step_ten (stop : Z) :
  range_step stop 10
  = map (fun k => 10 * Z.of_nat k) (seq 0 (length (range_step stop 10)))
  /\ forall n, (n < length (range_step stop 10))%nat -> 10 * Z.of_nat n < stop.
Proof.
  unfold range_step. rewrite length_map, length_seq. split; [done|].
  intros n Hn.
  assert (Z.of_nat n < (stop + 10 - 1) / 10) by lia.
  Z.div_mod_to_equations. lia.
Qed.

(** The request of the page at offset [i] in [_execute_search]. *)
Definition page_request (query : string) (date_restrict : string)
    (max_results i : Z) : request :=
  {| q := query; cx := engine_id self;
     num := Z.min 10 (max_results - i); start := i + 1;
     dateRestrict := Some date_restrict;
     searchType := None; sort := None |}.

Lemma fetch_pages_requests query date_restrict max_results offsets acc :
  snd (fetch_pages api self query date_restrict max_results offsets acc)
  = map (page_request query date_restrict max_results)
      (take (length (snd (fetch_pages api self query date_restrict
                            max_results offsets acc)))
            offsets).
Proof.
  revert acc. induction offsets as [|i rest IH]; intros acc; [done|].
  cbn [fetch_pages]. fold (page_request query date_restrict max_results i).
  destruct (execute api _) as [response| |]; try done.
  destruct (_ || _); [done|].
  specialize (IH (match response with
                  | Some items => (acc ++ items)%list
                  | None => acc
                  end)).
  destruct (fetch_pages api self query date_restrict max_results rest _)
    as [r reqs].
  simpl in *. by rewrite <- IH.
Qed.

(** The request of the page at offset [i] in
    [_execute_search_with_date_range], once the range has been parsed. *)
Definition dated_request (query : string) (days_back : Z)
    (max_results : Z) (news_only : bool) (i : Z) : request :=
  {| q := query; cx := engine_id self;
     num := Z.min 10 (max_results - i); start := i + 1;
     dateRestrict :=
       if 0 <? days_back then Some ("d" ++ str days_back) else None;
     searchType := if news_only then Some "news" else None;
     sort := if news_only then Some "date" else None |}.

(** The days between today and the first date of [date_range]. *)
Definition range_days_back (date_range : string) : Z :=
  match PyStr.split ":" date_range with
  | from_date :: _ =>
      match strptime_compact api from_date with
      | Some d => days_since api d
      | None => 0
      end
  | [] => 0
  end.

Lemma fetch_dated_pages_requests
    query date_range max_results news_only offsets acc :
  snd (fetch_dated_pages api self query date_range max_results news_only
         offsets acc)
  = map (dated_request query (range_days_back date_range) max_results
           news_only)
      (take (length (snd (fetch_dated_pages api self query date_range
                            max_results news_only offsets acc)))
            offsets).
Proof.
  revert acc. induction offsets as [|i rest IH]; intros acc; [done|].
  cbn [fetch_dated_pages].
  assert (Hdays : forall f t d,
            PyStr.split ":" date_range = [f; t] ->
            strptime_compact api f = Some d ->
            range_days_back date_range = days_since api d).
  { intros f t d Hs Hd. unfold range_days_back. by rewrite Hs, Hd. }
  destruct (PyStr.split ":" date_range) as [|f [|t [|x l]]]; try done.
  destruct (strptime_compact api f) as [d|] eqn:Hf; [|done].
  destruct (strptime_compact api t) as [d'|]; [|done].
  rewrite (Hdays f t d eq_refl Hf) in *.
  fold (dated_request query (days_since api d) max_results news_only i).
  destruct (execute api _) as [response| |]; try done.
  - destruct (_ || _); [done|].
    specialize (IH (match response with
                    | Some items =>
                        (acc ++ List.filter
                                  (fun it => negb (news_only && corporate it))
                                  items)%list
                    | None => acc
                    end)).
    destruct (fetch_dated_pages api self query date_range max_results
                news_only rest _) as [r reqs].
    simpl in *. by rewrite <- IH.
  - specialize (IH acc).
    destruct (fetch_dated_pages api self query date_range max_results
                news_only rest acc) as [r reqs].
    simpl in *. by rewrite <- IH.
Qed.

(** What holds of the [n]-th request of a search for [max_results]
    results. *)
Definition page_ok (max_results : Z) (n : nat) (r : request) : Prop :=
  cx r = engine_id self
  /\ start r = 10 * Z.of_nat n + 1
  /\ num r = Z.min 10 (max_results - 10 * Z.of_nat n)
  /\ 1 <= num r
  /\ start r + num r - 1 <= Z.min max_results 100.

Lemma pages_ok (mk : Z -> request) max_results k reqs :
  (forall i, cx (mk i) = engine_id self
             /\ start (mk i) = i + 1
             /\ num (mk i) = Z.min 10 (max_results - i)) ->
  reqs = map mk (take k (range_step (Z.min max_results 100) 10)) ->
  (length reqs <= 10)%nat
  /\ forall n r, reqs !! n = Some r -> page_ok max_results n r.
Proof.
  intros Hmk ->.
  destruct (range_step_ten (Z.min max_results 100)) as [Hr Hlen].
  set (offsets := range_step (Z.min max_results 100) 10) in *.
  split.
  - rewrite length_map, length_take.
    destruct (length offsets) as [|m] eqn:Hm; [lia|].
    specialize (Hlen m ltac:(lia)). lia.
  - intros n r. rewrite list_lookup_fmap, lookup_take.
    destruct (decide (n < k)%nat) as [Hn|Hn]; [|done].
    rewrite Hr, list_lookup_fmap.
    destruct (seq 0 (length offsets) !! n) as [m|] eqn:Hm; [|done].
    apply lookup_seq in Hm as [-> Hm]. simpl. intros [= <-].
    destruct (Hmk (10 * Z.of_nat n)) as (Hcx & Hstart & Hnum).
    specialize (Hlen n Hm). unfold page_ok. rewrite Hcx, Hstart, Hnum.
    repeat split; lia.
Qed.

Lemma execute_search_pages query date_restrict max_results :
  (length (snd (_execute_search api self query date_restrict max_results))
   <= 10)%nat
  /\ forall n r,
       snd (_execute_search api self query date_restrict max_results) !! n
       = Some r ->
       page_ok max_results n r
       /\ q r = query /\ dateRestrict r = Some date_restrict.
Proof.
  unfold _execute_search.
  destruct (build api (api_key self)); [|split; [simpl; lia | done]].
  pose proof (fetch_pages_requests query date_restrict max_results
                (range_step (Z.min max_results 100) 10) []) as Hreqs.
  assert (Hgoal : forall reqs,
    reqs = map (page_request query date_restrict max_results)
             (take (length reqs) (range_step (Z.min max_results 100) 10)) ->
    (length reqs <= 10)%nat
    /\ forall n r, reqs !! n = Some r ->
         page_ok max_results n r
         /\ q r = query /\ dateRestrict r = Some date_restrict).
  { intros reqs Hr.
    destruct (pages_ok (page_request query date_restrict max_results)
                max_results (length reqs) reqs
                (fun i => conj eq_refl (conj eq_refl eq_refl)) Hr)
      as [Hlen Hok].
    split; [done|]. intros n r Hn. split; [by apply Hok|].
    rewrite Hr, list_lookup_fmap in Hn.
    destruct (take _ _ !! n); [|done]. by injection Hn as <-. }
  destruct (fetch_pages api self query date_restrict max_results _ [])
    as [[all|] reqs]; by apply Hgoal.
Qed.

Lemma dated_search_pages query date_range max_results news_only :
  (length (snd (_execute_search_with_date_range api self query date_range
                  max_results news_only)) <= 10)%nat
  /\ forall n r,
       snd (_execute_search_with_date_range api self query date_range
              max_results news_only) !! n = Some r ->
       page_ok max_results n r /\ q r = query.
Proof.
  unfold _execute_search_with_date_range.
  destruct (build api (api_key self)); [|split; [simpl; lia | done]].
  pose proof (fetch_dated_pages_requests query date_range max_results
                news_only (range_step (Z.min max_results 100) 10) [])
    as Hreqs.
  assert (Hgoal : forall reqs,
    reqs = map (dated_request query (range_days_back date_range) max_results
                  news_only)
             (take (length reqs) (range_step (Z.min max_results 100) 10)) ->
    (length reqs <= 10)%nat
    /\ forall n r, reqs !! n = Some r ->
         page_ok max_results n r /\ q r = query).
  { intros reqs Hr.
    destruct (pages_ok (dated_request query (range_days_back date_range)
                          max_results news_only)
                max_results (length reqs) reqs
                (fun i => conj eq_refl (conj eq_refl eq_refl)) Hr)
      as [Hlen Hok].
    split; [done|]. intros n r Hn. split; [by apply Hok|].
    rewrite Hr, list_lookup_fmap in Hn.
    destruct (take _ _ !! n); [|done]. by injection Hn as <-. }
  destruct (fetch_dated_pages api self query date_range max_results
              news_only _ []) as [[all|] reqs]; by apply Hgoal.
Qed.

(** X19: the requests of a search are those of consecutive pages of ten:
    at most ten requests, the [n]-th for the results from [10 n + 1] on
    and for [min(10, max_results - 10 n) >= 1] of them, and none for a
    result beyond the first [min(max_results, 100)]. *)
Theorem search_requests_are_pages
    query date_restrict date_range max_results news_only :
  ((length (snd (_execute_search api self query date_restrict max_results))
    <= 10)%nat
   /\ forall n r,
        snd (_execute_search api self query date_restrict max_results) !! n
        = Some r ->
        page_ok max_results n r
        /\ q r = query /\ dateRestrict r = Some date_restrict)
  /\ ((length (snd (_execute_search_with_date_range api self query
                      date_range max_results news_only)) <= 10)%nat
      /\ forall n r,
           snd (_execute_search_with_date_range api self query date_range
                  max_results news_only) !! n = Some r ->
           page_ok max_results n r /\ q r = query).
Proof.
  split; [apply execute_search_pages | apply dated_search_pages].
Qed.

Lemma range_step_negative (stop : Z) : stop <= 0 -> range_step stop 10 = [].
Proof.
  intros Hs. unfold range_step.
  replace (Z.to_nat ((stop + 10 - 1) / 10)) with 0%nat; [done|].
  Z.div_mod_to_equations. lia.
Qed.

(** X20: neither search method returns more than [max_results] results;
    with [max_results <= 0] they return none and send no request. *)
Theorem search_at_most_max_results
    query date_restrict date_range max_results news_only :
  (length (fst (_execute_search api self query date_restrict max_results))
   <= Z.to_nat max_results)%nat
  /\ (length (fst (_execute_search_with_date_range api self query date_range
                     max_results news_only))
      <= Z.to_nat max_results)%nat
  /\ (max_results <= 0 ->
      _execute_search api self query date_restrict max_results = ([], [])
      /\ _execute_search_with_date_range api self query date_range
           max_results news_only = ([], [])).
Proof.
  assert (Hneg : max_results <= 0 ->
    _execute_search api self query date_restrict max_results = ([], [])
    /\ _execute_search_with_date_range api self query date_range
         max_results news_only = ([], [])).
  { intros Hn. unfold _execute_search, _execute_search_with_date_range.
    rewrite range_step_negative by lia. simpl.
    destruct (build api (api_key self)); [|done].
    unfold PyStr.slice_to. destruct (0 <=? max_results); by rewrite !take_nil. }
  split; [|split; [|done]].
  - destruct (Z_le_gt_dec max_results 0) as [Hn|Hn].
    + destruct (Hneg Hn) as [-> _]. simpl. lia.
    + unfold _execute_search. destruct (build api (api_key self));
        [|simpl; lia].
      destruct (fetch_pages _ _ _ _ _ _ _) as [[all|] reqs]; simpl; [|lia].
      apply slice_to_length. lia.
  - destruct (Z_le_gt_dec max_results 0) as [Hn|Hn].
    + destruct (Hneg Hn) as [_ ->]. simpl. lia.
    + unfold _execute_search_with_date_range.
      destruct (build api (api_key self)); [|simpl; lia].
      destruct (fetch_dated_pages _ _ _ _ _ _ _ _) as [[all|] reqs];
        simpl; [|lia].
      apply slice_to_length. lia.
Qed.

(** X21: without an API key or without an engine id
    [search_ticker_news] returns no result and sends no request; with both
    it asks for "<ticker> stock news", restricted to the last [days_back]
    days. *)
Theorem search_ticker_news_credentials ticker max_results days_back :
  (api_key self = "" \/ engine_id self = "" ->
   search_ticker_news api self ticker max_results days_back = ([], []))
  /\ forall r,
       In r (snd (search_ticker_news api self ticker max_results days_back))
       -> api_key self <> "" /\ engine_id self <> ""
          /\ q r = ticker ++ " stock news"
          /\ dateRestrict r = Some ("d" ++ str days_back).
Proof.
  unfold search_ticker_news. split.
  - intros [-> | ->]; [done|]. by rewrite orb_true_r.
  - intros r. destruct (api_key self) as [|c k] eqn:Hk; [done|].
    destruct (engine_id self) as [|c' e] eqn:He; [done|]. simpl.
    intros Hr. apply list_elem_of_In, list_elem_of_lookup in Hr as [n Hn].
    destruct (execute_search_pages (ticker ++ " stock news")
                ("d" ++ str days_back) max_results) as [_ Hok].
    by destruct (Hok n r Hn) as (_ & ? & ?).
Qed.

(** Whether the source of a result is one of the corporate domains. *)
Definition corporate_source (r : search_result) : bool :=
  existsb (fun x => PyStr.contains x (lower (default "" (s_source r))))
          CORPORATE_DOMAINS.

Lemma fetch_dated_pages_news query date_range max_results offsets acc all :
  Forall (fun it => corporate it = false) acc ->
  fst (fetch_dated_pages api self query date_range max_results true offsets
         acc) = Some all ->
  Forall (fun it => corporate it = false) all.
Proof.
  revert acc. induction offsets as [|i rest IH]; intros acc Hacc.
  { simpl. by intros [= <-]. }
  cbn [fetch_dated_pages].
  destruct (PyStr.split ":" date_range) as [|f [|t [|x l]]]; try done.
  destruct (strptime_compact api f) as [d|]; [|done].
  destruct (strptime_compact api t) as [d'|]; [|done].
  destruct (execute api _) as [response| |]; try done.
  - assert (Hacc' : Forall (fun it => corporate it = false)
              (match response with
               | Some items =>
                   (acc ++ List.filter
                             (fun it => negb (true && corporate it)) items)%list
               | None => acc
               end)).
    { destruct response as [items|]; [|done].
      apply Forall_app. split; [done|].
      apply List.Forall_forall. intros it Hit.
      apply List.filter_In in Hit as [_ Hit]. simpl in Hit.
      by destruct (corporate it). }
    destruct (_ || _); [simpl; by intros [= <-]|].
    specialize (IH _ Hacc').
    destruct (fetch_dated_pages api self query date_range max_results true
                rest _) as [r reqs].
    exact IH.
  - specialize (IH _ Hacc).
    destruct (fetch_dated_pages api self query date_range max_results true
                rest acc) as [r reqs].
    exact IH.
Qed.

(** X22: every result of a news search with a date range has a
    [published_time] other than [None] (an empty string counts), and none
    comes from one of the corporate domains. *)
Theorem news_results_are_dated query date_range max_results :
  Forall
    (fun r => is_Some (published_time r) /\ corporate_source r = false)
    (fst (_execute_search_with_date_range api self query date_range
            max_results true)).
Proof.
  unfold _execute_search_with_date_range.
  destruct (build api (api_key self)); [|constructor].
  pose proof (fetch_dated_pages_news query date_range max_results
                (range_step (Z.min max_results 100) 10) []) as Hnews.
  destruct (fetch_dated_pages api self query date_range max_results true
              _ []) as [[all|] reqs]; [|constructor].
  specialize (Hnews all ltac:(constructor) eq_refl).
  cbn [fst]. apply slice_to_Forall.
  induction Hnews as [|it all Hit _ IH]; [constructor|].
  cbn [omap]. simpl.
  destruct (item_time it) as [pt|] eqn:Hpt; simpl; [|done].
  constructor; [|done]. split; [by eexists|]. exact Hit.
Qed.

Lemma fetch_pages_failure query date_restrict max_results offsets acc r :
  In r (snd (fetch_pages api self query date_restrict max_results offsets
               acc)) ->
  (forall items, execute api r <> Items items) ->
  fst (fetch_pages api self query date_restrict max_results offsets acc)
  = None.
Proof.
  intros Hin Hr. revert acc Hin.
  induction offsets as [|i rest IH]; intros acc; [done|].
  cbn [fetch_pages]. fold (page_request query date_restrict max_results i).
  destruct (execute api (page_request query date_restrict max_results i))
    as [response| |] eqn:He; try done.
  destruct (_ || _).
  - simpl. intros [<-|[]]. by destruct (Hr response).
  - specialize (IH (match response with
                    | Some items => (acc ++ items)%list
                    | None => acc
                    end)).
    destruct (fetch_pages api self query date_restrict max_results rest _)
      as [o reqs].
    simpl in *. intros [<-|Hin]; [by destruct (Hr response) | by apply IH].
Qed.

(** X23: [_execute_search] returns nothing when one of its requests
    raised, whatever the pages before it had brought. *)
Theorem execute_search_failure_discards
    query date_restrict max_results r :
  In r (snd (_execute_search api self query date_restrict max_results)) ->
  execute api r = HttpError \/ execute api r = OtherError ->
  fst (_execute_search api self query date_restrict max_results) = [].
Proof.
  unfold _execute_search. destruct (build api (api_key self)); [|done].
  intros Hin Hr.
  pose proof (fetch_pages_failure query date_restrict max_results
                (range_step (Z.min max_results 100) 10) [] r) as Hf.
  destruct (fetch_pages api self query date_restrict max_results _ [])
    as [[all|] reqs]; [|done].
  simpl in *. discriminate Hf; [done|].
  intros items. destruct Hr as [-> | ->]; done.
Qed.

Lemma fetch_dated_pages_all_fail
    query date_range max_results news_only f t d d' offsets acc :
  (forall req, execute api req = HttpError) ->
  PyStr.split ":" date_range = [f; t] ->
  strptime_compact api f = Some d ->
  strptime_compact api t = Some d' ->
  fetch_dated_pages api self query date_range max_results news_only offsets
    acc
  = (Some acc,
     map (dated_request query (days_since api d) max_results news_only)
         offsets).
Proof.
  intros Hfail Hsplit Hf Ht.
  induction offsets as [|i rest IH]; [done|].
  cbn [fetch_dated_pages]. rewrite Hsplit, Hf, Ht, Hfail, IH. done.
Qed.

(** X24: an [HttpError] ends [_execute_search] but not
    [_execute_search_with_date_range]. When the service answers every
    request with [HttpError], the first sends one request and gives up,
    the second sends the request of every page; both return nothing. *)
Theorem http_errors_end_one_search_only
    query date_restrict date_range f t d d' max_results news_only :
  build api (api_key self) = true ->
  (forall req, execute api req = HttpError) ->
  PyStr.split ":" date_range = [f; t] ->
  strptime_compact api f = Some d ->
  strptime_compact api t = Some d' ->
  0 < max_results ->
  _execute_search api self query date_restrict max_results
  = ([], [page_request query date_restrict max_results 0])
  /\ _execute_search_with_date_range api self query date_range max_results
       news_only
     = ([], map (dated_request query (days_since api d) max_results
                   news_only)
                (range_step (Z.min max_results 100) 10)).
Proof.
  intros Hbuild Hfail Hsplit Hf Ht Hmax.
  unfold _execute_search, _execute_search_with_date_range.
  rewrite Hbuild,
    (fetch_dated_pages_all_fail query date_range max_results news_only
       f t d d' _ [] Hfail Hsplit Hf Ht).
  split.
  - unfold range_step.
    destruct (Z.to_nat ((Z.min max_results 100 + 10 - 1) / 10)) as [|m]
      eqn:Hm.
    { exfalso. assert (1 <= (Z.min max_results 100 + 10 - 1) / 10); [|lia].
      Z.div_mod_to_equations. lia. }
    cbn [seq map fetch_pages]. by rewrite Hfail.
  - simpl. unfold PyStr.slice_to.
    destruct (0 <=? max_results); by rewrite !take_nil.
Qed.

Lemma omap_shorter {A B} (f : A -> option B) (l : list A) :
  (length (omap f l) <= length l)%nat.
Proof.
  induction l as [|x l IH]; [done|].
  change (omap f (x :: l))
    with (match f x with Some y => y :: omap f l | None => omap f l end).
  destruct (f x); simpl; lia.
Qed.

Lemma fetch_pages_length query date_restrict max_results m a acc all :
  (forall req items,
     execute api req = Items (Some items) ->
     Z.of_nat (length items) <= Z.max 0 (num req)) ->
  (length acc <= 10 * a)%nat ->
  fst (fetch_pages api self query date_restrict max_results
         (map (fun k => 10 * Z.of_nat k) (seq a m)) acc) = Some all ->
  (length all <= 10 * (a + m))%nat.
Proof.
  intros Hnum. revert a acc.
  induction m as [|m IH]; intros a acc Hacc.
  { simpl. intros [= <-]. lia. }
  cbn [seq map fetch_pages].
  destruct (execute api _) as [response| |] eqn:He; try done.
  assert (Hacc' : (length (match response with
                           | Some items => (acc ++ items)%list
                           | None => acc
                           end) <= 10 * S a)%nat).
  { destruct response as [items|]; [|lia].
    apply Hnum in He. simpl in He. rewrite length_app. lia. }
  destruct (_ || _); [simpl; intros [= <-]; lia|].
  specialize (IH (S a) _ Hacc').
  destruct (fetch_pages api self query date_restrict max_results _ _)
    as [o reqs].
  simpl in *. intros Ho. specialize (IH Ho). lia.
Qed.

Lemma fetch_dated_pages_length
    query date_range max_results news_only m a acc all :
  (forall req items,
     execute api req = Items (Some items) ->
     Z.of_nat (length items) <= Z.max 0 (num req)) ->
  (length acc <= 10 * a)%nat ->
  fst (fetch_dated_pages api self query date_range max_results news_only
         (map (fun k => 10 * Z.of_nat k) (seq a m)) acc) = Some all ->
  (length all <= 10 * (a + m))%nat.
Proof.
  intros Hnum. revert a acc.
  induction m as [|m IH]; intros a acc Hacc.
  { simpl. intros [= <-]. lia. }
  cbn [seq map fetch_dated_pages].
  destruct (PyStr.split ":" date_range) as [|f [|t [|x l]]]; try done.
  destruct (strptime_compact api f) as [d|]; [|done].
  destruct (strptime_compact api t) as [d'|]; [|done].
  destruct (execute api _) as [response| |] eqn:He; try done.
  - assert (Hacc' : (length (match response with
                             | Some items =>
                                 (acc ++ List.filter
                                     (fun it =>
                                        negb (news_only && corporate it))
                                     items)%list
                             | None => acc
                             end) <= 10 * S a)%nat).
    { destruct response as [items|]; [|lia].
      apply Hnum in He. simpl in He. rewrite length_app.
      pose proof (List.filter_length_le
                    (fun it => negb (news_only && corporate it)) items).
      lia. }
    destruct (_ || _); [simpl; intros [= <-]; lia|].
    specialize (IH (S a) _ Hacc').
    destruct (fetch_dated_pages api self query date_range max_results
                news_only _ _) as [o reqs].
    simpl in *. intros Ho. specialize (IH Ho). lia.
  - specialize (IH (S a) acc ltac:(lia)).
    destruct (fetch_dated_pages api self query date_range max_results
                news_only _ _) as [o reqs].
    simpl in *. intros Ho. specialize (IH Ho). lia.
Qed.

(** X25: when the service never answers a request with more items than
    the request asked for, a search returns at most 100 results, however
    many were asked for. *)
Theorem search_at_most_hundred
    query date_restrict date_range max_results news_only :
  (forall req items,
     execute api req = Items (Some items) ->
     Z.of_nat (length items) <= Z.max 0 (num req)) ->
  (length (fst (_execute_search api self query date_restrict max_results))
   <= 100)%nat
  /\ (length (fst (_execute_search_with_date_range api self query date_range
                     max_results news_only))
      <= 100)%nat.
Proof.
  intros Hnum.
  destruct (range_step_ten (Z.min max_results 100)) as [Hr Hlen].
  assert (Hpages : (length (range_step (Z.min max_results 100) 10) <= 10)%nat).
  { destruct (length (range_step (Z.min max_results 100) 10)) as [|m] eqn:Hm;
      [lia|].
    specialize (Hlen m ltac:(lia)). lia. }
  split.
  - unfold _execute_search. destruct (build api (api_key self)); [|simpl; lia].
    pose proof (fetch_pages_length query date_restrict max_results
                  (length (range_step (Z.min max_results 100) 10)) 0 []) as Hl.
    rewrite <- Hr in Hl.
    destruct (fetch_pages api self query date_restrict max_results _ [])
      as [[all|] reqs]; [|simpl; lia].
    specialize (Hl all Hnum ltac:(simpl; lia) eq_refl). cbn [fst].
    pose proof (slice_to_shorter max_results
                  (map (fun it => format_item (metatags_time it) it) all)).
    rewrite length_map in *. lia.
  - unfold _execute_search_with_date_range.
    destruct (build api (api_key self)); [|simpl; lia].
    pose proof (fetch_dated_pages_length query date_range max_results
                  news_only
                  (length (range_step (Z.min max_results 100) 10)) 0 [])
      as Hl.
    rewrite <- Hr in Hl.
    destruct (fetch_dated_pages api self query date_range max_results
                news_only _ []) as [[all|] reqs]; [|simpl; lia].
    specialize (Hl all Hnum ltac:(simpl; lia) eq_refl). cbn [fst].
    match goal with
    | |- (length (PyStr.slice_to _ ?l) <= _)%nat =>
        pose proof (slice_to_shorter max_results l);
        match l with omap ?f ?l0 => pose proof (omap_shorter f l0) end
    end.
    lia.
Qed.

End SearchApi.

(** ** The article cleaner *)

Section Cleaner.

Import PyText ArticleCleaner.

(** Every character of [s] satisfies [P]. *)
Fixpoint all_chars (P : ascii -> Prop) (s : string) : Prop :=
  match s with
  | EmptyString => True
  | String c s' => P c /\ all_chars P s'
  end.

Lemma collapse_chars in_space s :
  all_chars (fun c => is_space c = false \/ c = " "%char)
            (collapse in_space s).
Proof.
  revert in_space. induction s as [|c s IH]; intros in_space; [done|].
  simpl. destruct (is_space c) eqn:Hc.
  - destruct in_space; [apply IH|]. split; [by right | apply IH].
  - split; [by left | apply IH].
Qed.

Lemma lstrip_chars P s : all_chars P s -> all_chars P (lstrip s).
Proof.
  induction s as [|c s IH]; [done|]. intros [Hc Hs]. simpl.
  destruct (is_space c); [by apply IH | done].
Qed.

Lemma rstrip_chars P s : all_chars P s -> all_chars P (rstrip s).
Proof.
  induction s as [|c s IH]; [done|]. intros [Hc Hs]. simpl.
  specialize (IH Hs). destruct (rstrip s) as [|d r].
  - by destruct (is_space c).
  - done.
Qed.

Lemma rstrip_rstrip s : rstrip (rstrip s) = rstrip s.
Proof.
  induction s as [|c s IH]; [done|]. simpl.
  destruct (rstrip s) as [|d r] eqn:Hr.
  - destruct (is_space c) eqn:Hc; [done|]. simpl. by rewrite Hc.
  - cbn [rstrip]. cbn [rstrip] in IH. by rewrite IH.
Qed.

Lemma lstrip_head s :
  lstrip s = "" \/ exists c t, lstrip s = String c t /\ is_space c = false.
Proof.
  induction s as [|c s IH]; [by left|]. simpl.
  destruct (is_space c) eqn:Hc; [done|]. right. by exists c, s.
Qed.

Lemma rstrip_head c t :
  is_space c = false -> exists t', rstrip (String c t) = String c t'.
Proof.
  intros Hc. simpl. destruct (rstrip t); [rewrite Hc|]; by eexists.
Qed.

(** [s.strip().strip() == s.strip()] *)
Lemma strip_strip s : strip (strip s) = strip s.
Proof.
  unfold strip. destruct (lstrip_head s) as [->|(c & t & -> & Hc)]; [done|].
  destruct (rstrip_head c t Hc) as [t' Ht]. rewrite Ht. simpl lstrip.
  rewrite Hc, <- Ht. apply rstrip_rstrip.
Qed.

Lemma partition_char_free c s :
  all_chars (fun x => x <> c) s ->
  PyStr.partition (String c "") s = None.
Proof.
  induction s as [|x s IH]; [done|]. intros [Hx Hs].
  cbn [PyStr.partition]. rewrite prefix_char.
  destruct (ascii_dec c x) as [->|_]; [done|]. by rewrite IH.
Qed.

Lemma split_char_free c s :
  all_chars (fun x => x <> c) s -> PyStr.split (String c "") s = [s].
Proof.
  intros Hs. unfold PyStr.split. destruct (String.length s); [done|].
  cbn [PyStr.split_fuel]. by rewrite partition_char_free.
Qed.

Lemma split_lines_one s :
  all_chars (fun x => x <> ascii_of_nat 10) s -> PyStr.split newline s = [s].
Proof. apply split_char_free. Qed.

Lemma all_chars_impl (P Q : ascii -> Prop) s :
  (forall c, P c -> Q c) -> all_chars P s -> all_chars Q s.
Proof.
  intros HPQ. induction s as [|c s IH]; [done|].
  intros [Hc Hs]. split; auto.
Qed.

Context (compiled_patterns : list (string -> string)).

(** The text of [article] on one line: the noise patterns removed, every
    run of white space replaced by one blank, and the ends trimmed. *)
Definition one_line (article : AsyncScraper.RawArticle) : string :=
  strip (collapse false
           (foldl (fun content sub => sub content)
                  (default "" (AsyncScraper.content article))
                  compiled_patterns)).

Lemma one_line_no_newline article :
  all_chars (fun x => x <> ascii_of_nat 10) (one_line article).
Proof.
  unfold one_line, strip. apply rstrip_chars, lstrip_chars.
  eapply all_chars_impl; [|apply collapse_chars].
  intros c [Hc | ->]; [|done]. intros ->. done.
Qed.

(** X26: [clean] keeps all of the text or none of it. The white space is
    collapsed before the text is split into paragraphs, so there is one
    paragraph only: the cleaned content is the text on one line when that
    has more than 40 characters or ends with a full stop, it is empty
    otherwise, and it never holds a line break. *)
Theorem clean_keeps_all_or_nothing article :
  c_content (clean compiled_patterns article)
  = (if NewsFeedSearch.nonempty (default "" (AsyncScraper.content article))
        && ((40 <? String.length (one_line article))%nat
            || ends_with_dot (one_line article))
     then one_line article else "")
  /\ PyStr.contains newline (c_content (clean compiled_patterns article))
     = false.
Proof.
  assert (Hfree : PyStr.contains newline (one_line article) = false).
  { apply partition_none, partition_char_free, one_line_no_newline. }
  assert (Hkeep :
    c_content (clean compiled_patterns article)
    = (if NewsFeedSearch.nonempty (default "" (AsyncScraper.content article))
          && ((40 <? String.length (one_line article))%nat
              || ends_with_dot (one_line article))
       then one_line article else "")).
  { unfold clean.
    destruct (AsyncScraper.content article) as [[|c0 s0]|] eqn:Hc; try done.
    cbv zeta.
    assert (Hone : strip (collapse false
                     (foldl (fun content sub => sub content) (String c0 s0)
                            compiled_patterns)) = one_line article).
    { unfold one_line. by rewrite Hc. }
    rewrite Hone, (split_lines_one _ (one_line_no_newline article)).
    cbn [map]. unfold one_line at 1. rewrite strip_strip.
    fold (one_line article). cbn [List.filter].
    destruct (one_line article) as [|x t] eqn:Ht; [done|].
    cbn [NewsFeedSearch.nonempty List.filter andb default].
    by destruct (_ || _). }
  split; [exact Hkeep|]. rewrite Hkeep.
  destruct (_ && _); [exact Hfree | done].
Qed.

End Cleaner.

(** ** The extractive summary *)

Section Summary.

Import PyText Summarizer.

Lemma str_take_length n s : (String.length (str_take n s) <= n)%nat.
Proof.
  unfold str_take. revert s. induction n as [|n IH]; intros [|c s]; simpl;
    try lia.
  specialize (IH s). lia.
Qed.

Lemma distinct_spec seen words :
  NoDup (distinct seen words)
  /\ forall w, w ∈ distinct seen words -> w ∈ words /\ w ∉ seen.
Proof.
  revert seen. induction words as [|x words IH]; intros seen.
  { split; [constructor | by intros w Hw%elem_of_nil]. }
  simpl. destruct (bool_decide (x ∈ seen)) eqn:Hx.
  - destruct (IH seen) as [Hnd Hin]. split; [done|].
    intros w Hw. destruct (Hin w Hw). split; [by right | done].
  - apply bool_decide_eq_false in Hx.
    destruct (IH (x :: seen)) as [Hnd Hin]. split.
    + constructor; [|done]. intros Hw. destruct (Hin x Hw) as [_ Hn].
      apply Hn. by left.
    + intros w [->|Hw]%elem_of_cons; [split; [by left | done]|].
      destruct (Hin w Hw) as [Hw' Hn]. split; [by right|].
      intros Hs. apply Hn. by right.
Qed.

Lemma insert_by_count_Permutation cnt x l :
  Permutation (x :: l) (insert_by_count cnt x l).
Proof.
  induction l as [|y l IH]; [done|]. simpl.
  destruct (cnt x <? cnt y)%nat; [|done].
  rewrite <- IH. apply perm_swap.
Qed.

Lemma sort_by_count_Permutation cnt l :
  Permutation l (foldr (insert_by_count cnt) [] l).
Proof.
  induction l as [|x l IH]; [done|]. simpl.
  rewrite <- insert_by_count_Permutation. by constructor.
Qed.

Lemma most_common_spec n words :
  (length (most_common n words) <= n)%nat
  /\ NoDup (most_common n words)
  /\ forall w, w ∈ most_common n words -> w ∈ words.
Proof.
  unfold most_common.
  destruct (distinct_spec [] words) as [Hnd Hin].
  pose proof (sort_by_count_Permutation (count words) (distinct [] words))
    as Hperm.
  split; [rewrite length_take; lia|]. split.
  - eapply sublist_NoDup; [|apply sublist_take]. by rewrite <- Hperm.
  - intros w Hw. apply Hin. rewrite Hperm.
    eapply elem_of_sublist; [exact Hw | apply sublist_take].
Qed.

Context (findall_words : string -> list string).

(** X27: the fallback summary is short: its title has at most 53
    characters, its text at most 200, and its sentiment is 0.0. *)
Theorem extractive_summary_is_short content :
  (String.length (a_title (_create_extractive_summary findall_words content))
   <= 53)%nat
  /\ (String.length
        (a_content (_create_extractive_summary findall_words content))
      <= 200)%nat
  /\ sentiment (_create_extractive_summary findall_words content)
     = Some (QArith_base.Qmake 0 1).
Proof.
  unfold _create_extractive_summary. cbv zeta. cbn [a_title a_content sentiment].
  split; [|split; [|done]].
  - rewrite append_length.
    match goal with
    | |- context [str_take 50 ?t] => pose proof (str_take_length 50 t)
    end.
    destruct (50 <? _)%nat; simpl; lia.
  - destruct (200 <? String.length _)%nat eqn:Hlen.
    + rewrite append_length.
      match goal with
      | |- context [str_take 197 ?t] => pose proof (str_take_length 197 t)
      end.
      change (String.length "...") with 3%nat. lia.
    + apply Nat.ltb_ge in Hlen. exact Hlen.
Qed.

(** X28: the keywords of the fallback summary are at most five different
    words of the lower-cased text, none of them a stop word. *)
Theorem extractive_summary_keywords content :
  (length (a_keywords (_create_extractive_summary findall_words content))
   <= 5)%nat
  /\ NoDup (a_keywords (_create_extractive_summary findall_words content))
  /\ forall w,
       In w (a_keywords (_create_extractive_summary findall_words content)) ->
       In w (findall_words (lower content))
       /\ ~ In w stop_words.
Proof.
  unfold _create_extractive_summary. cbv zeta. cbn [a_keywords].
  match goal with
  | |- context [most_common 5 ?ws] =>
      destruct (most_common_spec 5 ws) as (Hlen & Hnd & Hin)
  end.
  split; [done|]. split; [done|].
  intros w Hw%list_elem_of_In. apply Hin, list_elem_of_In in Hw.
  apply List.filter_In in Hw as [Hw Hstop]. split; [done|].
  apply negb_true_iff, bool_decide_eq_false in Hstop.
  by rewrite <- list_elem_of_In.
Qed.

End Summary.

(** ** The theorems at work

    Runs of the embedding on the stand-ins of [Stub]: one for each
    theorem with premises, and the inputs on which the behaviour differs
    from what the specification says. *)

Module Scenario.

Import NewsFeedSearch.

(** [NewsFeedSearch()] and [AsyncScraper()] with their defaults. *)
Definition searcher : NewsFeedSearch.t := NewsFeedSearch.__init__ None.

Definition fetcher : AsyncScraper.t :=
  AsyncScraper.__init__ None None None None.

Definition january_first : date_arg := ArgDate (Date 2025 1 1).

Definition january_last : date_arg := ArgDate (Date 2025 1 31).

Definition one_entry : list feed_entry :=
  [Stub.entry "Chip maker reports results - Example News"
     "https://example.com/results" "2025-01-15"].

(** A search whose feed answers with an empty document, and the same
    search again a hundred seconds later, when the feed has an entry. *)
Definition first_call : result (list article) * world :=
  search_news (Stub.lib one_entry) searcher (Stub.env 100 "") "NVIDIA"
    january_first january_last 5 None true true Stub.empty_world.

Definition second_call : result (list article) * world :=
  search_news (Stub.lib one_entry) searcher (Stub.env 200 "<rss/>") "NVIDIA"
    january_first january_last 5 None true true (snd first_call).

(** The same two searches when the feed has its entry from the start. *)
Definition first_call' : result (list article) * world :=
  search_news (Stub.lib one_entry) searcher (Stub.env 100 "<rss/>") "NVIDIA"
    january_first january_last 5 None true true Stub.empty_world.

Definition second_call' : result (list article) * world :=
  search_news (Stub.lib one_entry) searcher (Stub.env 200 "<rss/>") "NVIDIA"
    january_first january_last 5 None true true (snd first_call').

(** The same two searches on a cache directory that cannot be written. *)
Definition first_unsaved : result (list article) * world :=
  search_news (Stub.lib one_entry) searcher
    (Stub.read_only (Stub.env 100 "<rss/>")) "NVIDIA"
    january_first january_last 5 None true true Stub.empty_world.

Definition second_unsaved : result (list article) * world :=
  search_news (Stub.lib one_entry) searcher
    (Stub.read_only (Stub.env 200 "<rss/>")) "NVIDIA"
    january_first january_last 5 None true true (snd first_unsaved).

Definition the_key : string := "NVIDIA_None_2025-01-01_2025-01-31".

Definition the_article : article :=
  {| title := "Chip maker reports results";
     link := "https://example.com/results";
     source := "Example News";
     publish_date := "2025-01-15";
     authors := [];
     snippet := "" |}.

(** A search with [max_results = 0] on an empty cache directory. *)
Definition zero_call : result (list article) * world :=
  search_news (Stub.lib one_entry) searcher (Stub.env 100 "<rss/>") "NVIDIA"
    january_first january_last 0 None true true Stub.empty_world.

(** A cache directory whose file for [the_key] holds the empty list. *)
Definition empty_entry_world : world :=
  {| files := {[ the_key := {| mtime := 50; data := Ok [] |} ]};
     log := [] |}.

(** The same file, written two hours before the clock reads 7300. *)
Definition old_entry : cache_file :=
  {| mtime := 100; data := Ok [] |}.

Definition old_entry_world : world :=
  {| files := {[ the_key := old_entry ]}; log := [] |}.

Definition embedded_link : string :=
  "https://news.google.com/rss/articles/abc?url=https://example.com/purl=1&oc=5".

Definition plain_link : string :=
  "https://news.google.com/rss/articles/abc?oc=5".

(** Two calls with different windows. *)
Definition january_call : call :=
  {| c_env := Stub.env 100 "<rss/>"; c_query := "NVIDIA";
     c_from := january_first; c_to := january_last; c_max := 5;
     c_topic := None; c_resolve := true; c_cache := true |}.

Definition february_call : call :=
  {| c_env := Stub.env 200 "<rss/>"; c_query := "NVIDIA";
     c_from := ArgStr "2025-02-01"; c_to := ArgStr "2025-02-28";
     c_max := 5; c_topic := None; c_resolve := false; c_cache := true |}.

(** A search without dates late on the 31st of January, and the same
    search a hundred seconds later, on the 1st of February: the window of
    the first is the week up to the 31st, the window of the second the week
    up to the 1st. The feed has an entry of the 30th. *)
Definition late_entry : list feed_entry :=
  [Stub.entry "Chip maker reports results - Example News"
     "https://example.com/results" "2025-01-30"].

Definition late_article : article :=
  {| title := "Chip maker reports results";
     link := "https://example.com/results";
     source := "Example News";
     publish_date := "2025-01-30";
     authors := [];
     snippet := "" |}.

Definition evening_call : result (list article) * world :=
  search_news (Stub.lib late_entry) searcher (Stub.env 100 "<rss/>") "NVIDIA"
    ArgNone ArgNone 5 None true true Stub.empty_world.

Definition morning_call : result (list article) * world :=
  search_news (Stub.lib late_entry) searcher
    (Stub.on_day (Stub.env 200 "<rss/>") (Date 2025 2 1) (Date 2025 1 25))
    "NVIDIA" ArgNone ArgNone 5 None true true (snd evening_call).

(** C1 fails on the code. The first search completes with an empty result
    and writes it to the cache; the second, with the same criteria and well
    within the time-to-live, finds that entry, rejects it because it is
    empty, and asks the feed again: two requests are sent, and the two
    searches return different sequences. When the cache directory cannot
    be written, the first search still completes, and the second asks the
    feed again. And when the dates are left out and midnight lies between
    the two searches, the first stores its non-empty result under the key
    of its own window, and the second, whose window is another, asks the
    feed again and writes a second file. *)
Lemma second_search_asks_again :
  time_time (Stub.env 200 "<rss/>") - write_time (Stub.env 100 "")
    <= cache_expiry searcher
  /\ fst first_call = Ok []
  /\ files (snd first_call) !! the_key
     = Some {| mtime := 100; data := Ok [] |}
  /\ feed_requests (log (snd second_call)) = 2%nat
  /\ fst second_call = Ok [the_article]
  /\ fst first_unsaved = Ok [the_article]
  /\ feed_requests (log (snd second_unsaved)) = 2%nat
  /\ fst evening_call = Ok [late_article]
  /\ files (snd evening_call) !! "NVIDIA_None_2025-01-24_2025-01-31"
     = Some {| mtime := 100; data := Ok [late_article] |}
  /\ fst morning_call = Ok [late_article]
  /\ feed_requests (log (snd morning_call)) = 2%nat
  /\ cache_writes (log (snd morning_call)) = 2%nat.
Proof.
  split; [simpl; lia|]. vm_compute. repeat split; reflexivity.
Qed.

(** The amended C1 on a feed with one entry inside the window. *)
Lemma search_cache_idempotent_witness :
  feed_requests (log (snd first_call'))
  = S (feed_requests (log Stub.empty_world))
  /\ second_call' = (Ok [the_article], snd first_call').
Proof.
  unfold second_call', first_call'.
  apply (search_cache_idempotent (Stub.lib one_entry) searcher
           (Stub.env 100 "<rss/>") (Stub.env 200 "<rss/>")).
  - reflexivity.
  - reflexivity.
  - reflexivity.
  - reflexivity.
  - vm_compute. reflexivity.
  - discriminate.
  - lia.
  - simpl. lia.
Defined.

(** C4 fails on the code: with [max_results = 0], caching on and nothing
    cached, the search returns the empty sequence, and calls the cache
    write, which creates the file of the key. *)
Lemma zero_max_results_writes_cache :
  fst zero_call = Ok []
  /\ files Stub.empty_world !! the_key = None
  /\ files (snd zero_call) !! the_key
     = Some {| mtime := 100; data := Ok [] |}
  /\ cache_writes (log (snd zero_call)) = 1%nat.
Proof. vm_compute. repeat split; reflexivity. Qed.

(** C5 on a file written two hours ago. *)
Lemma get_from_cache_absent_witness :
  feed_requests
    (log (snd (search_news (Stub.lib one_entry) searcher (Stub.env 7300 "<rss/>")
                 "NVIDIA" january_first january_last 5 None true true
                 old_entry_world)))
  = S (feed_requests (log old_entry_world)).
Proof.
  apply (proj2 (proj2 (get_from_cache_absent (Stub.lib one_entry) searcher
                         (Stub.env 7300 "<rss/>") the_key old_entry_world))
           old_entry).
  - reflexivity.
  - reflexivity.
  - simpl. lia.
Defined.

(** C9 on a fresh file that holds the empty list. *)
Lemma empty_cache_entry_refetches_witness :
  fst (_get_from_cache searcher (Stub.env 100 "<rss/>")
         (key_of (Stub.lib one_entry) (Stub.env 100 "<rss/>") "NVIDIA" None
            january_first january_last) empty_entry_world)
  = Ok (Some [])
  /\ feed_requests
       (log (snd (search_news (Stub.lib one_entry) searcher
                    (Stub.env 100 "<rss/>") "NVIDIA" january_first
                    january_last 5 None true true empty_entry_world)))
     = S (feed_requests (log empty_entry_world))
  /\ In (FeedGet (feed_url (Stub.lib one_entry) "NVIDIA" None))
       (log (snd (search_news (Stub.lib one_entry) searcher
                    (Stub.env 100 "<rss/>") "NVIDIA" january_first
                    january_last 5 None true true empty_entry_world))).
Proof.
  apply (empty_cache_entry_refetches (Stub.lib one_entry) searcher
           (Stub.env 100 "<rss/>") "NVIDIA" january_first january_last 5
           None true empty_entry_world {| mtime := 50; data := Ok [] |}).
  - reflexivity.
  - simpl. lia.
  - reflexivity.
Defined.

(** C7 on a feed that answers 503. *)
Lemma feed_errors_never_propagate_witness :
  fst (_search_google_news (Stub.lib one_entry)
         (Stub.with_feed (Stub.env 100 "") (Stub.status_response 503 None))
         "NVIDIA" None Stub.empty_world) = Ok []
  /\ fst (search_news (Stub.lib one_entry) searcher
            (Stub.with_feed (Stub.env 100 "") (Stub.status_response 503 None))
            "NVIDIA" january_first january_last 5 None true true
            Stub.empty_world) = Ok [].
Proof.
  destruct (proj2 (proj2 (feed_errors_never_propagate (Stub.lib one_entry)
                            searcher
                            (Stub.with_feed (Stub.env 100 "")
                               (Stub.status_response 503 None))
                            "NVIDIA" january_first january_last 5 None true
                            true Stub.empty_world))) as [Hfeed Hsearch].
  - eapply bad_status; [reflexivity | simpl; lia].
  - split; [exact Hfeed | apply Hsearch; reflexivity].
Defined.

(** C2 on two calls with different windows, starting from an empty cache
    directory. *)
Lemma search_results_within_window_witness :
  exists results w',
    run_calls (Stub.lib one_entry) searcher [january_call; february_call]
      Stub.empty_world = (Ok results, w')
    /\ Forall2
         (fun c res =>
            Forall (fun a =>
              acceptable (Stub.lib one_entry)
                (call_from (Stub.lib one_entry) c)
                (call_to (Stub.lib one_entry) c) a
              /\ forall d,
                   parsed_date (Stub.lib one_entry) (publish_date a) = Some d ->
                   date_leb (call_from (Stub.lib one_entry) c) d = true
                   /\ date_leb d (call_to (Stub.lib one_entry) c) = true) res)
         [january_call; february_call] results.
Proof.
  apply (search_results_within_window (Stub.lib one_entry) searcher
           [january_call; february_call] Stub.empty_world).
  - reflexivity.
  - intros c c' [<-|[<-|[]]] [<-|[<-|[]]] Hkey;
      try (split; reflexivity); vm_compute in Hkey; discriminate.
Defined.

(** C6 fails on the code: the value of the embedded parameter is
    https://example.com/purl=1, and resolution returns
    https://example.com/p, because it cuts the value at its own "url=".
    And a 302 answer whose Location header is empty yields the original
    URL, not the header. *)
Lemma extract_real_url_cuts_value :
  urlparse_query (Stub.lib []) embedded_link
  = Ok "url=https://example.com/purl=1&oc=5"
  /\ embedded_url_value "url=https://example.com/purl=1&oc=5"
     = "https://example.com/purl=1"
  /\ _extract_real_url (Stub.lib []) (Stub.env 0 "") embedded_link
       Stub.empty_world
     = (Ok "https://example.com/p", Stub.empty_world)
  /\ fst (_extract_real_url (Stub.lib [])
            (Stub.with_redirects (Stub.env 0 "")
               (fun _ => Stub.status_response 302 (Some "")))
            plain_link Stub.empty_world)
     = Ok plain_link.
Proof. vm_compute. repeat split; reflexivity. Qed.

(** A page that answers 503 twice and then delivers 250 characters, and a
    page that answers 503 every time. *)
Definition flaky_page : string := "https://example.com/flaky".

Definition dead_page : string := "https://example.com/dead".

Definition pages (u : string) (attempt : Z) : result response :=
  if String.eqb u flaky_page && (2 <=? attempt)
  then Stub.ok_response (Stub.filler 250)
  else Stub.status_response 503 None.

Definition flaky_article : AsyncScraper.RawArticle :=
  AsyncScraper._parse_with_newspaper (Stub.lib []) flaky_page
    (Stub.filler 250).

(** C3 with [retry_count = 2]: the page that succeeds on the third attempt
    is in the result, the page that fails three times is not. *)
Lemma scrape_url_retry_witness :
  fst (AsyncScraper.scrape_url (Stub.lib []) fetcher
         (Stub.with_pages (Stub.env 0 "") pages) flaky_page Stub.empty_world)
  = Ok (Some flaky_article)
  /\ fst (AsyncScraper.scrape_url (Stub.lib []) fetcher
            (Stub.with_pages (Stub.env 0 "") pages) dead_page
            Stub.empty_world)
     = Ok None
  /\ fst (AsyncScraper.scrape_urls (Stub.lib []) fetcher
            (Stub.with_pages (Stub.env 0 "") pages) [dead_page; flaky_page]
            Stub.empty_world)
     = Ok [flaky_article].
Proof.
  split; [|split; vm_compute; reflexivity].
  apply (proj1 (scrape_url_retry (Stub.lib []) fetcher
                  (Stub.with_pages (Stub.env 0 "") pages) flaky_page []
                  Stub.empty_world flaky_article)).
  exists 2. split; [simpl; lia|]. split.
  - split; [reflexivity|]. right. reflexivity.
  - intros j Hj. left.
    assert (j = 0 \/ j = 1) as [-> | ->] by lia; reflexivity.
Defined.

(** The log of the flaky page: three requests, and a delay of
    [retry_delay * (attempt + 1)] seconds after each failure. *)
Example flaky_page_log :
  log (snd (AsyncScraper.scrape_url (Stub.lib []) fetcher
              (Stub.with_pages (Stub.env 0 "") pages) flaky_page
              Stub.empty_world))
  = [PageGet flaky_page 0; Sleep 2; PageGet flaky_page 1; Sleep 4;
     PageGet flaky_page 2].
Proof. vm_compute. reflexivity. Qed.

(** Three URLs under a semaphore of two: after the event loop has resumed
    every task twice, two requests are in flight and the third task still
    waits. *)
Example two_of_three_in_flight :
  let scraper := AsyncScraper.__init__ (Some 2%nat) None None None in
  let p :=
    AsyncScraper.run_schedule (Stub.lib []) scraper
      (Stub.with_pages (Stub.env 0 "") pages) [0; 1; 2; 0; 1; 2]%nat
      (AsyncScraper.start scraper [flaky_page; dead_page; flaky_page]) in
  AsyncScraper.in_flight p = 2%nat
  /\ AsyncScraper.value p = 0%nat
  /\ AsyncScraper.tasks p !! 2%nat = Some (flaky_page, AsyncScraper.Waiting).
Proof. vm_compute. repeat split; reflexivity. Qed.

(** The scenario of the specification: a feed of eight entries, five of
    them inside January 2025, searched with [max_results = 5], no cache
    and no link resolution, yields the five, newest first. *)
Definition eight_entries : list feed_entry :=
  [ Stub.entry "a" "https://example.com/a" "2025-01-03";
    Stub.entry "b" "https://example.com/b" "2024-12-30";
    Stub.entry "c" "https://example.com/c" "2025-01-28";
    Stub.entry "d" "https://example.com/d" "2025-02-02";
    Stub.entry "e" "https://example.com/e" "2025-01-10";
    Stub.entry "f" "https://example.com/f" "2025-01-31";
    Stub.entry "g" "https://example.com/g" "2025-03-15";
    Stub.entry "h" "https://example.com/h" "2025-01-01" ].

Example end_to_end :
  let r :=
    search_news (Stub.lib eight_entries) searcher (Stub.env 100 "<rss/>")
      "NVIDIA" (ArgStr "2025-01-01") (ArgStr "2025-01-31") 5 None false
      false Stub.empty_world in
  option_map (map publish_date)
    (match fst r with Ok l => Some l | Raise _ => None end)
  = Some ["2025-01-31"; "2025-01-28"; "2025-01-10"; "2025-01-03";
          "2025-01-01"]
  /\ feed_requests (log (snd r)) = 1%nat
  /\ files (snd r) = ∅.
Proof. vm_compute. repeat split; reflexivity. Qed.

(** Two parameter pairs with one cache key at work: the search for query
    "a" in topic "b_c" is answered from the file that the search for query
    "a_b" in topic "c" wrote, without a request to the feed. *)
Example collision_shares_entry :
  let first :=
    search_news (Stub.lib one_entry) searcher (Stub.env 100 "<rss/>") "a_b"
      january_first january_last 5 (Some "c") true true Stub.empty_world in
  let second :=
    search_news (Stub.lib one_entry) searcher (Stub.env 200 "<rss/>") "a"
      january_first january_last 5 (Some "b_c") true true (snd first) in
  fst first = Ok [the_article]
  /\ fst second = Ok [the_article]
  /\ log (snd second)
     = [FeedGet
          "https://news.google.com/rss/search?q=a_b&hl=en-US&gl=US&ceid=US:en";
        CacheWrite "a_b_c_2025-01-01_2025-01-31"].
Proof. vm_compute. repeat split; reflexivity. Qed.

(** [sorted(..., reverse=True)] keeps the order of articles with equal
    dates, and [l[:n]] drops from the end when [n] is negative. *)
Example sort_is_stable :
  map fst
    (sorted_reverse snd
       [("a", "2025-01-02"); ("b", "2025-01-09"); ("c", "2025-01-02");
        ("d", "2025-01-09")])
  = ["b"; "d"; "a"; "c"]
  /\ PyStr.slice_to (-1) ["b"; "d"; "a"; "c"] = ["b"; "d"; "a"]
  /\ PyStr.slice_to 2 ["b"; "d"; "a"; "c"] = ["b"; "d"]
  /\ PyStr.slice_to (-9) ["b"; "d"; "a"; "c"] = [].
Proof. vm_compute. repeat split; reflexivity. Qed.

Definition story_link : string :=
  "https://news.google.com/rss/articles/abc?url=https://example.com/story&oc=5".

Definition moved (to : string) : Env :=
  Stub.with_redirects (Stub.env 0 "")
    (fun _ => Stub.status_response 302 (Some to)).

(** The amended C6 on a link with an embedded address, and on a link
    without one that is answered with a redirect. *)
Lemma extract_real_url_spec_witness :
  _extract_real_url (Stub.lib []) (Stub.env 0 "") story_link Stub.empty_world
  = (Ok "https://example.com/story", Stub.empty_world)
  /\ _extract_real_url (Stub.lib []) (moved "https://example.com/story")
       plain_link Stub.empty_world
     = (Ok "https://example.com/story",
        add_log Stub.empty_world [RedirectGet plain_link]).
Proof.
  split.
  - apply (proj1 (extract_real_url_spec (Stub.lib []) (Stub.env 0 "")
                    story_link Stub.empty_world)); reflexivity.
  - destruct (proj2 (extract_real_url_spec (Stub.lib [])
                       (moved "https://example.com/story") plain_link
                       Stub.empty_world) eq_refl)
      as (res & -> & Hloc & _).
    rewrite (Hloc "https://example.com/story"); [reflexivity|].
    eexists. split; [reflexivity|]. split; [by right|].
    split; [reflexivity | discriminate].
Defined.

(** *** The further properties at work *)


(** A search for two articles in a feed of eight, on an empty cache
    directory. *)
Definition two_of_eight : result (list article) * world :=
  search_news (Stub.lib eight_entries) searcher (Stub.env 100 "<rss/>")
    "NVIDIA" january_first january_last 2 None false true Stub.empty_world.

(** X5 on that search. *)
Lemma search_news_descending_witness :
  exists res, fst two_of_eight = Ok res /\ descending publish_date res.
Proof.
  unfold two_of_eight. apply search_news_descending. reflexivity.
Defined.

(** X6 on that search: two of the five articles of January are kept. *)
Lemma search_news_keeps_newest_witness :
  exists g kept dropped res,
    fst (_search_google_news (Stub.lib eight_entries) (Stub.env 100 "<rss/>")
           "NVIDIA" None Stub.empty_world) = Ok g
    /\ fst two_of_eight = Ok res
    /\ Permutation
         (List.filter
            (in_date_range (Stub.lib eight_entries)
               (from_of (Stub.lib eight_entries) (Stub.env 100 "<rss/>")
                  january_first)
               (to_of (Stub.lib eight_entries) (Stub.env 100 "<rss/>")
                  january_last)) g)
         (kept ++ dropped)
    /\ Forall2 resolved kept res
    /\ (forall a b, In a kept -> In b dropped ->
          string_ge (publish_date a) (publish_date b))
    /\ (0 <= 2 ->
        length res
        = Nat.min (Z.to_nat 2)
            (length (List.filter
               (in_date_range (Stub.lib eight_entries)
                  (from_of (Stub.lib eight_entries) (Stub.env 100 "<rss/>")
                     january_first)
                  (to_of (Stub.lib eight_entries) (Stub.env 100 "<rss/>")
                     january_last)) g))).
Proof.
  unfold two_of_eight. apply search_news_keeps_newest. reflexivity.
Defined.

(** X4: the disk is full at the first search, and the second search, a
    hundred seconds later, asks the feed again. *)
Lemma failed_cache_write_means_refetch_witness :
  cache_hit searcher (Stub.env 200 "<rss/>")
    (key_of (Stub.lib one_entry) (Stub.env 200 "<rss/>") "NVIDIA" None
       january_first january_last) true
    (snd (search_news (Stub.lib one_entry) searcher
            (Stub.disk_full (Stub.env 100 "<rss/>")) "NVIDIA" january_first
            january_last 5 None true true Stub.empty_world))
  = None
  /\ feed_requests
       (log (snd (search_news (Stub.lib one_entry) searcher
                    (Stub.env 200 "<rss/>") "NVIDIA" january_first
                    january_last 5 None true true
                    (snd (search_news (Stub.lib one_entry) searcher
                            (Stub.disk_full (Stub.env 100 "<rss/>")) "NVIDIA"
                            january_first january_last 5 None true true
                            Stub.empty_world)))))
     = S (S (feed_requests (log Stub.empty_world))).
Proof.
  apply (failed_cache_write_means_refetch (Stub.lib one_entry) searcher
           (Stub.disk_full (Stub.env 100 "<rss/>")) (Stub.env 200 "<rss/>")).
  - reflexivity.
  - reflexivity.
  - reflexivity.
  - reflexivity.
  - simpl. lia.
Defined.

(** What the full disk leaves of an entry that was there: the file of the
    key is opened, and so emptied, before the write fails. *)
Example full_disk_empties_the_file :
  let w :=
    {| files := {[ the_key := {| mtime := 50; data := Ok [the_article] |} ]};
       log := [] |} in
  let late := Stub.disk_full (Stub.env 7300 "<rss/>") in
  fst (_save_to_cache late the_key [the_article] w) = Ok false
  /\ files (snd (_save_to_cache late the_key [the_article] w)) !! the_key
     = Some {| mtime := 7300; data := Raise ValueError |}
  /\ fst (_get_from_cache searcher late the_key
            (snd (_save_to_cache late the_key [the_article] w)))
     = Ok None.
Proof. vm_compute. repeat split; reflexivity. Qed.

(** X9 on a [from_date] that is no date beside a [to_date] that is one,
    and the other way round. *)
Lemma unparseable_date_means_default_witness :
  (from_of (Stub.lib one_entry) (Stub.env 100 "<rss/>") (ArgStr "yesterday")
   = week_ago (Stub.env 100 "<rss/>")
   /\ search_news (Stub.lib one_entry) searcher (Stub.env 100 "<rss/>")
        "NVIDIA" (ArgStr "yesterday") (ArgStr "2025-01-31") 5 None false
        false Stub.empty_world
      = search_news (Stub.lib one_entry) searcher (Stub.env 100 "<rss/>")
          "NVIDIA" ArgNone (ArgStr "2025-01-31") 5 None false false
          Stub.empty_world)
  /\ (to_of (Stub.lib one_entry) (Stub.env 100 "<rss/>") (ArgStr "yesterday")
      = today (Stub.env 100 "<rss/>")
      /\ search_news (Stub.lib one_entry) searcher (Stub.env 100 "<rss/>")
           "NVIDIA" (ArgStr "2025-01-01") (ArgStr "yesterday") 5 None false
           false Stub.empty_world
         = search_news (Stub.lib one_entry) searcher (Stub.env 100 "<rss/>")
             "NVIDIA" (ArgStr "2025-01-01") ArgNone 5 None false false
             Stub.empty_world).
Proof.
  apply unparseable_date_means_default. reflexivity.
Defined.

(** X10: the search for two articles, and then, a hundred seconds later,
    a search for five with resolved links: it gets the two. *)
Lemma cached_list_answers_later_searches_witness :
  exists res,
    search_news (Stub.lib eight_entries) searcher (Stub.env 200 "<rss/>")
      "NVIDIA" january_first january_last 5 None true true
      (snd two_of_eight)
    = (Ok (PyStr.slice_to 5 res), snd two_of_eight)
    /\ (0 <= 2 -> Z.of_nat (length (PyStr.slice_to 5 res)) <= 2).
Proof.
  eexists. unfold two_of_eight.
  apply (cached_list_answers_later_searches (Stub.lib eight_entries) searcher
           (Stub.env 100 "<rss/>") (Stub.env 200 "<rss/>")).
  - reflexivity.
  - reflexivity.
  - reflexivity.
  - reflexivity.
  - vm_compute. reflexivity.
  - discriminate.
  - simpl. lia.
Defined.

(** X12 on the feed of [one_entry]. *)
Lemma search_google_news_entries_witness :
  exists l,
    fst (_search_google_news (Stub.lib one_entry) (Stub.env 100 "<rss/>")
           "NVIDIA" None Stub.empty_world) = Ok l
    /\ Forall2
         (fun e a =>
            link a = default "" (e_link e)
            /\ publish_date a = default "" (e_published e)
            /\ authors a
               = (if nonempty (default "" (e_author e))
                  then [default "" (e_author e)] else []))
         one_entry l.
Proof.
  eapply (search_google_news_entries (Stub.lib one_entry)
            (Stub.env 100 "<rss/>") "NVIDIA" None Stub.empty_world).
  - reflexivity.
  - reflexivity.
  - reflexivity.
  - reflexivity.
  - constructor; [|constructor]. intros H. discriminate H.
Defined.

(** X13 on the entry of [one_entry], whose title names the source. *)
Lemma entry_title_and_source_witness :
  title the_article ++ " - " ++ source the_article
  = "Chip maker reports results - Example News"
  /\ PyStr.contains " - " (source the_article) = false.
Proof.
  apply (entry_title_and_source (Stub.lib [])
           (Stub.entry "Chip maker reports results - Example News"
              "https://example.com/results" "2025-01-15")
           Stub.empty_world the_article).
  reflexivity.
Defined.

(** X14 on the flaky page. *)
Lemma scrape_url_trace_witness :
  exists k,
    Z.of_nat k <= AsyncScraper.retry_count fetcher
    /\ snd (AsyncScraper.scrape_url (Stub.lib []) fetcher
              (Stub.with_pages (Stub.env 0 "") pages) flaky_page
              Stub.empty_world)
       = add_log Stub.empty_world
           (retries fetcher flaky_page 0 k
            ++ [PageGet flaky_page (Z.of_nat k)]).
Proof.
  apply scrape_url_trace. simpl. lia.
Defined.

(** X15 with [retry_count = -1]. *)
Lemma scrape_url_without_attempts_witness :
  AsyncScraper.scrape_url (Stub.lib [])
    (AsyncScraper.__init__ None None (Some (-1)) None)
    (Stub.with_pages (Stub.env 0 "") pages) flaky_page Stub.empty_world
  = (Ok None, Stub.empty_world).
Proof.
  apply scrape_url_without_attempts. simpl. lia.
Defined.

(** X17 on two URLs under the default semaphore of ten. *)
Lemma batch_completes_witness :
  exists schedule,
    Forall2
      (fun u ut =>
         fst ut = u
         /\ exists r,
              snd ut = AsyncScraper.Done r
              /\ forall w,
                   fst (AsyncScraper.scrape_url (Stub.lib []) fetcher
                          (Stub.with_pages (Stub.env 0 "") pages) u w)
                   = Ok r)
      [flaky_page; dead_page]
      (AsyncScraper.tasks
         (AsyncScraper.run_schedule (Stub.lib []) fetcher
            (Stub.with_pages (Stub.env 0 "") pages) schedule
            (AsyncScraper.start fetcher [flaky_page; dead_page])))
    /\ AsyncScraper.value
         (AsyncScraper.run_schedule (Stub.lib []) fetcher
            (Stub.with_pages (Stub.env 0 "") pages) schedule
            (AsyncScraper.start fetcher [flaky_page; dead_page]))
       = AsyncScraper.max_concurrent fetcher.
Proof.
  apply batch_completes. simpl. lia.
Defined.

(** X18 on a scraper made with [max_concurrent = 0]. *)
Lemma no_permit_no_progress_witness :
  AsyncScraper.run_schedule (Stub.lib [])
    (AsyncScraper.__init__ (Some 0%nat) None None None)
    (Stub.with_pages (Stub.env 0 "") pages) [0; 1; 0; 1; 0]%nat
    (AsyncScraper.start (AsyncScraper.__init__ (Some 0%nat) None None None)
       [flaky_page; dead_page])
  = AsyncScraper.start (AsyncScraper.__init__ (Some 0%nat) None None None)
      [flaky_page; dead_page].
Proof.
  apply no_permit_no_progress. reflexivity.
Defined.

(** [GoogleSearch] with credentials, and three stand-ins for the service. *)
Definition google : GoogleSearch.t := GoogleSearch.__init__ "key" "engine".

Definition an_item (domain : string) (published : option string)
    : GoogleSearch.item :=
  {| GoogleSearch.i_title := Some "Chip maker reports results";
     GoogleSearch.i_link := Some ("https://" ++ domain ++ "/results");
     GoogleSearch.i_snippet := None;
     GoogleSearch.i_displayLink := Some domain;
     GoogleSearch.i_pagemap :=
       match published with
       | Some p =>
           Some {[ "metatags" :=
                     [({[ "article:published_time" := p ]}
                       : gmap string string)] ]}
       | None => None
       end |}.

(** a parser that takes any eight characters for the first of January *)
Definition eight_characters (s : string) : option date :=
  if (String.length s =? 8)%nat then Some (Date 2025 1 1) else None.

(** A service that answers every request with as many items as it asks
    for. *)
Definition obliging_service : GoogleSearch.Api :=
  {| GoogleSearch.build := fun _ => true;
     GoogleSearch.execute := fun r =>
       GoogleSearch.Items
         (Some (replicate (Z.to_nat (GoogleSearch.num r))
                  (an_item "example.com" (Some "2025-01-15"))));
     GoogleSearch.strptime_compact := eight_characters;
     GoogleSearch.days_since := fun _ => 30 |}.

(** A service that answers the request for the first page and fails at
    every other. *)
Definition broken_service : GoogleSearch.Api :=
  {| GoogleSearch.build := fun _ => true;
     GoogleSearch.execute := fun r =>
       if GoogleSearch.start r =? 1
       then GoogleSearch.execute obliging_service r
       else GoogleSearch.OtherError;
     GoogleSearch.strptime_compact := eight_characters;
     GoogleSearch.days_since := fun _ => 30 |}.

(** A service that answers every request with [HttpError]. *)
Definition down_service : GoogleSearch.Api :=
  {| GoogleSearch.build := fun _ => true;
     GoogleSearch.execute := fun _ => GoogleSearch.HttpError;
     GoogleSearch.strptime_compact := eight_characters;
     GoogleSearch.days_since := fun _ => 30 |}.

(** X23: the first page brings ten items, the request for the second page
    raises, and the search for 25 results returns none. *)
Lemma execute_search_failure_discards_witness :
  fst (GoogleSearch._execute_search broken_service google "NVIDIA" "d30" 25)
  = [].
Proof.
  apply (execute_search_failure_discards broken_service google "NVIDIA" "d30"
           25 (page_request google "NVIDIA" "d30" 25 10)).
  - vm_compute. right. left. reflexivity.
  - right. reflexivity.
Defined.

(** X24 on searches for 25 results. *)
Lemma http_errors_end_one_search_only_witness :
  GoogleSearch._execute_search down_service google "NVIDIA" "d30" 25
  = ([], [page_request google "NVIDIA" "d30" 25 0])
  /\ GoogleSearch._execute_search_with_date_range down_service google
       "NVIDIA" "20250101:20250131" 25 true
     = ([], map (dated_request google "NVIDIA"
                   (GoogleSearch.days_since down_service (Date 2025 1 1))
                   25 true)
                (GoogleSearch.range_step (Z.min 25 100) 10)).
Proof.
  apply (http_errors_end_one_search_only down_service google "NVIDIA" "d30"
           "20250101:20250131" "20250101" "20250131" (Date 2025 1 1)
           (Date 2025 1 1) 25 true).
  - reflexivity.
  - reflexivity.
  - reflexivity.
  - reflexivity.
  - reflexivity.
  - lia.
Defined.

(** X25 on searches for 250 results. *)
Lemma search_at_most_hundred_witness :
  (length (fst (GoogleSearch._execute_search obliging_service google "NVIDIA"
                  "d30" 250)) <= 100)%nat
  /\ (length (fst (GoogleSearch._execute_search_with_date_range
                     obliging_service google "NVIDIA" "20250101:20250131"
                     250 true)) <= 100)%nat.
Proof.
  apply search_at_most_hundred.
  intros req items [= <-]. rewrite length_replicate. lia.
Defined.

(** The three pages of a search for 25 results, and what a news search
    keeps of items with and without a date and of an item from a corporate
    domain. *)
Example pages_of_twenty_five :
  map (fun r => (GoogleSearch.start r, GoogleSearch.num r))
    (snd (GoogleSearch._execute_search obliging_service google "NVIDIA" "d30"
            25))
  = [(1, 10); (11, 10); (21, 5)]
  /\ map GoogleSearch.item_time
       [an_item "example.com" (Some "2025-01-15"); an_item "example.com" None]
     = [Some "2025-01-15"; None]
  /\ GoogleSearch.corporate (an_item "developer.NVIDIA.com" None) = true.
Proof. vm_compute. repeat split; reflexivity. Qed.

(** A page of navigation words is dropped whole, and the paragraphs of a
    longer page end up on one line. *)
Example clean_at_work :
  let page (body : string) :=
    AsyncScraper._parse_with_newspaper (Stub.lib []) "https://example.com/a"
      body in
  ArticleCleaner.c_content
    (ArticleCleaner.clean [] (page ("Menu" ++ PyText.newline ++ "Home")))
  = ""
  /\ ArticleCleaner.c_content
       (ArticleCleaner.clean []
          (page ("Results" ++ PyText.newline ++ PyText.newline
                 ++ "  The chip maker reported its results on Monday  ")))
     = "Results The chip maker reported its results on Monday".
Proof. vm_compute. repeat split; reflexivity. Qed.

End Scenario.
